(** * OIG exclusion screening: a shallow embedding of [oig_screener.py]

    The development follows the script top-down:
    - [PyStr]: the Python string primitives the script calls
      ([str.upper], [str.strip], [str.split], [in]);
    - [Frame]: the fragment of pandas the script uses, over tables whose
      rows are dictionaries from column label to cell;
    - the script's own functions, under their own names;
    - the properties of the name normalizer, the column resolver, the
      roster loader, the matching engine, the report renderer and [main].

    Text is modelled as strings of 8-bit characters read as ASCII: case
    conversion and white space follow Python on code points below 128 and
    leave the others alone.  The model is that of Python on ASCII text,
    and the properties of what the text operations return are stated for
    ASCII text ([ascii_text], [ascii_frame]).  A table has one column per
    label; the properties of the loader and of the pipeline are stated for
    tables whose labels stay distinct ([reconciled_labels]). *)

From Stdlib Require Import String Ascii List Arith Bool Lia.
From stdpp Require Import base option list strings gmap fin_maps.

Local Open Scope string_scope.
Local Open Scope list_scope.

(* stdpp freezes [String.append] under [simpl]; the proofs below compute
   with it. *)
#[local] Arguments String.append !s1 s2 : simpl nomatch.

(* ===================================================================== *)
(** ** Python string primitives *)
(* ===================================================================== *)

Module PyStr.

  (** [c.upper()] on one character: the letters a..z move down by 32. *)
Definition upper_char (c : ascii) : ascii :=
    let n := nat_of_ascii c in
    if (97 <=? n)%nat && (n <=? 122)%nat then ascii_of_nat (n - 32) else c.

  (** [c.isspace()]: TAB, LF, VT, FF, CR, the separators FS..US, and SPACE. *)
Definition isspace (c : ascii) : bool :=
    let n := nat_of_ascii c in
    ((9 <=? n)%nat && (n <=? 13)%nat) || ((28 <=? n)%nat && (n <=? 32)%nat).

  (** [s.upper()] *)
Fixpoint upper (s : string) : string :=
    match s with
    | EmptyString => EmptyString
    | String c s' => String (upper_char c) (upper s')
    end.

  (** [s.lstrip()] *)
Fixpoint lstrip (s : string) : string :=
    match s with
    | EmptyString => EmptyString
    | String c s' => if isspace c then lstrip s' else s
    end.

  (** [s.rstrip()] *)
Fixpoint rstrip (s : string) : string :=
    match s with
    | EmptyString => EmptyString
    | String c s' =>
        match rstrip s' with
        | EmptyString => if isspace c then EmptyString else String c EmptyString
        | t => String c t
        end
    end.

  (** [s.strip()] *)
Definition strip (s : string) : string := rstrip (lstrip s).

  (** [s.split(sep, 1)] for a one-character separator: at most one cut, at
      the first occurrence of [sep]; the result is never empty. *)
Fixpoint split1 (sep : ascii) (s : string) : list string :=
    match s with
    | EmptyString => [EmptyString]
    | String c s' =>
        if Ascii.eqb c sep then [EmptyString; s']
        else match split1 sep s' with
             | [] => []
             | p :: ps => String c p :: ps
             end
    end.

  (** [s.split()]: the maximal runs of non-space characters, in order.
      [tok] is the run being read. *)
Fixpoint split_go (tok : string) (s : string) : list string :=
    match s with
    | EmptyString => match tok with EmptyString => [] | _ => [tok] end
    | String c s' =>
        if isspace c
        then match tok with
             | EmptyString => split_go EmptyString s'
             | _ => tok :: split_go EmptyString s'
             end
        else split_go (tok ++ String c EmptyString) s'
    end.

Definition split (s : string) : list string := split_go EmptyString s.

  (** [w in s] on strings: [w] occurs in [s] as a contiguous substring. *)
Fixpoint contains (w s : string) : bool :=
    String.prefix w s ||
    match s with
    | EmptyString => false
    | String _ s' => contains w s'
    end.

  (** Truthiness of a string: only the empty string is falsy. *)
Definition truthy (s : string) : bool :=
    match s with EmptyString => false | _ => true end.

End PyStr.

(* ===================================================================== *)
(** ** Exceptions and results *)
(* ===================================================================== *)

(** The exceptions the script can end a call with. *)
Inductive exn : Type :=
| KeyError (label : string)          (* a column label that is not there *)
| AttributeError                     (* a string method called on NaN *)
| PyException (msg : string)         (* [raise Exception(msg)] *)
| FetchError                         (* requests / read_csv failed *)
| ReadError                          (* read_excel failed *)
| SystemExit (code : nat).           (* [sys.exit(code)] *)

Inductive result (A : Type) : Type :=
| Ok (a : A)
| Raise (e : exn).
Arguments Ok {A} a.
Arguments Raise {A} e.

Definition rbind {A B} (x : result A) (k : A -> result B) : result B :=
  match x with Ok a => k a | Raise e => Raise e end.

(** [mapM] for [result]: stops at the first element that raises. *)
Fixpoint rmap {A B} (f : A -> result B) (l : list A) : result (list B) :=
  match l with
  | [] => Ok []
  | a :: l' => rbind (f a) (fun b => rbind (rmap f l') (fun bs => Ok (b :: bs)))
  end.

(* ===================================================================== *)
(** ** The pandas fragment *)
(* ===================================================================== *)

Module Frame.

  (** A cell read with [dtype=str]: a string, or NaN ([None]). *)
Definition cell : Type := option string.

  (** A column taken out of a frame. *)
Definition Series : Type := list cell.

  (** A table: the column labels in order, and the rows in order, each row
      a dictionary from label to cell.  The script never builds a frame
      with a repeated label out of frames without one, except through
      [rename]; repeated labels are outside this model. *)
Record DataFrame : Type := mkDF {
    columns : list string;
    rows : list (gmap string cell)
  }.

  (** The cell of row [r] under label [c]. *)
Definition at_label (r : gmap string cell) (c : string) : cell :=
    default None (r !! c).

  (** [df[c]] *)
Definition getitem (df : DataFrame) (c : string) : result Series :=
    if decide (c ∈ columns df)
    then Ok (map (fun r => at_label r c) (rows df))
    else Raise (KeyError c).

  (** [df[c] = s], in place: an existing column is overwritten where it
      stands, a new one is appended at the right. *)
Definition setitem (df : DataFrame) (c : string) (s : Series) : DataFrame :=
    {| columns := if decide (c ∈ columns df) then columns df else columns df ++ [c];
       rows := zip_with (fun r v => <[c := v]> r) (rows df) s |}.

  (** The part of a row under the labels [cs]. *)
Definition restrict (cs : list string) (r : gmap string cell) : gmap string cell :=
    foldr (fun c acc => <[c := at_label r c]> acc) ∅ cs.

  (** [df[cs]] for a list of labels: a new frame. *)
Definition select (df : DataFrame) (cs : list string) : result DataFrame :=
    match List.find (fun c => bool_decide (c ∉ columns df)) cs with
    | Some c => Raise (KeyError c)
    | None => Ok {| columns := cs; rows := map (restrict cs) (rows df) |}
    end.

  (** [df[mask]] where [mask] is computed row by row. *)
Definition where_rows (keep : gmap string cell -> bool) (df : DataFrame) : DataFrame :=
    {| columns := columns df; rows := List.filter keep (rows df) |}.

  (** [df.iloc[1:]] *)
Definition iloc_from_1 (df : DataFrame) : DataFrame :=
    {| columns := columns df; rows := tail (rows df) |}.

  (** [df.rename(columns=f)] *)
Definition rename_row (f : string -> string) (cs : list string)
      (r : gmap string cell) : gmap string cell :=
    foldr (fun c acc => <[f c := at_label r c]> acc) ∅ cs.

Definition rename (f : string -> string) (df : DataFrame) : DataFrame :=
    {| columns := map f (columns df);
       rows := map (rename_row f (columns df)) (rows df) |}.

  (** [s.notna()] on one cell *)
Definition notna (c : cell) : bool :=
    match c with Some _ => true | None => false end.

  (** [s.fillna(v)] *)
Definition fillna (v : string) (s : Series) : Series :=
    map (fun c => Some (default v c)) s.

  (** [s.str.upper()] and [s.str.strip()]: NaN stays NaN. *)
Definition str_upper (s : Series) : Series := map (option_map PyStr.upper) s.
Definition str_strip (s : Series) : Series := map (option_map PyStr.strip) s.

  (** [s.apply(f)] for an [f] that calls string methods on its argument:
      on NaN (a float) the call raises [AttributeError]. *)
Definition apply (f : string -> string) (s : Series) : result Series :=
    rmap (fun c => match c with
                   | Some x => Ok (Some (f x))
                   | None => Raise AttributeError
                   end) s.

  (** The values of a row under the key labels. *)
Definition key (on : list string) (r : gmap string cell) : list cell :=
    map (at_label r) on.

  (** [df.drop_duplicates(subset=on)]: a row is kept when no earlier row
      has the same key.  [seen] holds the keys met so far. *)
Fixpoint drop_go (on : list string) (seen : list (list cell))
      (rs : list (gmap string cell)) : list (gmap string cell) :=
    match rs with
    | [] => []
    | r :: rs' =>
        if decide (key on r ∈ seen) then drop_go on seen rs'
        else r :: drop_go on (key on r :: seen) rs'
    end.

Definition drop_duplicates (on : list string) (df : DataFrame) : DataFrame :=
    {| columns := columns df; rows := drop_go on [] (rows df) |}.

  (** [pd.merge(left, right, left_on=lon, right_on=ron, how="inner")]:
      for every left row in left order, its pairings with the right rows
      of equal key in right order.  The two frames share no label in any
      call of the script (the right one carries only [OIG_*] columns), so
      the renaming of clashing labels is not modelled and a row of the
      result is the union of the two rows. *)
Definition merge_inner (left right : DataFrame) (lon ron : list string) : DataFrame :=
    {| columns := columns left ++ columns right;
       rows := flat_map
                 (fun l => map (fun r => l ∪ r)
                             (List.filter (fun r => bool_decide (key ron r = key lon l))
                                          (rows right)))
                 (rows left) |}.

  (** [df.empty] *)
Definition empty (df : DataFrame) : bool :=
    match rows df, columns df with
    | [], _ | _, [] => true
    | _, _ => false
    end.

End Frame.
Import Frame.

(* ===================================================================== *)
(** ** Name normalizer (nested in [load_employee_list]) *)
(* ===================================================================== *)

(** [parse_last]: the text before the first comma, stripped and upper-cased. *)
Definition parse_last (name_str : string) : string :=
  let parts := PyStr.split1 "," name_str in
  match parts with
  | p0 :: _ => PyStr.upper (PyStr.strip p0)
  | [] => ""
  end.

(** [parse_first]: the first blank-delimited word after the first comma. *)
Definition parse_first (name_str : string) : string :=
  let parts := PyStr.split1 "," name_str in
  if (length parts <? 2)%nat then ""
  else
    let first_part := PyStr.split (PyStr.strip (nth 1 parts "")) in
    match first_part with
    | t :: _ => PyStr.upper (PyStr.strip t)
    | [] => ""
    end.

(* ===================================================================== *)
(** ** Roster loader: the table part of [load_employee_list] *)
(* ===================================================================== *)

(** The dictionary passed to [rename] in the placeholder branch. *)
Definition placeholder_names (c : string) : string :=
  if decide (c = "Unnamed: 1") then "ID"
  else if decide (c = "Unnamed: 2") then "EMPLOYEE"
  else c.

(** Lines 78-93: keep the ID and EMPLOYEE columns, and derive LAST_NAME and
    FIRST_NAME from EMPLOYEE with the name normalizer. *)
Definition extract_and_derive (df : DataFrame) : result DataFrame :=
  rbind (select df ["ID"; "EMPLOYEE"]) (fun df =>
  rbind (getitem df "EMPLOYEE") (fun e =>
  rbind (apply parse_last e) (fun lasts =>
  let df := setitem df "LAST_NAME" lasts in
  rbind (getitem df "EMPLOYEE") (fun e =>
  rbind (apply parse_first e) (fun firsts =>
  Ok (setitem df "FIRST_NAME" firsts)))))).

(** Lines 70-93: everything [load_employee_list] does with the table that
    [read_excel] returned. *)
Definition load_employee_table (df : DataFrame) : result DataFrame :=
  let df :=
    if bool_decide ("Unnamed: 2" ∈ columns df) && bool_decide ("Unnamed: 1" ∈ columns df)
    then
      let df := where_rows (fun r => notna (at_label r "Unnamed: 2")) df in
      let df := iloc_from_1 df in
      rename placeholder_names df
    else rename PyStr.strip df in
  extract_and_derive df.

(* ===================================================================== *)
(** ** Column resolver *)
(* ===================================================================== *)

(** Truthiness of an optional label: [None] and the empty string are falsy. *)
Definition truthy_opt (o : option string) : bool :=
  match o with Some s => PyStr.truthy s | None => false end.

(** [any(w in c for w in ws)] *)
Definition any_in (ws : list string) (c : string) : bool :=
  existsb (fun w => PyStr.contains w c) ws.

Definition find_name_columns (oig_df : DataFrame)
    : result (string * string * option string * option string) :=
  let cols := columns oig_df in
  let first_cols := List.filter (PyStr.contains "FIRST") cols in
  let last_cols := List.filter (PyStr.contains "LAST") cols in
  let date_cols := List.filter (PyStr.contains "DATE") cols in
  match first_cols, last_cols with
  | first_col :: _, last_col :: _ =>
      let start_date_col := List.find (any_in ["START"; "EFFECT"]) date_cols in
      let end_date_col := List.find (any_in ["END"; "REINSTATEMENT"]) date_cols in
      let start_date_col :=
        if negb (truthy_opt start_date_col) && (0 <? length date_cols)%nat
        then nth_error date_cols 0 else start_date_col in
      let end_date_col :=
        if negb (truthy_opt end_date_col) && (1 <? length date_cols)%nat
        then nth_error date_cols 1 else end_date_col in
      Ok (first_col, last_col, start_date_col, end_date_col)
  | _, _ =>
      Raise (PyException "Could not identify FIRST_NAME or LAST_NAME columns in OIG CSV.")
  end.

(* ===================================================================== *)
(** ** Matching engine *)
(* ===================================================================== *)

(** [screen_against_oig] receives references to two frames and writes to
    both of them: the store holds the two objects the caller passed. *)
Inductive handle : Type := Emp | Oig.

Record Store : Type := mkStore { emp_df : DataFrame; oig_df : DataFrame }.

Definition frame (h : handle) (σ : Store) : DataFrame :=
  match h with Emp => emp_df σ | Oig => oig_df σ end.

Definition put_frame (h : handle) (df : DataFrame) (σ : Store) : Store :=
  match h with
  | Emp => {| emp_df := df; oig_df := oig_df σ |}
  | Oig => {| emp_df := emp_df σ; oig_df := df |}
  end.

(** Computations that read and write the store and may raise; the store
    keeps what was written before the exception. *)
Definition M (A : Type) : Type := Store -> Store * result A.

Definition ret {A} (a : A) : M A := fun σ => (σ, Ok a).

Definition bind {A B} (m : M A) (k : A -> M B) : M B :=
  fun σ => match m σ with
           | (σ', Ok a) => k a σ'
           | (σ', Raise e) => (σ', Raise e)
           end.

Declare Scope store_scope.
Delimit Scope store_scope with store.
Notation "x <- m ;; k" := (bind m (fun x => k))
  (at level 100, m at next level, right associativity) : store_scope.
Notation "m ;;; k" := (bind m (fun _ => k))
  (at level 100, right associativity) : store_scope.

Definition lift {A} (r : result A) : M A := fun σ => (σ, r).

(** [h[c]] *)
Definition col (h : handle) (c : string) : M Series :=
  fun σ => (σ, getitem (frame h σ) c).

(** [h[c] = s] *)
Definition set_col (h : handle) (c : string) (s : Series) : M unit :=
  fun σ => (put_frame h (setitem (frame h σ) c s) σ, Ok tt).

Definition the_frame (h : handle) : M DataFrame := fun σ => (σ, Ok (frame h σ)).

Definition key_labels_oig : list string := ["OIG_LAST_UP"; "OIG_FIRST_UP"].
Definition key_labels_emp : list string := ["EMP_LAST_UP"; "EMP_FIRST_UP"].

(** Lines 118-128, the exclusion side: resolve the columns, write the
    helper columns into the exclusion table, and take the deduplicated
    join table out of it. *)
Definition oig_subset_of : M DataFrame :=
  (oig <- the_frame Oig ;;
   found <- lift (find_name_columns oig) ;;
   let '(first_col, last_col, start_col, end_col) := found in
   s <- col Oig first_col ;;
   set_col Oig "OIG_FIRST_UP" (str_strip (str_upper (fillna "" s))) ;;;
   s <- col Oig last_col ;;
   set_col Oig "OIG_LAST_UP" (str_strip (str_upper (fillna "" s))) ;;;
   let subset := ["OIG_LAST_UP"; "OIG_FIRST_UP"] in
   subset <- (if truthy_opt start_col
              then s <- col Oig (default "" start_col) ;;
                   set_col Oig "OIG_START_DATE" s ;;;
                   ret (subset ++ ["OIG_START_DATE"])
              else ret subset) ;;
   subset <- (if truthy_opt end_col
              then s <- col Oig (default "" end_col) ;;
                   set_col Oig "OIG_END_DATE" s ;;;
                   ret (subset ++ ["OIG_END_DATE"])
              else ret subset) ;;
   oig <- the_frame Oig ;;
   picked <- lift (select oig subset) ;;
   ret (drop_duplicates key_labels_oig picked))%store.

(** Lines 117-140: the exclusion side, then the roster side and the join. *)
Definition screen_against_oig : M DataFrame :=
  (oig_subset <- oig_subset_of ;;
   s <- col Emp "LAST_NAME" ;;
   set_col Emp "EMP_LAST_UP" (str_strip (str_upper s)) ;;;
   s <- col Emp "FIRST_NAME" ;;
   set_col Emp "EMP_FIRST_UP" (str_strip (str_upper s)) ;;;
   emp <- the_frame Emp ;;
   ret (merge_inner emp oig_subset key_labels_emp key_labels_oig))%store.

(* ===================================================================== *)
(** ** Report renderer *)
(* ===================================================================== *)

(** What is written into a reportlab text object. *)
Inductive textop : Type :=
| SetFont (name : string) (size : nat)
| TextLine (s : string)
| MoveCursor (dx dy : nat).

(** A text object: where it starts ([x], and the distance below the top
    edge of the page) and what was written into it, in order. *)
Record TextObject : Type := mkText {
  origin : nat * nat;
  ops : list textop
}.

(** The canvas: the pages already finished, and the text objects drawn on
    the page being composed. *)
Record Canvas : Type := mkCanvas {
  pages : list (list TextObject);
  code : list TextObject
}.

Definition new_canvas : Canvas := {| pages := []; code := [] |}.

Definition beginText (x below_top : nat) : TextObject :=
  {| origin := (x, below_top); ops := [] |}.

Definition write (o : textop) (t : TextObject) : TextObject :=
  {| origin := origin t; ops := ops t ++ [o] |}.

Definition drawText (t : TextObject) (c : Canvas) : Canvas :=
  {| pages := pages c; code := code c ++ [t] |}.

Definition showPage (c : Canvas) : Canvas :=
  {| pages := pages c ++ [code c]; code := [] |}.

(** [c.save()]: a page with something drawn on it is finished first; the
    result is the document written to disk. *)
Definition save (c : Canvas) : list (list TextObject) :=
  match code c with
  | [] => pages c
  | _ => pages (showPage c)
  end.

(** [s.split(sep)] without a limit, for a one-character separator. *)
Fixpoint split_all (sep : ascii) (s : string) : list string :=
  match s with
  | EmptyString => [EmptyString]
  | String c s' =>
      if Ascii.eqb c sep then EmptyString :: split_all sep s'
      else match split_all sep s' with
           | [] => []
           | p :: ps => String c p :: ps
           end
  end.

Fixpoint spaces (n : nat) : string :=
  match n with O => EmptyString | S n' => String " " (spaces n') end.

(** The format [{v:<w}]: pad with spaces on the right up to [w]; longer
    text is kept whole.  The width counts characters, which for ASCII
    text are Python's code points. *)
Definition ljust (w : nat) (s : string) : string :=
  (s ++ spaces (w - String.length s))%string.

(** How a cell prints: NaN prints as [nan]. *)
Definition show_cell (c : cell) : string :=
  match c with Some s => s | None => "nan" end.

(** [row.get(label, "") or ""]: a missing label and the empty string give
    the empty string; NaN is truthy and stays. *)
Definition get_or_empty (r : gmap string cell) (label : string) : cell :=
  match r !! label with
  | None => Some ""
  | Some v => v
  end.

(** [row[label]] *)
Definition row_item (r : gmap string cell) (label : string) : result cell :=
  match r !! label with
  | Some v => Ok v
  | None => Raise (KeyError label)
  end.

Definition header_line : string :=
  (ljust 8 "ID" ++ " " ++ ljust 30 "EMPLOYEE NAME" ++ " " ++
   ljust 12 "EXCL START" ++ " " ++ ljust 12 "EXCL END")%string.

Definition row_line (emp_id emp_name start end_ : cell) : string :=
  (ljust 8 (show_cell emp_id) ++ " " ++ ljust 30 (show_cell emp_name) ++ " " ++
   ljust 12 (show_cell start) ++ " " ++ ljust 12 (show_cell end_))%string.

Definition lines_per_page : nat := 45.

(** The state of the loop over the rows: the canvas, the text object being
    filled, and the number of rows written on the current page. *)
Record LoopState : Type := mkLoop { canvas : Canvas; t2 : TextObject; count : nat }.

(** One pass through the body of the [for] loop (lines 172-184). *)
Definition loop_body (st : LoopState) (r : gmap string cell) : result LoopState :=
  rbind (row_item r "ID") (fun emp_id =>
  rbind (row_item r "EMPLOYEE") (fun emp_name =>
  let start := get_or_empty r "OIG_START_DATE" in
  let end_ := get_or_empty r "OIG_END_DATE" in
  let line := row_line emp_id emp_name start end_ in
  let t := write (TextLine line) (t2 st) in
  let n := S (count st) in
  if (lines_per_page <=? n)%nat
  then
    let c := showPage (drawText t (canvas st)) in
    Ok {| canvas := c;
          t2 := write (SetFont "Helvetica" 11) (beginText 40 40);
          count := 0 |}
  else Ok {| canvas := canvas st; t2 := t; count := n |})).

Fixpoint loop (st : LoopState) (rs : list (gmap string cell)) : result LoopState :=
  match rs with
  | [] => Ok st
  | r :: rs' => rbind (loop_body st r) (fun st' => loop st' rs')
  end.

(** [make_pdf_report], up to [c.save()]: the document that is written.
    [today] is the date already formatted as month name, day, year. *)
Definition make_pdf_report (today : string) (merged_df : DataFrame)
    : result (list (list TextObject)) :=
  let title := ("H&S Pharmacies LLC" ++ String "010" ("OIG Exclusion Screening Report"
                 ++ String "010" ("Date: " ++ today)))%string in
  let c := new_canvas in
  let text := write (SetFont "Helvetica-Bold" 14) (beginText 40 60) in
  let text := fold_left (fun t line => write (TextLine line) t) (split_all "010" title) text in
  let text := write (MoveCursor 0 20) text in
  let c := drawText text c in
  if Frame.empty merged_df
  then
    let t := write (SetFont "Helvetica" 12) (beginText 40 140) in
    let t := write (TextLine "No exclusions found for any active employee this month.") t in
    Ok (save (drawText t c))
  else
    let t := write (SetFont "Helvetica-Bold" 12) (beginText 40 140) in
    let t := write (TextLine header_line) t in
    let t := write (MoveCursor 0 8) t in
    let t := write (SetFont "Helvetica" 11) t in
    rbind (loop {| canvas := c; t2 := t; count := 0 |} (rows merged_df)) (fun st =>
    Ok (save (drawText (t2 st) (canvas st)))).

(* ===================================================================== *)
(** ** The process: [main] and what it calls *)
(* ===================================================================== *)

(** What the run finds outside the process. *)
Record World : Type := mkWorld {
  arg_employee_file : option string;       (* the value of -e, if given *)
  stdin_line : string;                     (* what the user types at the prompt *)
  isfile : string -> bool;                 (* os.path.isfile *)
  fetch_csv : string -> result DataFrame;  (* requests.get, then read_csv *)
  read_excel : string -> result DataFrame; (* pd.read_excel *)
  today_long : string;                     (* strftime of month name, day, year *)
  today_mmddyyyy : string                  (* strftime of month, day, year digits *)
}.

(** What the process does to the outside, in order. *)
Inductive event : Type :=
| EvPrompt (msg : string)
| EvMakedirs (dir : string)
| EvFetch (url : string)
| EvStderr (msg : string)
| EvReadExcel (path : string)
| EvSavePdf (path : string) (doc : list (list TextObject))
| EvStdout (msg : string).

(** A run against a world: the events so far and a value or an exception. *)
Definition IO (A : Type) : Type := World -> list event * result A.

Definition io_ret {A} (a : A) : IO A := fun _ => ([], Ok a).

Definition io_bind {A B} (m : IO A) (k : A -> IO B) : IO B :=
  fun w => match m w with
           | (t, Ok a) => let '(t', r) := k a w in (t ++ t', r)
           | (t, Raise e) => (t, Raise e)
           end.

Declare Scope io_scope.
Delimit Scope io_scope with io.
Notation "x <- m ;; k" := (io_bind m (fun x => k))
  (at level 100, m at next level, right associativity) : io_scope.
Notation "m ;;; k" := (io_bind m (fun _ => k))
  (at level 100, right associativity) : io_scope.

Definition emit (e : event) : IO unit := fun _ => ([e], Ok tt).
Definition ask {A} (f : World -> A) : IO A := fun w => ([], Ok (f w)).
Definition io_lift {A} (r : result A) : IO A := fun _ => ([], r).
Definition sys_exit {A} (code : nat) : IO A := fun _ => ([], Raise (SystemExit code)).

Definition OIG_CSV_URL : string := "https://oig.hhs.gov/exclusions/downloadables/UPDATED.csv".
Definition REPORTS_DIR : string := "reports".

Definition get_employee_excel_path (provided_path : option string) : IO string :=
  (if truthy_opt provided_path then io_ret (default "" provided_path)
   else
     emit (EvPrompt "Enter path to your employee list Excel file: ") ;;;
     line <- ask stdin_line ;;
     io_ret (PyStr.strip line))%io.

Definition download_oig_csv (url : string) : IO DataFrame :=
  (emit (EvFetch url) ;;;
   got <- ask (fun w => fetch_csv w url) ;;
   df <- io_lift got ;;
   io_ret (rename (fun c => PyStr.upper (PyStr.strip c)) df))%io.

Definition load_employee_list (excel_path : string) : IO DataFrame :=
  (found <- ask (fun w => isfile w excel_path) ;;
   (if negb found
    then emit (EvStderr ("ERROR: Cannot find file at '" ++ excel_path ++ "'. Exiting.")%string) ;;;
         sys_exit 1
    else io_ret tt) ;;;
   emit (EvReadExcel excel_path) ;;;
   got <- ask (fun w => read_excel w excel_path) ;;
   df <- io_lift got ;;
   io_lift (load_employee_table df))%io.

Definition main : IO unit :=
  (provided <- ask arg_employee_file ;;
   emp_file <- get_employee_excel_path provided ;;
   emit (EvMakedirs REPORTS_DIR) ;;;
   oig_df <- download_oig_csv OIG_CSV_URL ;;
   emp_df <- load_employee_list emp_file ;;
   merged <- io_lift (snd (screen_against_oig {| emp_df := emp_df; oig_df := oig_df |})) ;;
   date_str <- ask today_mmddyyyy ;;
   let output_pdf := (REPORTS_DIR ++ "/" ++ ("HSPHARMOIG_" ++ date_str ++ ".pdf"))%string in
   today <- ask today_long ;;
   doc <- io_lift (make_pdf_report today merged) ;;
   emit (EvSavePdf output_pdf doc) ;;;
   emit (EvStdout ("PDF report saved to '" ++ output_pdf ++ "'")%string))%io.

(** The exit status of the process: 0 when [main] returns, the code given
    to [sys.exit], and 1 for any other exception that reaches the top. *)
Definition exit_code {A} (r : result A) : nat :=
  match r with
  | Ok _ => 0
  | Raise (SystemExit n) => n
  | Raise _ => 1
  end.

(* ===================================================================== *)
(** ** Vocabulary of the specification *)
(* ===================================================================== *)

(** Every character of [s] passes the test [p]. *)
Fixpoint all_chars (p : ascii -> bool) (s : string) : bool :=
  match s with
  | EmptyString => true
  | String c s' => p c && all_chars p s'
  end.

(** A raw name, or a part of one, without a comma. *)
Definition no_comma (s : string) : Prop :=
  all_chars (fun c => negb (Ascii.eqb c ",")) s = true.

(** Only white space (possibly nothing at all). *)
Definition blank (s : string) : Prop := all_chars PyStr.isspace s = true.



(** Text that does not begin with white space. *)
Definition tight (s : string) : Prop :=
  match s with EmptyString => True | String c _ => PyStr.isspace c = false end.

(** *** ASCII text and tables with distinct labels *)

(** A character below 128: on these the string primitives above are
    Python's. *)
Definition ascii_char (c : ascii) : bool := (nat_of_ascii c <? 128)%nat.

(** Text of ASCII characters only. *)
Definition ascii_text (s : string) : Prop := all_chars ascii_char s = true.

(** A cell that is NaN or holds ASCII text. *)
Definition ascii_cell (c : cell) : bool :=
  match c with Some t => all_chars ascii_char t | None => true end.

(** A row whose cells are all NaN or ASCII text. *)
Definition ascii_row (r : gmap string cell) : bool :=
  forallb (fun kv => ascii_cell (snd kv)) (map_to_list r).

(** A table of ASCII text: its labels and all its cells. *)
Definition ascii_frame (df : DataFrame) : Prop :=
  forallb (all_chars ascii_char) (columns df) && forallb ascii_row (rows df) = true.

(** The labels of a raw roster once its shape is reconciled: the
    placeholders renamed when both are there, the labels trimmed
    otherwise. *)
Definition reconciled_labels (df : DataFrame) : list string :=
  if bool_decide ("Unnamed: 2" ∈ columns df) && bool_decide ("Unnamed: 1" ∈ columns df)
  then map placeholder_names (columns df)
  else map PyStr.strip (columns df).

(** [c] is the first element of [l] that passes [p]. *)
Definition first_with {A} (p : A -> bool) (l : list A) (c : A) : Prop :=
  exists pre post, l = pre ++ c :: post /\ p c = true /\ forallb (fun x => negb (p x)) pre = true.

(** [c] is the second element of [l] that passes [p]. *)
Definition second_with {A} (p : A -> bool) (l : list A) (c : A) : Prop :=
  exists pre c0 mid post,
    l = pre ++ c0 :: mid ++ c :: post /\ p c0 = true /\ p c = true /\
    forallb (fun x => negb (p x)) pre = true /\ forallb (fun x => negb (p x)) mid = true.

(** No element of [l] passes [p]. *)
Definition none_with {A} (p : A -> bool) (l : list A) : Prop :=
  forallb (fun x => negb (p x)) l = true.

(** The column tests of the resolver. *)
Definition is_first (c : string) : bool := PyStr.contains "FIRST" c.
Definition is_last (c : string) : bool := PyStr.contains "LAST" c.
Definition is_date (c : string) : bool := PyStr.contains "DATE" c.
Definition is_start_date (c : string) : bool :=
  is_date c && (PyStr.contains "START" c || PyStr.contains "EFFECT" c).
Definition is_end_date (c : string) : bool :=
  is_date c && (PyStr.contains "END" c || PyStr.contains "REINSTATEMENT" c).

(** The resolver's choice of date columns, said with [find] over the
    columns in their original order. *)
Definition start_choice (cols : list string) : option string :=
  match List.find is_start_date cols with
  | Some c => Some c
  | None => head (List.filter is_date cols)
  end.

Definition end_choice (cols : list string) : option string :=
  match List.find is_end_date cols with
  | Some c => Some c
  | None => nth_error (List.filter is_date cols) 1
  end.

(** *** The matching engine, row by row *)

(** [fillna("").str.upper().str.strip()] on one cell. *)
Definition norm_key_cell (c : cell) : cell :=
  Some (PyStr.strip (PyStr.upper (default "" c))).

(** [.str.upper().str.strip()] on one cell. *)
Definition norm_cell (c : cell) : cell :=
  option_map (fun s => PyStr.strip (PyStr.upper s)) c.

(** The labels of a frame after a column [c] has been assigned. *)
Definition add_label (c : string) (cols : list string) : list string :=
  if decide (c ∈ cols) then cols else cols ++ [c].

(** A column assignment whose values are computed row by row. *)
Definition assign (c : string) (v : gmap string cell -> cell) (df : DataFrame) : DataFrame :=
  {| columns := add_label c (columns df);
     rows := map (fun r => <[c := v r]> r) (rows df) |}.

(** [assign] only when the optional source label is truthy. *)
Definition assign_from (c : string) (src : option string) (df : DataFrame) : DataFrame :=
  if truthy_opt src then assign c (fun r => at_label r (default "" src)) df else df.

(** The exclusion table as the engine leaves it, given what the resolver
    found: the four helper columns, written in the order of the code. *)
Definition oig_prepared (f l : string) (s e : option string) (oig : DataFrame) : DataFrame :=
  assign_from "OIG_END_DATE" e
    (assign_from "OIG_START_DATE" s
       (assign "OIG_LAST_UP" (fun r => norm_key_cell (at_label r l))
          (assign "OIG_FIRST_UP" (fun r => norm_key_cell (at_label r f)) oig))).

(** The roster table as the engine leaves it. *)
Definition emp_prepared (emp : DataFrame) : DataFrame :=
  assign "EMP_FIRST_UP" (fun r => norm_cell (at_label r "FIRST_NAME"))
    (assign "EMP_LAST_UP" (fun r => norm_cell (at_label r "LAST_NAME")) emp).

(** The labels of the join table. *)
Definition subset_labels (s e : option string) : list string :=
  (["OIG_LAST_UP"; "OIG_FIRST_UP"]
     ++ (if truthy_opt s then ["OIG_START_DATE"] else []))
    ++ (if truthy_opt e then ["OIG_END_DATE"] else []).

(** The exclusion entries before deduplication: the prepared table cut
    down to the join labels. *)
Definition exclusion_entries (f l : string) (s e : option string) (oig : DataFrame)
    : DataFrame :=
  {| columns := subset_labels s e;
     rows := map (restrict (subset_labels s e)) (rows (oig_prepared f l s e oig)) |}.

(** One exclusion row with the helper cells written into it, in the order
    of the code. *)
Definition prepared_row (f l : string) (s e : option string)
    (x : gmap string cell) : gmap string cell :=
  let x := <["OIG_FIRST_UP" := norm_key_cell (at_label x f)]> x in
  let x := <["OIG_LAST_UP" := norm_key_cell (at_label x l)]> x in
  let x := if truthy_opt s then <["OIG_START_DATE" := at_label x (default "" s)]> x else x in
  if truthy_opt e then <["OIG_END_DATE" := at_label x (default "" e)]> x else x.

(** The exclusion entry made from one row of the exclusion table. *)
Definition entry_of (f l : string) (s e : option string)
    (x : gmap string cell) : gmap string cell :=
  restrict (subset_labels s e) (prepared_row f l s e x).

(** One roster row with its two key cells written into it. *)
Definition roster_row (r : gmap string cell) : gmap string cell :=
  let r := <["EMP_LAST_UP" := norm_cell (at_label r "LAST_NAME")]> r in
  <["EMP_FIRST_UP" := norm_cell (at_label r "FIRST_NAME")]> r.

(** The normalized (last, first) key of an exclusion row and of a roster
    row. *)
Definition exclusion_key (f l : string) (x : gmap string cell) : list cell :=
  [norm_key_cell (at_label x l); norm_key_cell (at_label x f)].

Definition roster_key (r : gmap string cell) : list cell :=
  [norm_cell (at_label r "LAST_NAME"); norm_cell (at_label r "FIRST_NAME")].

(** The first exclusion row, in source order, whose key is [k]. *)
Definition first_excluded (f l : string) (k : list cell)
    (excl : list (gmap string cell)) : option (gmap string cell) :=
  List.find (fun x => bool_decide (exclusion_key f l x = k)) excl.

(** What the renderer reads from a row of the result: the MatchRecord. *)
Record MatchRecord : Type := mkMatch {
  id : cell;
  fullNameRaw : cell;
  startDate : cell;
  endDate : cell
}.

Definition match_record (r : gmap string cell) : MatchRecord :=
  {| id := at_label r "ID";
     fullNameRaw := at_label r "EMPLOYEE";
     startDate := get_or_empty r "OIG_START_DATE";
     endDate := get_or_empty r "OIG_END_DATE" |}.

(** The date of an exclusion row under a resolved column; the empty string
    when the column was not resolved. *)
Definition date_under (src : option string) (x : gmap string cell) : cell :=
  if truthy_opt src then at_label x (default "" src) else Some "".

(** The inner equality join of the specification: the roster in its own
    order, each entry paired with the first exclusion row of equal key,
    entries without such a row left out. *)
Definition inner_join (f l : string) (s e : option string)
    (roster excl : list (gmap string cell)) : list MatchRecord :=
  omap (fun r =>
          option_map (fun x => {| id := at_label r "ID";
                                  fullNameRaw := at_label r "EMPLOYEE";
                                  startDate := date_under s x;
                                  endDate := date_under e x |})
                     (first_excluded f l (roster_key r) excl))
       roster.

(** *** Sample tables *)

(** An exclusion table with a single date column, two rows of one key and
    a row without a first name. *)
Definition sample_oig : DataFrame :=
  {| columns := ["LASTNAME"; "FIRSTNAME"; "EXCLDATE"];
     rows := [ list_to_map [("LASTNAME", Some "Doe"); ("FIRSTNAME", Some " jane");
                            ("EXCLDATE", Some "20240101")];
               list_to_map [("LASTNAME", Some "DOE"); ("FIRSTNAME", Some "JANE");
                            ("EXCLDATE", Some "20250101")];
               list_to_map [("LASTNAME", Some "Roe"); ("FIRSTNAME", None);
                            ("EXCLDATE", Some "20230101")] ] |}.

(** A roster as the loader returns it. *)
Definition sample_emp : DataFrame :=
  {| columns := ["ID"; "EMPLOYEE"; "LAST_NAME"; "FIRST_NAME"];
     rows := [ list_to_map [("ID", Some "7"); ("EMPLOYEE", Some "Poe, Edgar");
                            ("LAST_NAME", Some "POE"); ("FIRST_NAME", Some "EDGAR")];
               list_to_map [("ID", Some "1"); ("EMPLOYEE", Some "Doe, Jane Q");
                            ("LAST_NAME", Some "DOE"); ("FIRST_NAME", Some "JANE")];
               list_to_map [("ID", Some "2"); ("EMPLOYEE", Some "Roe");
                            ("LAST_NAME", Some "ROE"); ("FIRST_NAME", Some "")] ] |}.

Definition sample_store : Store := {| emp_df := sample_emp; oig_df := sample_oig |}.

(** *** What a call may change in a table *)

Definition helper_labels_oig : list string :=
  ["OIG_FIRST_UP"; "OIG_LAST_UP"; "OIG_START_DATE"; "OIG_END_DATE"].

Definition helper_labels_emp : list string := ["EMP_LAST_UP"; "EMP_FIRST_UP"].

(** [df'] is [df] with nothing touched but columns labelled in [H]: new
    labels, all from [H], are appended at the right; the rows are as many
    as before, in the same order, and agree on every label outside [H]. *)
Definition writes_only (H : list string) (df df' : DataFrame) : Prop :=
  (exists extra, columns df' = columns df ++ extra /\ Forall (fun c => c ∈ H) extra) /\
  length (rows df') = length (rows df) /\
  (forall i r r', rows df !! i = Some r -> rows df' !! i = Some r' ->
     forall c, c ∉ H -> r' !! c = r !! c).

(** The reading of the specification: the call leaves both tables as
    they were. *)
Definition leaves_tables_unchanged (σ : Store) : Prop :=
  fst (screen_against_oig σ) = σ.

(** The engine in closed form, exceptions included. *)
Definition screen_outcome (σ : Store) : Store * result DataFrame :=
  match find_name_columns (oig_df σ) with
  | Raise ex => (σ, Raise ex)
  | Ok (f, l, s, e) =>
      let oig' := oig_prepared f l s e (oig_df σ) in
      if decide ("LAST_NAME" ∈ columns (emp_df σ)) then
        if decide ("FIRST_NAME" ∈ columns (emp_df σ)) then
          ({| emp_df := emp_prepared (emp_df σ); oig_df := oig' |},
           Ok (merge_inner (emp_prepared (emp_df σ))
                 (drop_duplicates key_labels_oig (exclusion_entries f l s e (oig_df σ)))
                 key_labels_emp key_labels_oig))
        else
          ({| emp_df := assign "EMP_LAST_UP" (fun r => norm_cell (at_label r "LAST_NAME"))
                          (emp_df σ);
              oig_df := oig' |},
           Raise (KeyError "FIRST_NAME"))
      else ({| emp_df := emp_df σ; oig_df := oig' |}, Raise (KeyError "LAST_NAME"))
  end.

(** *** Running the engine again on the same two tables *)

Definition first_run (σ : Store) : result DataFrame := snd (screen_against_oig σ).

Definition second_run (σ : Store) : result DataFrame :=
  snd (screen_against_oig (fst (screen_against_oig σ))).

(** The MatchRecords of a run, if it returns. *)
Definition records_of (r : result DataFrame) : option (list MatchRecord) :=
  match r with
  | Ok merged => Some (map match_record (rows merged))
  | Raise _ => None
  end.

(** The reading of the specification: the second run returns the records
    of the first. *)
Definition runs_agree (σ : Store) : Prop :=
  records_of (second_run σ) = records_of (first_run σ).

(** A MatchRecord without its end date. *)
Definition sans_end (m : MatchRecord) : cell * cell * cell :=
  (id m, fullNameRaw m, startDate m).

(** The exclusion table does not yet carry a helper column. *)
Definition fresh_exclusion_table (oig : DataFrame) : Prop :=
  Forall (fun c => c ∉ columns oig) helper_labels_oig.

(** The helper labels a first run appends to a fresh exclusion table. *)
Definition extra_labels (s e : option string) : list string :=
  (["OIG_FIRST_UP"; "OIG_LAST_UP"]
     ++ (if truthy_opt s then ["OIG_START_DATE"] else []))
    ++ (if truthy_opt e then ["OIG_END_DATE"] else []).

(** What the resolver can find on the second run, given what it found on
    the first. *)
Definition rerun_start (s s2 : option string) : Prop :=
  s2 = s \/ (truthy_opt s = true /\ s2 = Some "OIG_START_DATE").

Definition rerun_end (s e e2 : option string) : Prop :=
  e2 = e \/ (truthy_opt e = true /\ e2 = Some "OIG_END_DATE") \/
  (truthy_opt s = true /\ truthy_opt e = false /\ e2 = Some "OIG_START_DATE").

(** An exclusion table with two date columns. *)
Definition sample_oig_two_dates : DataFrame :=
  {| columns := ["LASTNAME"; "FIRSTNAME"; "EXCLDATE"; "REINDATE"];
     rows := [ list_to_map [("LASTNAME", Some "Doe"); ("FIRSTNAME", Some "Jane");
                            ("EXCLDATE", Some "20240101"); ("REINDATE", None)] ] |}.

(** *** The roster loader, row by row *)

(** The roster entry made from an identity cell and a full-name cell. *)
Definition roster_entry (idv namev : cell) : gmap string cell :=
  <["FIRST_NAME" := option_map parse_first namev]>
    (<["LAST_NAME" := option_map parse_last namev]>
       (<["ID" := idv]> (<["EMPLOYEE" := namev]> ∅))).

Definition roster_columns : list string := ["ID"; "EMPLOYEE"; "LAST_NAME"; "FIRST_NAME"].

(** A raw roster with header artifacts: an empty row, the repeated header
    row, and one employee. *)
Definition sample_raw : DataFrame :=
  {| columns := ["Unnamed: 0"; "Unnamed: 1"; "Unnamed: 2"];
     rows := [ list_to_map [("Unnamed: 0", Some "Active employees"); ("Unnamed: 1", None);
                            ("Unnamed: 2", None)];
               list_to_map [("Unnamed: 0", None); ("Unnamed: 1", Some "ID");
                            ("Unnamed: 2", Some "EMPLOYEE")];
               list_to_map [("Unnamed: 0", None); ("Unnamed: 1", Some "7");
                            ("Unnamed: 2", Some "Doe, Jane Q")] ] |}.

(** A raw roster with usable names once trimmed. *)
Definition sample_plain : DataFrame :=
  {| columns := [" ID"; "EMPLOYEE "; "DEPT"];
     rows := [ list_to_map [(" ID", Some "7"); ("EMPLOYEE ", Some "Doe, Jane Q");
                            ("DEPT", Some "RX")] ] |}.

(** *** Reading a rendered document *)

(** The font in force after some writes, starting from [font]. *)
Fixpoint font_after (font : option (string * nat)) (os : list textop)
    : option (string * nat) :=
  match os with
  | [] => font
  | SetFont n sz :: os' => font_after (Some (n, sz)) os'
  | _ :: os' => font_after font os'
  end.

(** The lines written, each with the font in force when it was written. *)
Fixpoint lines_from (font : option (string * nat)) (os : list textop)
    : list (option (string * nat) * string) :=
  match os with
  | [] => []
  | SetFont n sz :: os' => lines_from (Some (n, sz)) os'
  | TextLine s :: os' => (font, s) :: lines_from font os'
  | MoveCursor _ _ :: os' => lines_from font os'
  end.

Definition lines_of (t : TextObject) : list (option (string * nat) * string) :=
  lines_from None (ops t).

(** The lines of a page that are written in a given font. *)
Definition lines_in (font : option (string * nat)) (p : list TextObject) : list string :=
  map snd (List.filter (fun fl => bool_decide (fst fl = font)) (flat_map lines_of p)).

(** The column header is the only text in bold 12 point; the data rows are
    the only text in regular 11 point. *)
Definition header_lines (p : list TextObject) : list string :=
  lines_in (Some ("Helvetica-Bold", 12)) p.

Definition data_lines (p : list TextObject) : list string :=
  lines_in (Some ("Helvetica", 11)) p.

(** The line the renderer writes for a row of the result. *)
Definition line_of_row (r : gmap string cell) : string :=
  row_line (at_label r "ID") (at_label r "EMPLOYEE")
           (get_or_empty r "OIG_START_DATE") (get_or_empty r "OIG_END_DATE").

(** The page being composed, as it would be if it were finished now. *)
Definition current_page (st : LoopState) : list TextObject :=
  code (canvas st) ++ [t2 st].

(** A result of [n] matched rows. *)
Definition sample_merged (n : nat) : DataFrame :=
  {| columns := ["ID"; "EMPLOYEE"];
     rows := List.repeat (list_to_map [("ID", Some "7"); ("EMPLOYEE", Some "Doe, Jane Q")]) n |}.

(** *** Reading a run of [main] *)

(** The roster path of a run: the command-line value, or the line typed at
    the prompt, stripped. *)
Definition roster_path (w : World) : string :=
  if truthy_opt (arg_employee_file w) then default "" (arg_employee_file w)
  else PyStr.strip (stdin_line w).

(** The prompt, when the path was not given on the command line. *)
Definition prompt_events (w : World) : list event :=
  if truthy_opt (arg_employee_file w) then []
  else [EvPrompt "Enter path to your employee list Excel file: "].

(** The message of the missing-file report. *)
Definition missing_file_message (path : string) : string :=
  ("ERROR: Cannot find file at '" ++ path ++ "'. Exiting.")%string.

(** Events that are not work on the exclusion source, the roster or the
    report: asking for the path and writing to stderr. *)
Definition no_work (ev : event) : bool :=
  match ev with
  | EvPrompt _ | EvStderr _ => true
  | _ => false
  end.

(** The reading of the specification: the run reports on stderr and exits
    with code 1, and nothing else has been done. *)
Definition exits_before_any_other_work (w : World) : Prop :=
  exit_code (snd (main w)) = 1 /\
  In (EvStderr (missing_file_message (roster_path w))) (fst (main w)) /\
  forallb no_work (fst (main w)) = true.

(** A world without the roster file, in which the exclusion source can be
    fetched. *)
Definition sample_world_missing : World :=
  {| arg_employee_file := Some "roster.xlsx";
     stdin_line := "";
     isfile := fun _ => false;
     fetch_csv := fun _ => Ok sample_oig;
     read_excel := fun _ => Raise ReadError;
     today_long := "April 05, 2025";
     today_mmddyyyy := "04052025" |}.

(* ===================================================================== *)
(** ** Further vocabulary and sample data *)
(* ===================================================================== *)

(** A row of a loaded roster: the raw name is there, the two derived names
    are its normalizations, and there is nothing under any other label
    than the four of the roster. *)
Definition loaded_row (r : gmap string cell) : Prop :=
  exists raw,
    at_label r "EMPLOYEE" = Some raw /\
    at_label r "LAST_NAME" = Some (parse_last raw) /\
    at_label r "FIRST_NAME" = Some (parse_first raw) /\
    forall c, c ∉ roster_columns -> r !! c = None.

(** A plain roster in which one employee has no name. *)
Definition sample_plain_blank : DataFrame :=
  {| columns := ["ID"; "EMPLOYEE"];
     rows := [ list_to_map [("ID", Some "7"); ("EMPLOYEE", Some "Doe, Jane Q")];
               list_to_map [("ID", Some "8"); ("EMPLOYEE", None)] ] |}.

(** A plain roster without an ID column. *)
Definition sample_plain_no_id : DataFrame :=
  {| columns := ["BADGE"; "EMPLOYEE"];
     rows := [ list_to_map [("BADGE", Some "7"); ("EMPLOYEE", Some "Doe, Jane Q")] ] |}.

(** An exclusion table whose header names no first-name column. *)
Definition sample_oig_no_first : DataFrame :=
  {| columns := ["LASTNAME"; "GIVEN"; "EXCLDATE"];
     rows := [ list_to_map [("LASTNAME", Some "Doe"); ("GIVEN", Some "Jane");
                            ("EXCLDATE", Some "20240101")] ] |}.

(** A roster that did not go through the loader: no derived names. *)
Definition sample_emp_raw_names : DataFrame :=
  {| columns := ["ID"; "EMPLOYEE"];
     rows := [ list_to_map [("ID", Some "1"); ("EMPLOYEE", Some "Doe, Jane Q")] ] |}.

(** The identity and raw name of a roster row or of a row of the result. *)
Definition who (r : gmap string cell) : cell * cell :=
  (at_label r "ID", at_label r "EMPLOYEE").

(** No roster row has the key of an exclusion row. *)
Definition no_overlap (f l : string) (roster excl : list (gmap string cell)) : Prop :=
  forall r x, In r roster -> In x excl -> exclusion_key f l x <> roster_key r.

(** The title block and the notice, as text objects. *)
Definition title_text (today : string) : TextObject :=
  {| origin := (40, 60);
     ops := [SetFont "Helvetica-Bold" 14;
             TextLine "H&S Pharmacies LLC";
             TextLine "OIG Exclusion Screening Report";
             TextLine ("Date: " ++ today)%string;
             MoveCursor 0 20] |}.

Definition notice_text : TextObject :=
  {| origin := (40, 140);
     ops := [SetFont "Helvetica" 12;
             TextLine "No exclusions found for any active employee this month."] |}.

(** Text without a line feed. *)
Definition one_line (s : string) : Prop :=
  all_chars (fun c => negb (Ascii.eqb c "010")) s = true.

(** A row the renderer can print: it has an ID and an EMPLOYEE cell. *)
Definition printable (r : gmap string cell) : Prop :=
  is_Some (r !! "ID") /\ is_Some (r !! "EMPLOYEE").

(** The three lines of the title block. *)
Definition title_block_lines (today : string) : list string :=
  ["H&S Pharmacies LLC"; "OIG Exclusion Screening Report"; ("Date: " ++ today)%string].

(** The path of the report: the reports directory, the fixed prefix and
    the run date. *)
Definition output_path (w : World) : string :=
  (REPORTS_DIR ++ "/" ++ ("HSPHARMOIG_" ++ today_mmddyyyy w ++ ".pdf"))%string.

(** How the header of the fetched table is normalized. *)
Definition header_form (c : string) : string := PyStr.upper (PyStr.strip c).

(** What [main] computes between reading the two tables and writing the
    report: the roster is loaded, screened against the fetched table with
    its normalized header, and the result rendered. *)
Definition pipeline (today : string) (fetched raw_emp : DataFrame)
    : result (list (list TextObject)) :=
  rbind (load_employee_table raw_emp) (fun emp =>
  rbind (snd (screen_against_oig
                {| emp_df := emp; oig_df := rename header_form fetched |}))
        (fun merged => make_pdf_report today merged)).

(** A whole run in closed form: the events up to the first exception, or
    up to the saved report. *)
Definition main_outcome (w : World) : list event * result unit :=
  let pre := prompt_events w ++ [EvMakedirs REPORTS_DIR; EvFetch OIG_CSV_URL] in
  let path := roster_path w in
  match fetch_csv w OIG_CSV_URL with
  | Raise ex => (pre, Raise ex)
  | Ok raw_oig =>
      if negb (isfile w path)
      then (pre ++ [EvStderr (missing_file_message path)], Raise (SystemExit 1))
      else
        match rbind (read_excel w path) (pipeline (today_long w) raw_oig) with
        | Raise ex => (pre ++ [EvReadExcel path], Raise ex)
        | Ok doc =>
            (pre ++ [EvReadExcel path; EvSavePdf (output_path w) doc;
                     EvStdout ("PDF report saved to '" ++ output_path w ++ "'")%string],
             Ok tt)
        end
  end.

(** The same world with another line typed at the prompt. *)
Definition with_stdin (line : string) (w : World) : World :=
  {| arg_employee_file := arg_employee_file w;
     stdin_line := line;
     isfile := isfile w;
     fetch_csv := fetch_csv w;
     read_excel := read_excel w;
     today_long := today_long w;
     today_mmddyyyy := today_mmddyyyy w |}.

(** An exclusion table as fetched, with a header in mixed case and with
    blanks around the labels. *)
Definition sample_oig_fetched : DataFrame :=
  {| columns := [" lastname"; "FirstName "; "ExclDate"];
     rows := [ list_to_map [(" lastname", Some "Doe"); ("FirstName ", Some " jane");
                            ("ExclDate", Some "20240101")];
               list_to_map [(" lastname", Some "Roe"); ("FirstName ", None);
                            ("ExclDate", Some "20230101")] ] |}.

(** A world in which the whole run goes through. *)
Definition sample_world_ok : World :=
  {| arg_employee_file := None;
     stdin_line := " roster.xlsx ";
     isfile := fun p => bool_decide (p = "roster.xlsx");
     fetch_csv := fun _ => Ok sample_oig_fetched;
     read_excel := fun _ => Ok sample_raw;
     today_long := "April 05, 2025";
     today_mmddyyyy := "04052025" |}.

(** A label in the form the download gives to a header: upper case, no
    white space at either end. *)
Definition header_normal (c : string) : Prop :=
  PyStr.upper c = c /\ PyStr.strip c = c.

(* ===================================================================== *)
(** * Properties *)
(* ===================================================================== *)

(** ** Strings *)

Section StringFacts.
Import PyStr.

Lemma upper_char_idem c : upper_char (upper_char c) = upper_char c.
  Proof. destruct c as [[] [] [] [] [] [] [] []]; reflexivity. Qed.

Lemma isspace_upper_char c : isspace (upper_char c) = isspace c.
  Proof. destruct c as [[] [] [] [] [] [] [] []]; reflexivity. Qed.

Lemma upper_idem s : upper (upper s) = upper s.
  Proof. induction s as [|c s IH]; simpl; [reflexivity|]. now rewrite upper_char_idem, IH. Qed.

Lemma lstrip_upper s : lstrip (upper s) = upper (lstrip s).
  Proof.
    induction s as [|c s IH]; simpl; [reflexivity|].
    rewrite isspace_upper_char. destruct (isspace c); [exact IH | reflexivity].
  Qed.

Lemma rstrip_upper s : rstrip (upper s) = upper (rstrip s).
  Proof.
    induction s as [|c s IH]; simpl; [reflexivity|].
    rewrite IH, isspace_upper_char.
    destruct (rstrip s); simpl; [destruct (isspace c)|]; reflexivity.
  Qed.

Lemma strip_upper s : strip (upper s) = upper (strip s).
  Proof. unfold strip. now rewrite lstrip_upper, rstrip_upper. Qed.

Lemma lstrip_tight s : tight (lstrip s).
  Proof.
    induction s as [|c s IH]; simpl; [exact I|].
    destruct (isspace c) eqn:E; [exact IH | exact E].
  Qed.

Lemma lstrip_of_tight s : tight s -> lstrip s = s.
  Proof. destruct s as [|c s]; simpl; [reflexivity|]. now intros ->. Qed.

Lemma rstrip_tight s : tight s -> tight (rstrip s).
  Proof.
    destruct s as [|c s]; simpl; [trivial|]. intros E.
    destruct (rstrip s); simpl; [rewrite E|]; exact E.
  Qed.

Lemma rstrip_idem s : rstrip (rstrip s) = rstrip s.
  Proof.
    induction s as [|c s IH]; simpl; [reflexivity|].
    destruct (rstrip s) as [|d t] eqn:E.
    - destruct (isspace c) eqn:Ec; simpl; [reflexivity|]. now rewrite Ec.
    - change (rstrip (String c (String d t))) with
        (match rstrip (String d t) with
         | EmptyString => if isspace c then EmptyString else String c EmptyString
         | u => String c u
         end).
      now rewrite IH.
  Qed.

Lemma strip_idem s : strip (strip s) = strip s.
  Proof.
    unfold strip.
    rewrite (lstrip_of_tight (rstrip (lstrip s))).
    - apply rstrip_idem.
    - apply rstrip_tight, lstrip_tight.
  Qed.

  (** The normal form used for join keys is stable. *)
Lemma strip_upper_idem s : strip (upper (strip (upper s))) = strip (upper s).
  Proof. now rewrite !strip_upper, strip_idem, upper_idem. Qed.


Lemma rstrip_blank s : blank s -> rstrip s = EmptyString.
  Proof.
    unfold blank. induction s as [|c s IH]; simpl; [reflexivity|].
    intros H. apply andb_true_iff in H as [-> H]. now rewrite IH.
  Qed.



  (** A token has no white space to lose. *)
Lemma rstrip_token s :
    all_chars (fun c => negb (isspace c)) s = true -> rstrip s = s.
  Proof.
    induction s as [|c s IH]; simpl; [reflexivity|].
    intros H. apply andb_true_iff in H as [Hc H]. rewrite (IH H).
    apply negb_true_iff in Hc. rewrite Hc. now destruct s.
  Qed.





Lemma app_assoc_string (a b c : string) : ((a ++ b) ++ c = a ++ (b ++ c))%string.
  Proof. induction a as [|x a IH]; simpl; [reflexivity | now rewrite IH]. Qed.








End StringFacts.

(** The primitives on sample text. *)
Example upper_sample : PyStr.upper "smith,  john" = "SMITH,  JOHN".
Proof. reflexivity. Qed.

Example strip_sample : PyStr.strip "  Jane Q  " = "Jane Q".
Proof. reflexivity. Qed.

Example split1_sample :
  PyStr.split1 "," "Doe, Jane, Jr" = ["Doe"; " Jane, Jr"] /\ PyStr.split1 "," "Doe" = ["Doe"].
Proof. split; reflexivity. Qed.

Example split_sample : PyStr.split "  JANE   Q " = ["JANE"; "Q"].
Proof. reflexivity. Qed.

Example contains_sample :
  PyStr.contains "DATE" "REINDATE" = true /\ PyStr.contains "END" "REINDATE" = false.
Proof. split; reflexivity. Qed.

(** ** The name normalizer on names without a comma *)



(** *** C4: the name normalizer *)



(** ** Lists: first and second element passing a test *)

Section FirstWith.
Context {A : Type} (p : A -> bool).

Lemma filter_none l : none_with p l -> List.filter p l = [].
  Proof.
    unfold none_with. induction l as [|x l IH]; simpl; [reflexivity|].
    intros H. apply andb_true_iff in H as [Hx H]. apply negb_true_iff in Hx.
    rewrite Hx. now apply IH.
  Qed.

Lemma filter_nil_none l : List.filter p l = [] -> none_with p l.
  Proof.
    unfold none_with. induction l as [|x l IH]; simpl; [reflexivity|].
    destruct (p x); [discriminate|]. simpl. exact IH.
  Qed.

Lemma filter_first pre c post :
    none_with p pre -> p c = true ->
    List.filter p (pre ++ c :: post) = c :: List.filter p post.
  Proof.
    intros Hpre Hc. rewrite List.filter_app, (filter_none _ Hpre). simpl. now rewrite Hc.
  Qed.

  (** The head of a filtered list is the first element passing the test. *)
Lemma filter_cons_inv l c t :
    List.filter p l = c :: t ->
    exists pre post, l = pre ++ c :: post /\ p c = true /\ none_with p pre /\
                     List.filter p post = t.
  Proof.
    induction l as [|x l IH]; simpl; [discriminate|].
    destruct (p x) eqn:Hx.
    - intros [= -> <-]. exists [], l. repeat split; auto.
    - intros H. destruct (IH H) as (pre & post & -> & Hc & Hpre & Ht).
      exists (x :: pre), post. repeat split; auto.
      unfold none_with. simpl. now rewrite Hx.
  Qed.

Lemma first_with_head l c : first_with p l c <-> head (List.filter p l) = Some c.
  Proof.
    split.
    - intros (pre & post & -> & Hc & Hpre). now rewrite (filter_first _ _ _ Hpre Hc).
    - destruct (List.filter p l) as [|x t] eqn:E; [discriminate|]. intros [= ->].
      destruct (filter_cons_inv _ _ _ E) as (pre & post & -> & Hc & Hpre & _).
      now exists pre, post.
  Qed.

Lemma second_with_nth l c :
    second_with p l c <-> nth_error (List.filter p l) 1 = Some c.
  Proof.
    split.
    - intros (pre & c0 & mid & post & -> & Hc0 & Hc & Hpre & Hmid).
      rewrite (filter_first _ _ _ Hpre Hc0), (filter_first _ _ _ Hmid Hc). reflexivity.
    - destruct (List.filter p l) as [|x [|y t]] eqn:E; try discriminate. intros [= ->].
      destruct (filter_cons_inv _ _ _ E) as (pre & post & -> & Hx & Hpre & E').
      destruct (filter_cons_inv _ _ _ E') as (mid & post' & -> & Hc & Hmid & _).
      now exists pre, x, mid, post'.
  Qed.

Lemma find_first l c : first_with p l c <-> List.find p l = Some c.
  Proof.
    rewrite first_with_head. induction l as [|x l IH]; simpl; [reflexivity|].
    destruct (p x); [reflexivity | exact IH].
  Qed.

Lemma find_none l : none_with p l <-> List.find p l = None.
  Proof.
    unfold none_with. induction l as [|x l IH]; simpl; [tauto|].
    destruct (p x); simpl; [split; discriminate | exact IH].
  Qed.

Lemma find_filter (q : A -> bool) l :
    List.find q (List.filter p l) = List.find (fun x => p x && q x) l.
  Proof.
    induction l as [|x l IH]; simpl; [reflexivity|].
    destruct (p x); simpl; [now rewrite IH | exact IH].
  Qed.

End FirstWith.

Lemma find_ext {A} (p q : A -> bool) l :
  (forall x, p x = q x) -> List.find p l = List.find q l.
Proof. intros H. induction l as [|x l IH]; simpl; [reflexivity|]. now rewrite H, IH. Qed.

(** ** Column resolver *)

Lemma is_date_truthy c : is_date c = true -> PyStr.truthy c = true.
Proof. destruct c; [discriminate | reflexivity]. Qed.

Lemma any_in_start c : is_date c && any_in ["START"; "EFFECT"] c = is_start_date c.
Proof. unfold is_start_date, any_in. simpl. now rewrite orb_false_r. Qed.

Lemma any_in_end c : is_date c && any_in ["END"; "REINSTATEMENT"] c = is_end_date c.
Proof. unfold is_end_date, any_in. simpl. now rewrite orb_false_r. Qed.

Lemma is_start_date_is_date c : is_start_date c = true -> is_date c = true.
Proof. unfold is_start_date. intros H. now apply andb_true_iff in H as [H _]. Qed.

Lemma is_end_date_is_date c : is_end_date c = true -> is_date c = true.
Proof. unfold is_end_date. intros H. now apply andb_true_iff in H as [H _]. Qed.

(** The resolver in closed form: the heads of the FIRST and LAST columns,
    and the two date choices. *)
Lemma find_name_columns_closed df :
  find_name_columns df =
  match List.filter is_first (columns df), List.filter is_last (columns df) with
  | f :: _, l :: _ => Ok (f, l, start_choice (columns df), end_choice (columns df))
  | _, _ => Raise (PyException "Could not identify FIRST_NAME or LAST_NAME columns in OIG CSV.")
  end.
Proof.
  unfold find_name_columns.
  change (PyStr.contains "FIRST") with is_first.
  change (PyStr.contains "LAST") with is_last.
  change (PyStr.contains "DATE") with is_date.
  destruct (List.filter is_first (columns df)) as [|f fs]; [reflexivity|].
  destruct (List.filter is_last (columns df)) as [|l ls]; [reflexivity|].
  do 2 f_equal; [f_equal|].
  - unfold start_choice. rewrite find_filter, (find_ext _ _ _ any_in_start).
    destruct (List.find is_start_date (columns df)) as [c|] eqn:E.
    + apply List.find_some in E as [_ E].
      simpl. now rewrite (is_date_truthy _ (is_start_date_is_date _ E)).
    + simpl. now destruct (List.filter is_date (columns df)).
  - unfold end_choice. rewrite find_filter, (find_ext _ _ _ any_in_end).
    destruct (List.find is_end_date (columns df)) as [c|] eqn:E.
    + apply List.find_some in E as [_ E].
      simpl. now rewrite (is_date_truthy _ (is_end_date_is_date _ E)).
    + simpl. now destruct (List.filter is_date (columns df)) as [|x [|y t]].
  Qed.

(** [w in s] holds exactly when [s] is [w] with text before and after. *)
Lemma prefix_spec w : forall s, String.prefix w s = true <-> exists b, s = (w ++ b)%string.
Proof.
  induction w as [|c w IH]; intros s.
  - destruct s; simpl; (split; [intros _; eauto | reflexivity]).
  - destruct s as [|d s]; simpl; [split; [discriminate | intros [b Hb]; discriminate]|].
    destruct (ascii_dec c d) as [->|Hne]; [rewrite IH|]; split.
    + intros [b ->]. now exists b.
    + intros [b [= ->]]. now exists b.
    + discriminate.
    + intros [b [= -> _]]. now destruct Hne.
Qed.

Lemma contains_unfold w s :
  PyStr.contains w s =
  String.prefix w s || match s with EmptyString => false | String _ s' => PyStr.contains w s' end.
Proof. now destruct s. Qed.

Lemma contains_spec w s :
  PyStr.contains w s = true <-> exists a b, s = (a ++ w ++ b)%string.
Proof.
  induction s as [|d s IH]; rewrite contains_unfold.
  - rewrite orb_false_r, prefix_spec. split.
    + intros [b Hb]. now exists EmptyString, b.
    + intros (a & b & H). destruct a; [now exists b | discriminate].
  - rewrite orb_true_iff, IH, prefix_spec. split.
    + intros [[b Hb] | (a & b & ->)].
      * now exists EmptyString, b.
      * now exists (String d a), b.
    + intros (a & b & H). destruct a as [|x a]; simpl in H.
      * left. now exists b.
      * right. injection H as -> ->. now exists a, b.
Qed.

(** The header of the published exclusion file: no date name contains
    START, EFFECT, END or REINSTATEMENT, so both date roles fall back on
    the position among the date columns. *)
Example resolver_on_published_header :
  find_name_columns
    (mkDF ["LASTNAME"; "FIRSTNAME"; "MIDNAME"; "BUSNAME"; "GENERAL"; "SPECIALTY"; "UPIN";
           "NPI"; "DOB"; "ADDRESS"; "CITY"; "STATE"; "ZIP"; "EXCLTYPE"; "EXCLDATE";
           "REINDATE"; "WAIVERDATE"; "WVRSTATE"] [])
  = Ok ("FIRSTNAME", "LASTNAME", Some "EXCLDATE", Some "REINDATE").
Proof. reflexivity. Qed.

(** *** C3: what the resolver returns *)

(** C3. Over the column names in their original order: resolution fails
    when no name contains FIRST or none contains LAST; otherwise firstCol
    is the first name containing FIRST and lastCol the first containing
    LAST.  startCol is the first DATE name that also contains START or
    EFFECT, else the first DATE name, else none.  endCol is the first DATE
    name that also contains END or REINSTATEMENT, else the second DATE
    name, else none.  Missing date columns never fail the resolution.
    The four sample columns are picked in role order. *)
Theorem column_resolver_roles (df : DataFrame) :
  ((none_with is_first (columns df) \/ none_with is_last (columns df)) ->
     exists msg, find_name_columns df = Raise (PyException msg)) /\
  (forall f l, first_with is_first (columns df) f -> first_with is_last (columns df) l ->
     exists s e, find_name_columns df = Ok (f, l, s, e) /\
       (forall c, first_with is_start_date (columns df) c -> s = Some c) /\
       (none_with is_start_date (columns df) ->
          forall c, first_with is_date (columns df) c -> s = Some c) /\
       (none_with is_date (columns df) -> s = None) /\
       (forall c, first_with is_end_date (columns df) c -> e = Some c) /\
       (none_with is_end_date (columns df) ->
          forall c, second_with is_date (columns df) c -> e = Some c) /\
       (none_with is_end_date (columns df) ->
          (forall c, ~ second_with is_date (columns df) c) -> e = None)) /\
  (columns df = ["LASTNAME"; "FIRSTNAME"; "EXCLUSION START DATE"; "REINSTATEMENT DATE"] ->
     find_name_columns df =
       Ok ("FIRSTNAME", "LASTNAME", Some "EXCLUSION START DATE", Some "REINSTATEMENT DATE")).
Proof.
  split; [|split].
  - intros H. rewrite find_name_columns_closed.
    destruct H as [H|H]; rewrite (filter_none _ _ H); [eauto|].
    destruct (List.filter is_first (columns df)); eauto.
  - intros f l Hf Hl. rewrite find_name_columns_closed.
    apply first_with_head in Hf, Hl.
    destruct (List.filter is_first (columns df)) as [|f' fs]; [discriminate|].
    destruct (List.filter is_last (columns df)) as [|l' ls]; [discriminate|].
    injection Hf as ->. injection Hl as ->.
    exists (start_choice (columns df)), (end_choice (columns df)).
    unfold start_choice, end_choice. repeat split.
    + intros c Hc. apply find_first in Hc. now rewrite Hc.
    + intros Hn c Hc. apply find_none in Hn. rewrite Hn.
      now apply first_with_head in Hc.
    + intros Hn. rewrite (filter_none _ _ Hn).
      destruct (List.find is_start_date (columns df)) as [c|] eqn:E; [|reflexivity].
      apply List.find_some in E as [Hin E]. apply is_start_date_is_date in E.
      unfold none_with in Hn. rewrite forallb_forall in Hn.
      specialize (Hn _ Hin). rewrite E in Hn. discriminate.
    + intros c Hc. apply find_first in Hc. now rewrite Hc.
    + intros Hn c Hc. apply find_none in Hn. rewrite Hn.
      now apply second_with_nth in Hc.
    + intros Hn H2. apply find_none in Hn. rewrite Hn.
      destruct (nth_error (List.filter is_date (columns df)) 1) as [c|] eqn:E; [|reflexivity].
      apply second_with_nth in E. now destruct (H2 c).
  - intros E. unfold find_name_columns. rewrite E. reflexivity.
Qed.

Lemma column_resolver_witness :
  exists s e,
    find_name_columns (mkDF ["NPI"; "LASTNAME"; "FIRSTNAME"; "EXCLDATE"; "REINDATE"] [])
      = Ok ("FIRSTNAME", "LASTNAME", s, e).
Proof.
  destruct (proj1 (proj2 (column_resolver_roles
                            (mkDF ["NPI"; "LASTNAME"; "FIRSTNAME"; "EXCLDATE"; "REINDATE"] [])))
              "FIRSTNAME" "LASTNAME") as (s & e & H & _).
  - exists ["NPI"; "LASTNAME"], ["EXCLDATE"; "REINDATE"]. repeat split; reflexivity.
  - exists ["NPI"], ["FIRSTNAME"; "EXCLDATE"; "REINDATE"]. repeat split; reflexivity.
  - exists s, e. exact H.
Defined.

(** ** The store monad *)

Section StoreSteps.
Context {A B : Type}.

Lemma bind_ret (a : A) (k : A -> M B) σ : bind (ret a) k σ = k a σ.
  Proof. reflexivity. Qed.

Lemma bind_the_frame h (k : DataFrame -> M B) σ :
    bind (the_frame h) k σ = k (frame h σ) σ.
  Proof. reflexivity. Qed.

Lemma bind_lift_ok (r : result A) a (k : A -> M B) σ :
    r = Ok a -> bind (lift r) k σ = k a σ.
  Proof. now intros ->. Qed.

Lemma bind_lift_raise (r : result A) e (k : A -> M B) σ :
    r = Raise e -> bind (lift r) k σ = (σ, Raise e).
  Proof. now intros ->. Qed.

Lemma bind_col_ok h c (k : Series -> M B) σ :
    c ∈ columns (frame h σ) ->
    bind (col h c) k σ = k (map (fun r => at_label r c) (rows (frame h σ))) σ.
  Proof. intros H. unfold bind, col, getitem. now rewrite decide_True. Qed.

Lemma bind_col_raise h c (k : Series -> M B) σ :
    c ∉ columns (frame h σ) -> bind (col h c) k σ = (σ, Raise (KeyError c)).
  Proof. intros H. unfold bind, col, getitem. now rewrite decide_False. Qed.

Lemma bind_set_col h c s (k : unit -> M B) σ :
    bind (set_col h c s) k σ = k tt (put_frame h (setitem (frame h σ) c s) σ).
  Proof. reflexivity. Qed.

Lemma bind_assoc {C} (m : M A) (f : A -> M B) (k : B -> M C) σ :
    bind (bind m f) k σ = bind m (fun a => bind (f a) k) σ.
  Proof. unfold bind. destruct (m σ) as [σ' [a|e]]; reflexivity. Qed.

End StoreSteps.

Lemma frame_put h df σ : frame h (put_frame h df σ) = df.
Proof. now destruct h. Qed.

(** ** Column assignment *)

Lemma zip_with_map_r {X Y Z} (f : X -> Y -> Z) (g : X -> Y) l :
  zip_with f l (map g l) = map (fun x => f x (g x)) l.
Proof. induction l as [|x l IH]; simpl; [reflexivity | now rewrite IH]. Qed.

Lemma setitem_assign df c (v : gmap string cell -> cell) :
  setitem df c (map v (rows df)) = assign c v df.
Proof. unfold setitem, assign, add_label. now rewrite zip_with_map_r. Qed.

Lemma key_series c (df : DataFrame) :
  str_strip (str_upper (fillna "" (map (fun r => at_label r c) (rows df))))
  = map (fun r => norm_key_cell (at_label r c)) (rows df).
Proof.
  unfold str_strip, str_upper, fillna. rewrite !map_map.
  apply map_ext. intros r. unfold norm_key_cell. now destruct (at_label r c).
Qed.

Lemma norm_series c (df : DataFrame) :
  str_strip (str_upper (map (fun r => at_label r c) (rows df)))
  = map (fun r => norm_cell (at_label r c)) (rows df).
Proof.
  unfold str_strip, str_upper. rewrite !map_map.
  apply map_ext. intros r. unfold norm_cell. now destruct (at_label r c).
Qed.

Lemma add_label_keeps c c' cols : c ∈ cols -> c ∈ add_label c' cols.
Proof. intros Hc. unfold add_label. case_decide; [auto|]. apply elem_of_app. now left. Qed.

Lemma add_label_has c cols : c ∈ add_label c cols.
Proof. unfold add_label. case_decide; [auto|]. apply elem_of_app. right. now left. Qed.

Lemma assign_keeps c c' v df : c ∈ columns df -> c ∈ columns (assign c' v df).
Proof. apply add_label_keeps. Qed.

Lemma assign_has c v df : c ∈ columns (assign c v df).
Proof. apply add_label_has. Qed.

Lemma assign_from_keeps c c' src df : c ∈ columns df -> c ∈ columns (assign_from c' src df).
Proof. unfold assign_from. destruct (truthy_opt src); [apply assign_keeps | auto]. Qed.

Lemma select_ok df cs :
  Forall (fun c => c ∈ columns df) cs ->
  select df cs = Ok {| columns := cs; rows := map (restrict cs) (rows df) |}.
Proof.
  intros H. unfold select.
  destruct (List.find _ cs) as [c|] eqn:E; [|reflexivity].
  apply List.find_some in E as [Hin E]. apply bool_decide_eq_true in E.
  rewrite Forall_forall in H. destruct E. apply H. now apply list_elem_of_In.
Qed.

(** ** What the resolver returns lies among the columns *)

Lemma head_filter_in {A} (p : A -> bool) l c :
  head (List.filter p l) = Some c -> c ∈ l /\ p c = true.
Proof.
  destruct (List.filter p l) as [|x t] eqn:E; [discriminate|]. intros [= ->].
  assert (H : In c (List.filter p l)) by (rewrite E; now left).
  apply List.filter_In in H as [H1 H2]. split; [now apply list_elem_of_In | exact H2].
Qed.

Lemma nth_filter_in {A} (p : A -> bool) l n c :
  nth_error (List.filter p l) n = Some c -> c ∈ l /\ p c = true.
Proof.
  intros H. apply nth_error_In in H.
  apply List.filter_In in H as [H1 H2]. split; [now apply list_elem_of_In | exact H2].
Qed.

Lemma start_choice_in cols c : start_choice cols = Some c -> c ∈ cols /\ is_date c = true.
Proof.
  unfold start_choice. destruct (List.find is_start_date cols) as [x|] eqn:E.
  - intros [= ->]. apply List.find_some in E as [H1 H2].
    split; [now apply list_elem_of_In | now apply is_start_date_is_date].
  - apply head_filter_in.
Qed.

Lemma end_choice_in cols c : end_choice cols = Some c -> c ∈ cols /\ is_date c = true.
Proof.
  unfold end_choice. destruct (List.find is_end_date cols) as [x|] eqn:E.
  - intros [= ->]. apply List.find_some in E as [H1 H2].
    split; [now apply list_elem_of_In | now apply is_end_date_is_date].
  - apply nth_filter_in.
Qed.

Lemma resolver_labels df f l s e :
  find_name_columns df = Ok (f, l, s, e) ->
  (f ∈ columns df /\ is_first f = true) /\ (l ∈ columns df /\ is_last l = true) /\
  s = start_choice (columns df) /\ e = end_choice (columns df).
Proof.
  rewrite find_name_columns_closed.
  destruct (List.filter is_first (columns df)) as [|f' fs] eqn:Ef; [discriminate|].
  destruct (List.filter is_last (columns df)) as [|l' ls] eqn:El; [discriminate|].
  intros [= -> -> <- <-]. repeat split.
  - apply (head_filter_in is_first). now rewrite Ef.
  - apply (head_filter_in is_first (columns df)). now rewrite Ef.
  - apply (head_filter_in is_last). now rewrite El.
  - apply (head_filter_in is_last (columns df)). now rewrite El.
Qed.

Lemma truthy_opt_some o : truthy_opt o = true -> exists c, o = Some c.
Proof. destruct o; [eauto | discriminate]. Qed.

(** ** The engine, run *)

Lemma frame_put_other h h' df σ : h <> h' -> frame h (put_frame h' df σ) = frame h σ.
Proof. destruct h, h'; congruence || reflexivity. Qed.

(** The optional date column: read it and write the helper, or skip. *)
Lemma date_step {B} c src (subset : list string) (k : list string -> M B) σ :
  (forall x, src = Some x -> x ∈ columns (oig_df σ)) ->
  bind (if truthy_opt src
        then bind (col Oig (default "" src))
               (fun s => bind (set_col Oig c s) (fun _ => ret (subset ++ [c])))
        else ret subset) k σ
  = k (subset ++ (if truthy_opt src then [c] else []))
      (put_frame Oig (assign_from c src (oig_df σ)) σ).
Proof.
  intros Hin. unfold assign_from. destruct (truthy_opt src) eqn:Ht.
  - destruct (truthy_opt_some _ Ht) as [x ->]. simpl default.
    rewrite bind_assoc, bind_col_ok by (apply Hin; reflexivity).
    rewrite bind_assoc, bind_set_col, bind_ret. simpl frame.
    now rewrite setitem_assign.
  - rewrite bind_ret, app_nil_r. now destruct σ.
Qed.

Lemma assign_from_has c src df :
  truthy_opt src = true -> c ∈ columns (assign_from c src df).
Proof. intros H. unfold assign_from. rewrite H. apply assign_has. Qed.

Lemma subset_in_prepared f l s e oig :
  Forall (fun c => c ∈ columns (oig_prepared f l s e oig)) (subset_labels s e).
Proof.
  unfold subset_labels, oig_prepared. apply Forall_app. split; [apply Forall_app; split|].
  - repeat constructor.
    + do 2 apply assign_from_keeps. apply assign_has.
    + do 2 apply assign_from_keeps. apply assign_keeps, assign_has.
  - destruct (truthy_opt s) eqn:Hs; repeat constructor.
    apply assign_from_keeps. now apply assign_from_has.
  - destruct (truthy_opt e) eqn:He; repeat constructor.
    now apply assign_from_has.
Qed.

Lemma oig_subset_run σ f l s e :
  find_name_columns (oig_df σ) = Ok (f, l, s, e) ->
  oig_subset_of σ =
    ({| emp_df := emp_df σ; oig_df := oig_prepared f l s e (oig_df σ) |},
     Ok (drop_duplicates key_labels_oig (exclusion_entries f l s e (oig_df σ)))).
Proof.
  intros H. destruct (resolver_labels _ _ _ _ _ H) as ([Hf _] & [Hl _] & Hs & He).
  unfold oig_subset_of.
  rewrite bind_the_frame, (bind_lift_ok _ _ _ _ H). cbv beta iota zeta.
  rewrite bind_col_ok by exact Hf. rewrite bind_set_col.
  simpl frame. rewrite key_series, setitem_assign.
  rewrite bind_col_ok by (rewrite frame_put; now apply assign_keeps).
  rewrite bind_set_col, frame_put. rewrite key_series, setitem_assign.
  rewrite date_step.
  2:{ intros x ->. cbn [oig_df put_frame]. do 2 apply assign_keeps.
      symmetry in Hs. now apply start_choice_in in Hs. }
  rewrite date_step.
  2:{ intros x ->. cbn [oig_df put_frame]. apply assign_from_keeps. do 2 apply assign_keeps.
      symmetry in He. now apply end_choice_in in He. }
  rewrite bind_the_frame. cbn [frame oig_df emp_df put_frame].
  fold (oig_prepared f l s e (oig_df σ)).
  fold (subset_labels s e).
  rewrite (bind_lift_ok _ _ _ _ (select_ok _ _ (subset_in_prepared f l s e (oig_df σ)))).
  reflexivity.
Qed.

Lemma screen_run σ f l s e :
  find_name_columns (oig_df σ) = Ok (f, l, s, e) ->
  "LAST_NAME" ∈ columns (emp_df σ) -> "FIRST_NAME" ∈ columns (emp_df σ) ->
  screen_against_oig σ =
    ({| emp_df := emp_prepared (emp_df σ); oig_df := oig_prepared f l s e (oig_df σ) |},
     Ok (merge_inner (emp_prepared (emp_df σ))
           (drop_duplicates key_labels_oig (exclusion_entries f l s e (oig_df σ)))
           key_labels_emp key_labels_oig)).
Proof.
  intros H Hl Hf. unfold screen_against_oig.
  unfold bind at 1. rewrite (oig_subset_run _ _ _ _ _ H).
  rewrite bind_col_ok by exact Hl. rewrite bind_set_col.
  cbn [frame emp_df oig_df put_frame]. rewrite norm_series, setitem_assign.
  rewrite bind_col_ok by (cbn [frame emp_df]; now apply assign_keeps).
  rewrite bind_set_col. cbn [frame emp_df oig_df put_frame].
  rewrite norm_series, setitem_assign.
  reflexivity.
Qed.


(** ** Deduplication *)

Section Dedup.
Variable on : list string.

  (** Among the rows kept, those with key [k]: none when [k] was seen
      before, otherwise exactly the first row of the source with key [k]. *)
Lemma drop_go_filter k : forall rs seen,
    List.filter (fun y => bool_decide (key on y = k)) (drop_go on seen rs)
    = if decide (k ∈ seen) then []
      else option_list (List.find (fun y => bool_decide (key on y = k)) rs).
  Proof.
    induction rs as [|r rs IH]; intros seen; simpl.
    - now case_decide.
    - destruct (decide (key on r ∈ seen)) as [Hin|Hnin].
      + rewrite IH. case_decide; [reflexivity|].
        rewrite bool_decide_eq_false_2; [reflexivity|]. now intros <-.
      + simpl. rewrite IH. case_bool_decide as Hk.
        * subst k. rewrite decide_True by (now left). now rewrite decide_False.
        * destruct (decide (k ∈ seen)) as [Hs|Hs].
          -- rewrite decide_True by (now right). reflexivity.
          -- rewrite decide_False; [reflexivity|].
             intros Hc. apply elem_of_cons in Hc as [->|]; auto.
  Qed.

Lemma drop_go_keys_fresh : forall rs seen r,
    r ∈ drop_go on seen rs -> key on r ∉ seen.
  Proof.
    induction rs as [|x rs IH]; intros seen r; simpl.
    - intros H. now apply elem_of_nil in H.
    - case_decide as Hx.
      + apply IH.
      + intros H. apply elem_of_cons in H as [->|H]; [exact Hx|].
        apply IH in H. intros Hc. apply H. now right.
  Qed.

Lemma drop_go_nodup : forall rs seen,
    NoDup (map (key on) (drop_go on seen rs)).
  Proof.
    induction rs as [|x rs IH]; intros seen; simpl.
    - constructor.
    - case_decide as Hx; [apply IH|].
      simpl. constructor; [|apply IH].
      intros Hin. apply list_elem_of_In, in_map_iff in Hin as (y & Hy & Hin).
      apply list_elem_of_In, drop_go_keys_fresh in Hin. apply Hin. rewrite Hy. now left.
  Qed.

Lemma drop_go_sublist : forall rs seen, sublist (drop_go on seen rs) rs.
  Proof.
    induction rs as [|x rs IH]; intros seen; simpl.
    - constructor.
    - case_decide; [apply sublist_cons | apply sublist_skip]; apply IH.
  Qed.

End Dedup.

(** ** Rows of the prepared tables *)

Lemma at_label_insert r c c' v :
  at_label (<[c := v]> r) c' = if decide (c = c') then v else at_label r c'.
Proof. unfold at_label. rewrite lookup_insert. now case_decide. Qed.

Lemma restrict_lookup cs r c :
  restrict cs r !! c = if decide (c ∈ cs) then Some (at_label r c) else None.
Proof.
  unfold restrict. induction cs as [|x cs IH].
  - simpl foldr. rewrite lookup_empty.
    destruct (decide (c ∈ [])) as [H|H]; [now apply elem_of_nil in H | reflexivity].
  - simpl foldr. rewrite lookup_insert. destruct (decide (x = c)) as [->|Hne].
    + now rewrite decide_True by (now left).
    + rewrite IH. destruct (decide (c ∈ cs)) as [Hin|Hnin].
      * now rewrite decide_True by (now right).
      * rewrite decide_False; [reflexivity|].
        intros Hc. apply elem_of_cons in Hc as [->|]; auto.
Qed.

Lemma at_label_restrict cs r c : c ∈ cs -> at_label (restrict cs r) c = at_label r c.
Proof. intros H. unfold at_label at 1. rewrite restrict_lookup. now rewrite decide_True. Qed.

Lemma rows_assign_from c src df :
  rows (assign_from c src df)
  = map (fun r => if truthy_opt src then <[c := at_label r (default "" src)]> r else r)
        (rows df).
Proof.
  unfold assign_from. destruct (truthy_opt src); simpl; [reflexivity|].
  now rewrite map_id.
Qed.

Lemma rows_oig_prepared f l s e oig :
  rows (oig_prepared f l s e oig) = map (prepared_row f l s e) (rows oig).
Proof.
  unfold oig_prepared. rewrite !rows_assign_from. simpl. now rewrite !map_map.
Qed.

Lemma rows_emp_prepared emp : rows (emp_prepared emp) = map roster_row (rows emp).
Proof. unfold emp_prepared. simpl. now rewrite map_map. Qed.

Lemma rows_exclusion_entries f l s e oig :
  rows (exclusion_entries f l s e oig) = map (entry_of f l s e) (rows oig).
Proof. unfold exclusion_entries. simpl. now rewrite rows_oig_prepared, map_map. Qed.

(** A label that passes none of the resolver's tests is not a name or a
    date column. *)
Lemma is_last_not_first_up l : is_last l = true -> "OIG_FIRST_UP" <> l.
Proof. intros H <-. discriminate. Qed.

Lemma is_date_not_first_up c : is_date c = true -> "OIG_FIRST_UP" <> c.
Proof. intros H <-. discriminate. Qed.

Lemma is_date_not_last_up c : is_date c = true -> "OIG_LAST_UP" <> c.
Proof. intros H <-. discriminate. Qed.

Lemma at_label_insert_eq r c v : at_label (<[c := v]> r) c = v.
Proof. rewrite at_label_insert. now rewrite decide_True. Qed.

Lemma at_label_insert_ne r c c' v : c <> c' -> at_label (<[c := v]> r) c' = at_label r c'.
Proof. intros H. rewrite at_label_insert. now rewrite decide_False. Qed.

(** Reading one helper label out of a prepared row: the writes to the
    other helper labels are skipped. *)
Ltac skip_writes c' :=
  repeat first
    [ rewrite (at_label_insert_eq _ c')
    | rewrite (at_label_insert_ne _ "OIG_END_DATE" c') by discriminate
    | rewrite (at_label_insert_ne _ "OIG_START_DATE" c') by discriminate
    | rewrite (at_label_insert_ne _ "OIG_LAST_UP" c') by discriminate
    | rewrite (at_label_insert_ne _ "OIG_FIRST_UP" c') by discriminate
    | rewrite (at_label_insert_ne _ "EMP_LAST_UP" c') by discriminate
    | rewrite (at_label_insert_ne _ "EMP_FIRST_UP" c') by discriminate ].

(** The helper cells of a prepared row. *)
Lemma prepared_first_up f l s e x :
  at_label (prepared_row f l s e x) "OIG_FIRST_UP" = norm_key_cell (at_label x f).
Proof.
  unfold prepared_row. cbv zeta.
  destruct (truthy_opt e), (truthy_opt s); now skip_writes "OIG_FIRST_UP".
Qed.

Lemma prepared_last_up f l s e x :
  is_last l = true ->
  at_label (prepared_row f l s e x) "OIG_LAST_UP" = norm_key_cell (at_label x l).
Proof.
  intros Hl. unfold prepared_row. cbv zeta.
  destruct (truthy_opt e), (truthy_opt s); skip_writes "OIG_LAST_UP";
    now rewrite at_label_insert_ne by now apply is_last_not_first_up.
Qed.

Lemma prepared_start f l s e x c :
  s = Some c -> truthy_opt s = true -> is_date c = true ->
  at_label (prepared_row f l s e x) "OIG_START_DATE" = at_label x c.
Proof.
  intros -> Ht Hc. unfold prepared_row. cbv zeta. rewrite Ht. simpl default.
  destruct (truthy_opt e); skip_writes "OIG_START_DATE";
    rewrite (at_label_insert_ne _ "OIG_LAST_UP" c) by (now apply is_date_not_last_up);
    now rewrite (at_label_insert_ne _ "OIG_FIRST_UP" c) by (now apply is_date_not_first_up).
Qed.

Lemma prepared_end f l s e x c :
  e = Some c -> truthy_opt e = true -> is_date c = true -> "OIG_START_DATE" <> c ->
  at_label (prepared_row f l s e x) "OIG_END_DATE" = at_label x c.
Proof.
  intros -> Ht Hc Hne. unfold prepared_row. cbv zeta. rewrite Ht. simpl default.
  skip_writes "OIG_END_DATE".
  destruct (truthy_opt s);
    rewrite ?(at_label_insert_ne _ "OIG_START_DATE" c) by exact Hne;
    rewrite (at_label_insert_ne _ "OIG_LAST_UP" c) by (now apply is_date_not_last_up);
    now rewrite (at_label_insert_ne _ "OIG_FIRST_UP" c) by (now apply is_date_not_first_up).
Qed.

(** The join key of an exclusion entry is the normalized (last, first)
    pair of the row it was made from. *)
Lemma key_entry_of f l s e x :
  is_last l = true ->
  key key_labels_oig (entry_of f l s e x) = exclusion_key f l x.
Proof.
  intros Hl.
  change (key key_labels_oig (entry_of f l s e x))
    with [at_label (entry_of f l s e x) "OIG_LAST_UP";
          at_label (entry_of f l s e x) "OIG_FIRST_UP"].
  unfold entry_of, exclusion_key.
  rewrite !at_label_restrict.
  - now rewrite prepared_first_up, prepared_last_up.
  - unfold subset_labels. apply elem_of_app. left. apply elem_of_app. left.
    right. now left.
  - unfold subset_labels. apply elem_of_app. left. apply elem_of_app. left. now left.
Qed.

Lemma key_roster_row r : key key_labels_emp (roster_row r) = roster_key r.
Proof.
  change (key key_labels_emp (roster_row r))
    with [at_label (roster_row r) "EMP_LAST_UP"; at_label (roster_row r) "EMP_FIRST_UP"].
  unfold roster_row, roster_key. cbv zeta.
  skip_writes "EMP_LAST_UP". skip_writes "EMP_FIRST_UP".
  now rewrite (at_label_insert_ne _ "EMP_LAST_UP" "FIRST_NAME") by discriminate.
Qed.

(** ** The join table and the rows of the result *)

Lemma find_map {A B} (p : B -> bool) (g : A -> B) l :
  List.find p (map g l) = option_map g (List.find (fun x => p (g x)) l).
Proof.
  induction l as [|x l IH]; simpl; [reflexivity|].
  destruct (p (g x)); [reflexivity | exact IH].
Qed.

(** The survivors of a key in the join table: the entry made from the
    first exclusion row with that key, and nothing else. *)
Lemma dedup_entries f l s e oig k :
  is_last l = true ->
  List.filter (fun y => bool_decide (key key_labels_oig y = k))
    (rows (drop_duplicates key_labels_oig (exclusion_entries f l s e oig)))
  = option_list (option_map (entry_of f l s e) (first_excluded f l k (rows oig))).
Proof.
  intros Hl. unfold drop_duplicates. cbn [rows].
  rewrite drop_go_filter, decide_False by apply not_elem_of_nil.
  rewrite rows_exclusion_entries, find_map. unfold first_excluded.
  do 2 f_equal. apply find_ext. intros x. now rewrite key_entry_of.
Qed.

Lemma flat_map_map {A B C} (f : B -> list C) (g : A -> B) l :
  flat_map f (map g l) = flat_map (fun x => f (g x)) l.
Proof. induction l as [|x l IH]; simpl; [reflexivity | now rewrite IH]. Qed.

(** The rows of the result: the roster in its own order, each row joined
    to the entry of the first exclusion row with its key, if there is one. *)
Lemma merged_rows f l s e emp oig :
  is_last l = true ->
  rows (merge_inner (emp_prepared emp)
          (drop_duplicates key_labels_oig (exclusion_entries f l s e oig))
          key_labels_emp key_labels_oig)
  = omap (fun r => option_map (fun x => roster_row r ∪ entry_of f l s e x)
                     (first_excluded f l (roster_key r) (rows oig)))
         (rows emp).
Proof.
  intros Hl. unfold merge_inner. cbn [rows].
  rewrite rows_emp_prepared, flat_map_map.
  induction (rows emp) as [|r rs IH]; [reflexivity|].
  cbn [flat_map omap list_omap]. rewrite IH. clear IH.
  rewrite key_roster_row, (dedup_entries _ _ _ _ _ _ Hl).
  now destruct (first_excluded f l (roster_key r) (rows oig)).
Qed.

(** *** C2: deduplication keeps the first row of every key *)

(** C2. Whenever the columns resolve, the join table is built, its keys
    are pairwise different, every entry in it comes from some exclusion
    row, and for every exclusion row [x] exactly one entry with the key of
    [x] survives: the entry, dates included, made from the first row in
    source order that has this key. *)
Theorem dedup_keeps_first_seen σ f l s e :
  find_name_columns (oig_df σ) = Ok (f, l, s, e) ->
  exists σ' sub,
    oig_subset_of σ = (σ', Ok sub) /\
    NoDup (map (key key_labels_oig) (rows sub)) /\
    (forall y, y ∈ rows sub ->
       exists x, x ∈ rows (oig_df σ) /\ y = entry_of f l s e x) /\
    (forall x, x ∈ rows (oig_df σ) ->
       exists x0,
         first_with (fun y => bool_decide (exclusion_key f l y = exclusion_key f l x))
                    (rows (oig_df σ)) x0 /\
         List.filter (fun y => bool_decide (key key_labels_oig y = exclusion_key f l x))
                     (rows sub)
         = [entry_of f l s e x0]).
Proof.
  intros H. destruct (resolver_labels _ _ _ _ _ H) as (_ & [_ Hl] & _).
  eexists _, _. split; [apply (oig_subset_run _ _ _ _ _ H)|].
  split; [apply drop_go_nodup|]. split.
  - intros y Hy. unfold drop_duplicates in Hy. cbn [rows] in Hy.
    apply (fun H => elem_of_sublist _ _ _ H (drop_go_sublist _ _ _)) in Hy.
    rewrite rows_exclusion_entries in Hy.
    apply list_elem_of_In, in_map_iff in Hy as (x & <- & Hx).
    exists x. split; [now apply list_elem_of_In | reflexivity].
  - intros x Hx. rewrite (dedup_entries _ _ _ _ _ _ Hl). unfold first_excluded.
    destruct (List.find _ (rows (oig_df σ))) as [x0|] eqn:E.
    + exists x0. split; [now apply find_first | reflexivity].
    + apply list_elem_of_In in Hx. apply (List.find_none _ _ E) in Hx.
      now rewrite bool_decide_eq_true_2 in Hx.
Qed.

Lemma dedup_witness :
  exists σ' sub,
    oig_subset_of sample_store = (σ', Ok sub) /\
    NoDup (map (key key_labels_oig) (rows sub)).
Proof.
  destruct (dedup_keeps_first_seen sample_store "FIRSTNAME" "LASTNAME" (Some "EXCLDATE") None)
    as (σ' & sub & H1 & H2 & _).
  - reflexivity.
  - exists σ', sub. split; assumption.
Defined.

(** ** From rows of the result to MatchRecords *)

Lemma subset_labels_elem c s e :
  c ∈ subset_labels s e <->
  c = "OIG_LAST_UP" \/ c = "OIG_FIRST_UP" \/
  (truthy_opt s = true /\ c = "OIG_START_DATE") \/
  (truthy_opt e = true /\ c = "OIG_END_DATE").
Proof.
  unfold subset_labels. rewrite !elem_of_app, !elem_of_cons.
  destruct (truthy_opt s), (truthy_opt e);
    rewrite ?elem_of_cons, ?elem_of_nil; intuition congruence.
Qed.

Lemma roster_row_lookup r c :
  c <> "EMP_LAST_UP" -> c <> "EMP_FIRST_UP" -> roster_row r !! c = r !! c.
Proof.
  intros H1 H2. unfold roster_row. cbv zeta.
  now rewrite !lookup_insert_ne by congruence.
Qed.

(** A roster row joined to an exclusion entry, as the renderer reads it. *)
Lemma match_record_joined f l s e r x :
  (forall c, s = Some c -> is_date c = true) ->
  (forall c, e = Some c -> is_date c = true /\ "OIG_START_DATE" <> c) ->
  r !! "OIG_START_DATE" = None -> r !! "OIG_END_DATE" = None ->
  match_record (roster_row r ∪ entry_of f l s e x)
  = {| id := at_label r "ID"; fullNameRaw := at_label r "EMPLOYEE";
       startDate := date_under s x; endDate := date_under e x |}.
Proof.
  intros Hs He Hr1 Hr2. unfold match_record, get_or_empty, at_label.
  rewrite !lookup_union, !roster_row_lookup by discriminate.
  unfold entry_of. rewrite !restrict_lookup.
  rewrite (decide_False (P := "ID" ∈ _)), (decide_False (P := "EMPLOYEE" ∈ _)).
  2,3: rewrite subset_labels_elem; intros [|[|[[_ ?]|[_ ?]]]]; discriminate.
  rewrite Hr1, Hr2. unfold date_under. f_equal.
  - now destruct (r !! "ID").
  - now destruct (r !! "EMPLOYEE").
  - destruct (truthy_opt s) eqn:Ht.
    + rewrite decide_True by (rewrite subset_labels_elem; auto).
      destruct (truthy_opt_some _ Ht) as [c ->]. simpl.
      now rewrite (prepared_start _ _ _ _ _ c eq_refl Ht (Hs _ eq_refl)).
    + rewrite decide_False; [reflexivity|].
      rewrite subset_labels_elem. intros [|[|[[? _]|[_ ?]]]]; congruence.
  - destruct (truthy_opt e) eqn:Ht.
    + rewrite decide_True by (rewrite subset_labels_elem; auto).
      destruct (truthy_opt_some _ Ht) as [c ->]. simpl.
      destruct (He _ eq_refl) as [Hd Hne].
      now rewrite (prepared_end _ _ _ _ _ c eq_refl Ht Hd Hne).
    + rewrite decide_False; [reflexivity|].
      rewrite subset_labels_elem. intros [|[|[[_ ?]|[? _]]]]; congruence.
Qed.

(** *** C1: the result is the inner join on the normalized key *)

(** C1. For a roster whose rows carry no exclusion date labels of their
    own and an exclusion table without a column named OIG_START_DATE,
    whenever the columns resolve and the roster has its LAST_NAME and
    FIRST_NAME columns, the engine returns, and the MatchRecords of its
    result are exactly the inner join on the normalized (last, first)
    key: in roster order, one record for each roster entry whose key is
    the key of some exclusion row, carrying the dates of the first such
    row (the deduplicated entry), and none for the other roster entries. *)
Theorem screen_is_inner_join σ f l s e :
  find_name_columns (oig_df σ) = Ok (f, l, s, e) ->
  "LAST_NAME" ∈ columns (emp_df σ) -> "FIRST_NAME" ∈ columns (emp_df σ) ->
  Forall (fun r => r !! "OIG_START_DATE" = None /\ r !! "OIG_END_DATE" = None)
         (rows (emp_df σ)) ->
  "OIG_START_DATE" ∉ columns (oig_df σ) ->
  exists σ' merged,
    screen_against_oig σ = (σ', Ok merged) /\
    map match_record (rows merged)
    = inner_join f l s e (rows (emp_df σ)) (rows (oig_df σ)).
Proof.
  intros H Hln Hfn Hemp Hfresh.
  destruct (resolver_labels _ _ _ _ _ H) as (_ & [_ Hl] & Hs & He).
  eexists _, _. split; [apply (screen_run _ _ _ _ _ H Hln Hfn)|].
  rewrite (merged_rows _ _ _ _ _ _ Hl). unfold inner_join.
  assert (Hsd : forall c, s = Some c -> is_date c = true).
  { intros c ->. symmetry in Hs. now apply start_choice_in in Hs. }
  assert (Hed : forall c, e = Some c -> is_date c = true /\ "OIG_START_DATE" <> c).
  { intros c ->. symmetry in He. apply end_choice_in in He as [Hin Hd].
    split; [exact Hd | intros <-; contradiction]. }
  induction Hemp as [|r rs [Hr1 Hr2] _ IH]; [reflexivity|].
  cbn [omap list_omap].
  destruct (first_excluded f l (roster_key r) (rows (oig_df σ))) as [x|];
    cbn [option_map map].
  - now rewrite IH, (match_record_joined _ _ _ _ _ _ Hsd Hed Hr1 Hr2).
  - exact IH.
Qed.

Lemma screen_is_inner_join_witness :
  exists σ' merged,
    screen_against_oig sample_store = (σ', Ok merged) /\
    map match_record (rows merged)
    = [ {| id := Some "1"; fullNameRaw := Some "Doe, Jane Q";
           startDate := Some "20240101"; endDate := Some "" |};
        {| id := Some "2"; fullNameRaw := Some "Roe";
           startDate := Some "20230101"; endDate := Some "" |} ].
Proof.
  destruct (screen_is_inner_join sample_store "FIRSTNAME" "LASTNAME" (Some "EXCLDATE") None)
    as (σ' & merged & H1 & H2).
  - reflexivity.
  - vm_compute. repeat constructor.
  - vm_compute. repeat constructor.
  - repeat constructor.
  - vm_compute. intros H. repeat (apply elem_of_cons in H as [H|H]; [discriminate|]).
    now apply elem_of_nil in H.
  - exists σ', merged. split; [exact H1|]. rewrite H2. reflexivity.
Defined.

(** ** Missing and blank name cells *)



(** A roster row joined to an entry keeps the roster's own cells. *)
Lemma joined_roster_label f l s e r x c :
  c <> "EMP_LAST_UP" -> c <> "EMP_FIRST_UP" -> c ∉ subset_labels s e ->
  at_label (roster_row r ∪ entry_of f l s e x) c = at_label r c.
Proof.
  intros H1 H2 H3. unfold at_label, entry_of.
  rewrite lookup_union, roster_row_lookup, restrict_lookup by assumption.
  rewrite decide_False by assumption. now destruct (r !! c).
Qed.



(** *** C10: a missing first name matches a roster name without a comma *)



(** ** The engine in closed form *)

Lemma screen_closed σ : screen_against_oig σ = screen_outcome σ.
Proof.
  unfold screen_outcome.
  destruct (find_name_columns (oig_df σ)) as [[[[f l] s] e]|ex] eqn:H.
  - cbv zeta. destruct (decide ("LAST_NAME" ∈ columns (emp_df σ))) as [Hl|Hl].
    + destruct (decide ("FIRST_NAME" ∈ columns (emp_df σ))) as [Hf|Hf].
      * now apply screen_run.
      * unfold screen_against_oig. unfold bind at 1.
        rewrite (oig_subset_run _ _ _ _ _ H).
        rewrite bind_col_ok by exact Hl. rewrite bind_set_col.
        cbn [frame emp_df oig_df put_frame]. rewrite norm_series, setitem_assign.
        rewrite bind_col_raise; [reflexivity|].
        cbn [frame emp_df]. unfold assign, add_label. cbn [columns].
        case_decide; [exact Hf|].
        intros Hc. apply elem_of_app in Hc as [Hc|Hc]; [now apply Hf|].
        apply elem_of_cons in Hc as [Hc|Hc]; [discriminate | now apply elem_of_nil in Hc].
    + unfold screen_against_oig. unfold bind at 1.
      rewrite (oig_subset_run _ _ _ _ _ H).
      now rewrite bind_col_raise.
  - unfold screen_against_oig, oig_subset_of. unfold bind at 1.
    rewrite bind_the_frame, (bind_lift_raise _ _ _ _ H). now destruct σ.
Qed.

(** ** What the engine writes *)

Lemma map_lookup {A B} (g : A -> B) (l : list A) i : map g l !! i = option_map g (l !! i).
Proof.
  revert i. induction l as [|x l IH]; intros [|i]; simpl; try reflexivity. apply IH.
Qed.

Section WritesOnly.
Variable H : list string.

Lemma writes_only_refl df : writes_only H df df.
  Proof.
    split; [|split].
    - exists []. now rewrite app_nil_r.
    - reflexivity.
    - intros i r r' H1 H2 c _. congruence.
  Qed.

Lemma writes_only_trans df1 df2 df3 :
    writes_only H df1 df2 -> writes_only H df2 df3 -> writes_only H df1 df3.
  Proof.
    intros ([x1 [E1 F1]] & L1 & R1) ([x2 [E2 F2]] & L2 & R2). split; [|split].
    - exists (x1 ++ x2). rewrite E2, E1, <- app_assoc. split; [reflexivity|].
      apply Forall_app. now split.
    - congruence.
    - intros i r r' H1 H3 c Hc.
      destruct (rows df2 !! i) as [r2|] eqn:E.
      + rewrite (R2 _ _ _ E H3 _ Hc). now apply (R1 _ _ _ H1 E).
      + apply lookup_ge_None in E. apply lookup_lt_Some in H1. lia.
  Qed.

Lemma writes_only_assign c v df : c ∈ H -> writes_only H df (assign c v df).
  Proof.
    intros Hc. split; [|split].
    - unfold assign, add_label. cbn [columns]. case_decide.
      + exists []. now rewrite app_nil_r.
      + exists [c]. split; [reflexivity|]. now constructor.
    - unfold assign. cbn [rows]. apply length_map.
    - intros i r r' H1 H2 c' Hc'. unfold assign in H2. cbn [rows] in H2.
      rewrite map_lookup, H1 in H2. injection H2 as <-.
      apply lookup_insert_ne. now intros ->.
  Qed.

Lemma writes_only_assign_from c src df : c ∈ H -> writes_only H df (assign_from c src df).
  Proof.
    intros Hc. unfold assign_from.
    destruct (truthy_opt src); [now apply writes_only_assign | apply writes_only_refl].
  Qed.

End WritesOnly.

Lemma writes_only_oig_prepared f l s e oig :
  writes_only helper_labels_oig oig (oig_prepared f l s e oig).
Proof.
  unfold oig_prepared.
  eapply writes_only_trans; [|apply writes_only_assign_from; set_solver].
  eapply writes_only_trans; [|apply writes_only_assign_from; set_solver].
  eapply writes_only_trans; [|apply writes_only_assign; set_solver].
  apply writes_only_assign; set_solver.
Qed.

Lemma writes_only_emp_prepared emp :
  writes_only helper_labels_emp emp (emp_prepared emp).
Proof.
  unfold emp_prepared.
  eapply writes_only_trans; [|apply writes_only_assign; set_solver].
  apply writes_only_assign; set_solver.
Qed.

(** *** C7: the call writes into its arguments *)

(** C7, the claim as stated fails: on the sample tables the call leaves
    both tables with helper columns they did not have. *)
Lemma screen_changes_its_arguments :
  ~ leaves_tables_unchanged sample_store /\
  columns (oig_df (fst (screen_against_oig sample_store)))
    = columns sample_oig ++ ["OIG_FIRST_UP"; "OIG_LAST_UP"; "OIG_START_DATE"] /\
  columns (emp_df (fst (screen_against_oig sample_store)))
    = columns sample_emp ++ ["EMP_LAST_UP"; "EMP_FIRST_UP"].
Proof.
  split; [|split]; [|reflexivity|reflexivity].
  unfold leaves_tables_unchanged. intros E.
  apply (f_equal (fun σ => length (columns (oig_df σ)))) in E.
  vm_compute in E. discriminate.
Qed.

(** C7, amended. Whatever the call ends with, it changes the two tables
    only by writing its helper columns into them: OIG_FIRST_UP,
    OIG_LAST_UP, OIG_START_DATE and OIG_END_DATE in the exclusion table,
    EMP_LAST_UP and EMP_FIRST_UP in the roster table.  Labels that were
    there keep their place and new ones go to the right; no row is added,
    dropped or moved, and every cell under any other label is as before. *)
Theorem screen_writes_only_helper_columns σ :
  writes_only helper_labels_oig (oig_df σ) (oig_df (fst (screen_against_oig σ))) /\
  writes_only helper_labels_emp (emp_df σ) (emp_df (fst (screen_against_oig σ))).
Proof.
  rewrite screen_closed. unfold screen_outcome.
  destruct (find_name_columns (oig_df σ)) as [[[[f l] s] e]|ex].
  - cbv zeta. repeat case_decide; cbn [fst emp_df oig_df]; split;
      try apply writes_only_oig_prepared;
      try apply writes_only_emp_prepared;
      try apply writes_only_refl.
    apply writes_only_assign. set_solver.
  - split; apply writes_only_refl.
Qed.

(** ** A second run on the same tables *)

Lemma fresh_labels oig :
  fresh_exclusion_table oig ->
  ("OIG_FIRST_UP" ∉ columns oig) /\ ("OIG_LAST_UP" ∉ columns oig) /\
  ("OIG_START_DATE" ∉ columns oig) /\ ("OIG_END_DATE" ∉ columns oig).
Proof.
  unfold fresh_exclusion_table, helper_labels_oig. rewrite !Forall_cons. tauto.
Qed.

Lemma add_label_fresh c cols : c ∉ cols -> add_label c cols = cols ++ [c].
Proof. intros H. unfold add_label. now rewrite decide_False. Qed.

Ltac not_among_labels :=
  rewrite ?elem_of_app, ?elem_of_cons, ?elem_of_nil;
  let Hc := fresh "Hc" in
  intros Hc; decompose [or] Hc; try discriminate; contradiction.

Lemma columns_oig_prepared f l s e oig :
  fresh_exclusion_table oig ->
  columns (oig_prepared f l s e oig) = columns oig ++ extra_labels s e.
Proof.
  intros H. destruct (fresh_labels _ H) as (H1 & H2 & H3 & H4).
  unfold oig_prepared, assign_from, extra_labels.
  destruct (truthy_opt s), (truthy_opt e); unfold assign; cbn [columns];
    rewrite (add_label_fresh "OIG_FIRST_UP") by not_among_labels;
    rewrite (add_label_fresh "OIG_LAST_UP") by not_among_labels;
    rewrite ?(add_label_fresh "OIG_START_DATE") by not_among_labels;
    rewrite ?(add_label_fresh "OIG_END_DATE") by not_among_labels;
    rewrite <- ?app_assoc; reflexivity.
Qed.

Lemma find_app {A} (p : A -> bool) a b :
  List.find p (a ++ b) = match List.find p a with Some x => Some x | None => List.find p b end.
Proof. induction a as [|x a IH]; simpl; [reflexivity|]. destruct (p x); [reflexivity | exact IH]. Qed.

Lemma start_choice_truthy cols :
  truthy_opt (start_choice cols) = match List.filter is_date cols with [] => false | _ => true end.
Proof.
  unfold start_choice. destruct (List.find is_start_date cols) as [c|] eqn:E.
  - apply List.find_some in E as [Hin E]. apply is_start_date_is_date in E.
    simpl. rewrite (is_date_truthy _ E).
    destruct (List.filter is_date cols) eqn:F; [|reflexivity].
    assert (Hc : In c (List.filter is_date cols)) by (apply List.filter_In; now split).
    rewrite F in Hc. destruct Hc.
  - destruct (List.filter is_date cols) as [|d ds] eqn:F; [reflexivity|].
    simpl. apply is_date_truthy.
    assert (Hd : In d (List.filter is_date cols)) by (rewrite F; now left).
    now apply List.filter_In in Hd.
Qed.

Lemma find_end_date_none cols :
  List.filter is_date cols = [] -> List.find is_end_date cols = None.
Proof.
  intros F. destruct (List.find is_end_date cols) as [c|] eqn:E; [|reflexivity].
  apply List.find_some in E as [Hin E]. apply is_end_date_is_date in E.
  assert (Hc : In c (List.filter is_date cols)) by (apply List.filter_In; now split).
  rewrite F in Hc. destruct Hc.
Qed.

Lemma find_start_date_none cols :
  List.filter is_date cols = [] -> List.find is_start_date cols = None.
Proof.
  intros F. destruct (List.find is_start_date cols) as [c|] eqn:E; [|reflexivity].
  apply List.find_some in E as [Hin E]. apply is_start_date_is_date in E.
  assert (Hc : In c (List.filter is_date cols)) by (apply List.filter_In; now split).
  rewrite F in Hc. destruct Hc.
Qed.

Lemma nth_filter_truthy cols n c :
  nth_error (List.filter is_date cols) n = Some c -> PyStr.truthy c = true.
Proof. intros H. apply nth_filter_in in H as [_ H]. now apply is_date_truthy. Qed.

Lemma end_choice_no_date cols : List.filter is_date cols = [] -> end_choice cols = None.
Proof. intros F. unfold end_choice. now rewrite (find_end_date_none _ F), F. Qed.

(** The start column of the second run. *)
Lemma rerun_start_choice cols :
  rerun_start (start_choice cols)
    (start_choice (cols ++ extra_labels (start_choice cols) (end_choice cols))).
Proof.
  unfold rerun_start. rewrite start_choice_truthy.
  unfold extra_labels. rewrite start_choice_truthy.
  unfold start_choice. rewrite !find_app, !List.filter_app.
  destruct (List.find is_start_date cols) as [c|] eqn:E; [now left|].
  destruct (List.filter is_date cols) as [|d ds] eqn:F.
  - left. now rewrite (end_choice_no_date _ F).
  - right. split; [reflexivity|]. now destruct (truthy_opt (end_choice cols)).
Qed.

(** The end column of the second run. *)
Lemma rerun_end_choice cols :
  rerun_end (start_choice cols) (end_choice cols)
    (end_choice (cols ++ extra_labels (start_choice cols) (end_choice cols))).
Proof.
  unfold rerun_end, extra_labels. rewrite start_choice_truthy.
  unfold end_choice. rewrite !find_app, !List.filter_app.
  destruct (List.filter is_date cols) as [|d ds] eqn:F.
  - left. rewrite (find_end_date_none _ F). reflexivity.
  - destruct (List.find is_end_date cols) as [c|] eqn:E; [now left|].
    destruct ds as [|d' ds].
    + right. right. repeat split; reflexivity.
    + right. left. simpl. rewrite (nth_filter_truthy cols 1 d') by (now rewrite F).
      split; reflexivity.
Qed.

Lemma rerun_resolver f l s e oig :
  find_name_columns oig = Ok (f, l, s, e) -> fresh_exclusion_table oig ->
  exists s2 e2,
    find_name_columns (oig_prepared f l s e oig) = Ok (f, l, s2, e2) /\
    rerun_start s s2 /\ rerun_end s e e2.
Proof.
  intros H Hfresh. pose proof H as H0. rewrite find_name_columns_closed in H0.
  rewrite find_name_columns_closed, (columns_oig_prepared _ _ _ _ _ Hfresh).
  rewrite !List.filter_app.
  destruct (List.filter is_first (columns oig)) as [|f' fs]; [discriminate|].
  destruct (List.filter is_last (columns oig)) as [|l' ls]; [discriminate|].
  injection H0 as -> -> <- <-. cbn [app].
  eexists _, _. split; [reflexivity|]. split.
  - apply rerun_start_choice.
  - apply rerun_end_choice.
Qed.

(** *** The prepared row, label by label *)

Lemma not_helper c :
  c ∉ helper_labels_oig ->
  "OIG_FIRST_UP" <> c /\ "OIG_LAST_UP" <> c /\ "OIG_START_DATE" <> c /\ "OIG_END_DATE" <> c.
Proof.
  unfold helper_labels_oig. rewrite !elem_of_cons, elem_of_nil. intros H.
  repeat split; intros <-; apply H; tauto.
Qed.

Lemma fresh_not_helper oig c :
  fresh_exclusion_table oig -> c ∈ columns oig -> c ∉ helper_labels_oig.
Proof.
  intros Hf Hc Hin. unfold fresh_exclusion_table in Hf. rewrite Forall_forall in Hf.
  now apply (Hf _ Hin).
Qed.

(** The row before the end-date helper is written. *)
Lemma prepared_row_split f l s e x :
  prepared_row f l s e x
  = if truthy_opt e
    then <["OIG_END_DATE" := at_label (prepared_row f l s None x) (default "" e)]>
           (prepared_row f l s None x)
    else prepared_row f l s None x.
Proof. reflexivity. Qed.

Lemma prepared_lookup_other f l s e x c :
  c ∉ helper_labels_oig -> prepared_row f l s e x !! c = x !! c.
Proof.
  intros Hc. destruct (not_helper _ Hc) as (H1 & H2 & H3 & H4).
  unfold prepared_row. cbv zeta.
  destruct (truthy_opt e), (truthy_opt s); now rewrite !lookup_insert_ne by assumption.
Qed.

Lemma prepared_at_other f l s e x c :
  c ∉ helper_labels_oig -> at_label (prepared_row f l s e x) c = at_label x c.
Proof. intros Hc. unfold at_label. now rewrite prepared_lookup_other. Qed.

Lemma at_label_of_lookup (r : gmap string cell) (c : string) (v : cell) :
  r !! c = Some v -> at_label r c = v.
Proof. intros H. unfold at_label, cell in *. now rewrite H. Qed.

Lemma prepared_lookup_first_up f l s e x :
  prepared_row f l s e x !! "OIG_FIRST_UP" = Some (norm_key_cell (at_label x f)).
Proof.
  unfold prepared_row. cbv zeta.
  destruct (truthy_opt e), (truthy_opt s);
    rewrite ?(lookup_insert_ne _ "OIG_END_DATE" "OIG_FIRST_UP") by discriminate;
    rewrite ?(lookup_insert_ne _ "OIG_START_DATE" "OIG_FIRST_UP") by discriminate;
    rewrite (lookup_insert_ne _ "OIG_LAST_UP" "OIG_FIRST_UP") by discriminate;
    apply lookup_insert_eq.
Qed.

Lemma prepared_lookup_last_up f l s e x :
  "OIG_FIRST_UP" <> l ->
  prepared_row f l s e x !! "OIG_LAST_UP" = Some (norm_key_cell (at_label x l)).
Proof.
  intros Hl. unfold prepared_row. cbv zeta.
  destruct (truthy_opt e), (truthy_opt s);
    rewrite ?(lookup_insert_ne _ "OIG_END_DATE" "OIG_LAST_UP") by discriminate;
    rewrite ?(lookup_insert_ne _ "OIG_START_DATE" "OIG_LAST_UP") by discriminate;
    rewrite lookup_insert_eq;
    now rewrite (at_label_insert_ne _ "OIG_FIRST_UP" l) by assumption.
Qed.

Lemma prepared_lookup_start f l e x c :
  truthy_opt (Some c) = true -> c ∉ helper_labels_oig ->
  prepared_row f l (Some c) e x !! "OIG_START_DATE" = Some (at_label x c).
Proof.
  intros Ht Hc. destruct (not_helper _ Hc) as (H1 & H2 & H3 & H4).
  unfold prepared_row. cbv zeta. rewrite Ht. simpl default.
  destruct (truthy_opt e);
    rewrite ?(lookup_insert_ne _ "OIG_END_DATE" "OIG_START_DATE") by discriminate;
    rewrite lookup_insert_eq;
    now rewrite !at_label_insert_ne by assumption.
Qed.

Lemma prepared_lookup_end f l s x c :
  truthy_opt (Some c) = true -> c ∉ helper_labels_oig ->
  prepared_row f l s (Some c) x !! "OIG_END_DATE" = Some (at_label x c).
Proof.
  intros Ht Hc. rewrite prepared_row_split, Ht. simpl default.
  rewrite lookup_insert_eq. now rewrite prepared_at_other.
Qed.

(** *** Preparing a prepared row again *)

Section Again.
Variables (f l : string) (s e : option string) (x : gmap string cell).
Hypothesis Hf : f ∉ helper_labels_oig.
Hypothesis Hl : l ∉ helper_labels_oig.
Hypothesis Hs : forall c, s = Some c -> c ∉ helper_labels_oig.
Hypothesis He : forall c, e = Some c -> c ∉ helper_labels_oig.

  (** Up to the start date, the second pass writes what is there. *)
Lemma prepared_again_start s2 :
    rerun_start s s2 ->
    prepared_row f l s2 None (prepared_row f l s e x) = prepared_row f l s e x.
  Proof.
    intros Hs2. set (x' := prepared_row f l s e x).
    assert (E1 : <["OIG_FIRST_UP" := norm_key_cell (at_label x' f)]> x' = x').
    { apply insert_id. unfold x'. now rewrite prepared_at_other, prepared_lookup_first_up. }
    assert (E2 : <["OIG_LAST_UP" := norm_key_cell (at_label x' l)]> x' = x').
    { apply insert_id. unfold x'. rewrite prepared_at_other by assumption.
      apply prepared_lookup_last_up. now destruct (not_helper _ Hl). }
    unfold prepared_row at 1. cbv zeta. fold x'. rewrite E1, E2.
    change (truthy_opt None) with false. cbv iota.
    destruct (truthy_opt s2) eqn:Ht; [|reflexivity].
    apply insert_id.
    destruct Hs2 as [->|[Hts ->]].
    - destruct (truthy_opt_some _ Ht) as [c ->]. simpl default. unfold x'.
      rewrite prepared_at_other by now apply Hs.
      apply prepared_lookup_start; [exact Ht | now apply Hs].
    - destruct (truthy_opt_some _ Hts) as [c Hc]. subst s. simpl default.
      assert (E : x' !! "OIG_START_DATE" = Some (at_label x c)).
      { unfold x'. apply prepared_lookup_start; [exact Hts | now apply Hs]. }
      now rewrite (at_label_of_lookup _ _ _ E).
  Qed.

  (** The whole second pass: nothing changes, unless the start helper is
      taken for the end column; then only OIG_END_DATE is written. *)
Lemma prepared_again s2 e2 :
    rerun_start s s2 -> rerun_end s e e2 ->
    prepared_row f l s2 e2 (prepared_row f l s e x)
    = if truthy_opt e || negb (truthy_opt s) then prepared_row f l s e x
      else if truthy_opt e2
           then <["OIG_END_DATE" := at_label (prepared_row f l s e x) (default "" e2)]>
                  (prepared_row f l s e x)
           else prepared_row f l s e x.
  Proof.
    intros Hs2 He2. rewrite prepared_row_split, (prepared_again_start _ Hs2).
    destruct (truthy_opt e) eqn:Hte; cbn [orb].
    - destruct (truthy_opt_some _ Hte) as [c Hc]. subst e.
      destruct He2 as [->|[[_ ->]|(_ & Hx & _)]]; [| |congruence].
      + rewrite Hte. simpl default. apply insert_id.
        rewrite prepared_at_other by now apply He.
        apply prepared_lookup_end; [exact Hte | now apply He].
      + change (truthy_opt (Some "OIG_END_DATE")) with true. cbv iota. simpl default.
        apply insert_id.
        assert (E : prepared_row f l s (Some c) x !! "OIG_END_DATE" = Some (at_label x c)).
        { apply prepared_lookup_end; [exact Hte | now apply He]. }
        now rewrite (at_label_of_lookup _ _ _ E).
    - destruct (truthy_opt s) eqn:Hts; cbn [negb]; [reflexivity|].
      destruct He2 as [->|[[Hx _]|(Hx & _)]]; [|congruence..].
      now rewrite Hte.
  Qed.

End Again.

(** *** The two runs compared *)

Lemma rerun_start_truthy s s2 : rerun_start s s2 -> truthy_opt s2 = truthy_opt s.
Proof. intros [->|[H ->]]; [reflexivity | now rewrite H]. Qed.

Lemma rerun_end_truthy s e e2 :
  rerun_end s e e2 -> truthy_opt e || negb (truthy_opt s) = true ->
  truthy_opt e2 = truthy_opt e.
Proof.
  intros [->|[[H ->]|(Hs & He & _)]] Hg; [reflexivity | now rewrite H |].
  rewrite Hs, He in Hg. discriminate.
Qed.

Lemma subset_labels_truthy s e s2 e2 :
  truthy_opt s2 = truthy_opt s -> truthy_opt e2 = truthy_opt e ->
  subset_labels s2 e2 = subset_labels s e.
Proof. intros H1 H2. unfold subset_labels. now rewrite H1, H2. Qed.

Lemma subset_labels_off_end s e s2 e2 c :
  truthy_opt s2 = truthy_opt s -> c <> "OIG_END_DATE" ->
  c ∈ subset_labels s2 e2 <-> c ∈ subset_labels s e.
Proof. intros H Hc. rewrite !subset_labels_elem, H. intuition congruence. Qed.

Section EntriesAgain.
Variables (f l : string) (s e s2 e2 : option string).
Hypothesis Hf : f ∉ helper_labels_oig.
Hypothesis Hl : l ∉ helper_labels_oig.
Hypothesis Hs : forall c, s = Some c -> c ∉ helper_labels_oig.
Hypothesis He : forall c, e = Some c -> c ∉ helper_labels_oig.
Hypothesis Hs2 : rerun_start s s2.
Hypothesis He2 : rerun_end s e e2.

  (** The entry of the second run agrees with the entry of the first on
      every label but OIG_END_DATE. *)
Lemma entry_again_off_end x c :
    c <> "OIG_END_DATE" ->
    entry_of f l s2 e2 (prepared_row f l s e x) !! c = entry_of f l s e x !! c.
  Proof.
    intros Hc. unfold entry_of. rewrite !restrict_lookup.
    pose proof (subset_labels_off_end s e s2 e2 c (rerun_start_truthy _ _ Hs2) Hc) as Hm.
    destruct (decide (c ∈ subset_labels s2 e2)) as [H2|H2],
             (decide (c ∈ subset_labels s e)) as [H1|H1]; try tauto.
    f_equal. rewrite (prepared_again f l s e x Hf Hl Hs He s2 e2 Hs2 He2).
    destruct (truthy_opt e || negb (truthy_opt s)); [reflexivity|].
    destruct (truthy_opt e2); [|reflexivity].
    apply at_label_insert_ne. congruence.
  Qed.

  (** When the first run resolved an end column, or no date column at
      all, the entries of the two runs are the same. *)
Lemma entry_again_same x :
    truthy_opt e || negb (truthy_opt s) = true ->
    entry_of f l s2 e2 (prepared_row f l s e x) = entry_of f l s e x.
  Proof.
    intros Hg. unfold entry_of.
    rewrite (prepared_again f l s e x Hf Hl Hs He s2 e2 Hs2 He2), Hg.
    now rewrite (subset_labels_truthy s e s2 e2 (rerun_start_truthy _ _ Hs2)
                   (rerun_end_truthy _ _ _ He2 Hg)).
  Qed.

Lemma exclusion_key_prepared x :
    exclusion_key f l (prepared_row f l s e x) = exclusion_key f l x.
  Proof. unfold exclusion_key. now rewrite !prepared_at_other. Qed.

Lemma first_excluded_prepared k rs :
    first_excluded f l k (map (prepared_row f l s e) rs)
    = option_map (prepared_row f l s e) (first_excluded f l k rs).
  Proof.
    unfold first_excluded. rewrite find_map. f_equal.
    apply find_ext. intros x. now rewrite exclusion_key_prepared.
  Qed.

End EntriesAgain.

Lemma roster_row_idem r : roster_row (roster_row r) = roster_row r.
Proof.
  unfold roster_row at 1. cbv zeta.
  assert (E1 : <["EMP_LAST_UP" := norm_cell (at_label (roster_row r) "LAST_NAME")]>
                 (roster_row r) = roster_row r).
  { apply insert_id. unfold roster_row. cbv zeta.
    rewrite !at_label_insert_ne by discriminate.
    rewrite lookup_insert_ne by discriminate. apply lookup_insert_eq. }
  rewrite E1. apply insert_id. unfold roster_row. cbv zeta.
  rewrite (at_label_insert_ne _ "EMP_FIRST_UP" "FIRST_NAME") by discriminate.
  apply lookup_insert_eq.
Qed.

Lemma add_label_idem c cols : add_label c (add_label c cols) = add_label c cols.
Proof. unfold add_label at 1. now rewrite decide_True by apply add_label_has. Qed.

Lemma emp_prepared_idem emp : emp_prepared (emp_prepared emp) = emp_prepared emp.
Proof.
  assert (Hc : columns (emp_prepared (emp_prepared emp)) = columns (emp_prepared emp)).
  { unfold emp_prepared, assign. cbn [columns].
    set (c1 := add_label "EMP_LAST_UP" (columns emp)).
    set (c2 := add_label "EMP_FIRST_UP" c1).
    assert (E : add_label "EMP_LAST_UP" c2 = c2).
    { unfold add_label at 1. rewrite decide_True; [reflexivity|].
      unfold c2. apply add_label_keeps. apply add_label_has. }
    rewrite E. apply add_label_idem. }
  assert (Hr : rows (emp_prepared (emp_prepared emp)) = rows (emp_prepared emp)).
  { rewrite !rows_emp_prepared, map_map. apply map_ext. intros r. apply roster_row_idem. }
  destruct (emp_prepared (emp_prepared emp)), (emp_prepared emp). cbn in Hc, Hr. congruence.
Qed.

Lemma omap_map {A B C} (F : B -> option C) (g : A -> B) l :
  omap F (map g l) = omap (fun x => F (g x)) l.
Proof.
  induction l as [|x l IH]; [reflexivity|]. cbn [map omap list_omap]. now rewrite IH.
Qed.

Lemma omap_map_ext {A B C} (F G : A -> option B) (h : B -> C) l :
  (forall x y, F x = Some y -> exists y', G x = Some y' /\ h y' = h y) ->
  (forall x, F x = None -> G x = None) ->
  map h (omap G l) = map h (omap F l).
Proof.
  intros HS HN. induction l as [|x l IH]; [reflexivity|]. cbn [omap list_omap].
  destruct (F x) as [y|] eqn:E.
  - destruct (HS _ _ E) as (y' & -> & Hy). cbn [map]. now rewrite Hy, IH.
  - now rewrite (HN _ E).
Qed.

Lemma frame_eq (a b : DataFrame) : columns a = columns b -> rows a = rows b -> a = b.
Proof. destruct a, b. cbn. congruence. Qed.

(** *** C6: a second run on the same tables *)

(** C6, the claim as stated fails: on the sample tables, whose exclusion
    table has a single date column, the second run reports the start date
    as end date too, where the first run reported no end date. *)
Lemma second_run_differs :
  ~ runs_agree sample_store /\
  records_of (first_run sample_store)
    = Some [ {| id := Some "1"; fullNameRaw := Some "Doe, Jane Q";
                startDate := Some "20240101"; endDate := Some "" |};
             {| id := Some "2"; fullNameRaw := Some "Roe";
                startDate := Some "20230101"; endDate := Some "" |} ] /\
  records_of (second_run sample_store)
    = Some [ {| id := Some "1"; fullNameRaw := Some "Doe, Jane Q";
                startDate := Some "20240101"; endDate := Some "20240101" |};
             {| id := Some "2"; fullNameRaw := Some "Roe";
                startDate := Some "20230101"; endDate := Some "20230101" |} ].
Proof.
  split; [|split]; [|vm_compute; reflexivity..].
  unfold runs_agree. intros E. vm_compute in E. discriminate E.
Qed.

(** C6, amended. For an exclusion table that does not yet carry a helper
    column: whenever the first run returns, a second run on the same two
    tables returns too, with the same roster entries in the same order and
    the same start dates; and it returns exactly the result of the first
    run when the first run resolved an end-date column or resolved no date
    column at all. *)
Theorem second_run_agrees σ f l s e :
  find_name_columns (oig_df σ) = Ok (f, l, s, e) ->
  "LAST_NAME" ∈ columns (emp_df σ) -> "FIRST_NAME" ∈ columns (emp_df σ) ->
  fresh_exclusion_table (oig_df σ) ->
  (exists recs1 recs2,
     records_of (first_run σ) = Some recs1 /\
     records_of (second_run σ) = Some recs2 /\
     map sans_end recs2 = map sans_end recs1) /\
  (truthy_opt e = true \/ truthy_opt s = false -> second_run σ = first_run σ).
Proof.
  intros H Hln Hfn Hfresh.
  destruct (resolver_labels _ _ _ _ _ H) as ([Hfin _] & [Hlin Hl1] & Hs & He).
  destruct (rerun_resolver _ _ _ _ _ H Hfresh) as (s2 & e2 & H2 & Hs2 & He2).
  assert (Hf : f ∉ helper_labels_oig) by now apply (fresh_not_helper (oig_df σ)).
  assert (Hl : l ∉ helper_labels_oig) by now apply (fresh_not_helper (oig_df σ)).
  assert (HsH : forall c, s = Some c -> c ∉ helper_labels_oig).
  { intros c ->. symmetry in Hs. apply start_choice_in in Hs as [Hin _].
    now apply (fresh_not_helper (oig_df σ)). }
  assert (HeH : forall c, e = Some c -> c ∉ helper_labels_oig).
  { intros c ->. symmetry in He. apply end_choice_in in He as [Hin _].
    now apply (fresh_not_helper (oig_df σ)). }
  unfold first_run, second_run.
  rewrite (screen_run _ _ _ _ _ H Hln Hfn). cbn [fst snd].
  rewrite (screen_run _ f l s2 e2); cbn [emp_df oig_df snd];
    [| exact H2 | now do 2 apply assign_keeps..].
  rewrite emp_prepared_idem. split.
  - eexists _, _. split; [reflexivity|]. split; [reflexivity|].
    rewrite !(merged_rows _ _ _ _ _ _ Hl1), !map_map.
    apply omap_map_ext.
    + intros r y Hy.
      destruct (first_excluded f l (roster_key r) (rows (oig_df σ))) as [x|] eqn:E;
        [|discriminate]. injection Hy as <-.
      rewrite rows_oig_prepared, (first_excluded_prepared f l s e Hf Hl), E.
      eexists. split; [reflexivity|].
      unfold sans_end, match_record, get_or_empty, at_label. cbn [id fullNameRaw startDate].
      rewrite !lookup_union.
      now rewrite !(entry_again_off_end f l s e s2 e2 Hf Hl HsH HeH Hs2 He2) by discriminate.
    + intros r Hr.
      destruct (first_excluded f l (roster_key r) (rows (oig_df σ))) as [x|] eqn:E;
        [discriminate|].
      now rewrite rows_oig_prepared, (first_excluded_prepared f l s e Hf Hl), E.
  - intros Hg.
    assert (Hg' : truthy_opt e || negb (truthy_opt s) = true).
    { destruct Hg as [-> | ->]; [reflexivity | apply orb_true_r]. }
    do 3 f_equal. apply frame_eq.
    + unfold exclusion_entries. cbn [columns].
      apply subset_labels_truthy;
        [now apply rerun_start_truthy | now apply (rerun_end_truthy s)].
    + rewrite !rows_exclusion_entries, rows_oig_prepared, map_map.
      apply map_ext. intros x.
      now apply (entry_again_same f l s e s2 e2 Hf Hl HsH HeH Hs2 He2).
Qed.

Lemma second_run_agrees_witness :
  second_run {| emp_df := sample_emp; oig_df := sample_oig_two_dates |}
  = first_run {| emp_df := sample_emp; oig_df := sample_oig_two_dates |}.
Proof.
  apply (second_run_agrees {| emp_df := sample_emp; oig_df := sample_oig_two_dates |}
           "FIRSTNAME" "LASTNAME" (Some "EXCLDATE") (Some "REINDATE")).
  - reflexivity.
  - vm_compute. repeat constructor.
  - vm_compute. repeat constructor.
  - unfold fresh_exclusion_table, helper_labels_oig.
    apply (bool_decide_unpack _). vm_compute. exact I.
  - left. reflexivity.
Defined.

(** ** Roster loader *)

Lemma apply_ok (g : string -> string) (s : Series) :
  Forall (fun c => notna c = true) s -> apply g s = Ok (map (option_map g) s).
Proof.
  unfold apply. induction 1 as [|c s Hc _ IH]; [reflexivity|].
  destruct c as [x|]; [|discriminate]. cbn [rmap rbind]. now rewrite IH.
Qed.

(** A renamed row, read under the new name of a column whose new name no
    other column shares. *)
Lemma at_label_rename (g : string -> string) cols r c :
  c ∈ cols -> (forall c', c' ∈ cols -> g c' = g c -> c' = c) ->
  at_label (rename_row g cols r) (g c) = at_label r c.
Proof.
  unfold rename_row. induction cols as [|a cols IH]; intros Hin Huniq.
  - now apply elem_of_nil in Hin.
  - cbn [foldr]. rewrite at_label_insert. case_decide as Ha.
    + rewrite (Huniq a); [reflexivity | now left | exact Ha].
    + apply IH.
      * apply elem_of_cons in Hin as [->|Hin]; [now destruct Ha | exact Hin].
      * intros c' Hc'. apply Huniq. now right.
Qed.

(** The loader after the shapes are reconciled: [cid] and [cname] are the
    columns renamed to ID and EMPLOYEE. *)
Lemma extract_and_derive_renamed (g : string -> string) df cid cname :
  cid ∈ columns df -> cname ∈ columns df -> g cid = "ID" -> g cname = "EMPLOYEE" ->
  (forall c', c' ∈ columns df -> g c' = "ID" -> c' = cid) ->
  (forall c', c' ∈ columns df -> g c' = "EMPLOYEE" -> c' = cname) ->
  Forall (fun r => notna (at_label r cname) = true) (rows df) ->
  extract_and_derive (rename g df)
  = Ok {| columns := roster_columns;
          rows := map (fun r => roster_entry (at_label r cid) (at_label r cname)) (rows df) |}.
Proof.
  intros Hid Hname Eid Ename Uid Uname Hna.
  assert (Rid : forall r, at_label (rename_row g (columns df) r) "ID" = at_label r cid).
  { intros r. rewrite <- Eid. apply at_label_rename; [exact Hid|].
    intros c' Hc'. rewrite Eid. now apply Uid. }
  assert (Rname : forall r,
             at_label (rename_row g (columns df) r) "EMPLOYEE" = at_label r cname).
  { intros r. rewrite <- Ename. apply at_label_rename; [exact Hname|].
    intros c' Hc'. rewrite Ename. now apply Uname. }
  unfold extract_and_derive. rewrite select_ok.
  2:{ unfold rename. cbn [columns]. repeat constructor.
      - rewrite <- Eid. apply list_elem_of_In, in_map. now apply list_elem_of_In.
      - rewrite <- Ename. apply list_elem_of_In, in_map. now apply list_elem_of_In. }
  cbn [rbind]. unfold getitem at 1. cbn [columns rows].
  rewrite decide_True by (right; left).
  cbn [rbind]. unfold rename at 1. cbn [rows]. rewrite !map_map.
  rewrite apply_ok.
  2:{ apply Forall_forall. intros c Hc. apply list_elem_of_In, in_map_iff in Hc as (r & <- & Hr).
      rewrite at_label_restrict by (right; left). rewrite Rname.
      rewrite Forall_forall in Hna. apply Hna. now apply list_elem_of_In. }
  cbn [rbind]. rewrite map_map.
  set (sel := {| columns := ["ID"; "EMPLOYEE"];
                 rows := map (restrict ["ID"; "EMPLOYEE"]) (rows (rename g df)) |}).
  assert (E1 : map (fun r => option_map parse_last
                       (at_label (restrict ["ID"; "EMPLOYEE"] (rename_row g (columns df) r))
                                 "EMPLOYEE")) (rows df)
               = map (fun r => option_map parse_last (at_label r "EMPLOYEE")) (rows sel)).
  { unfold sel, rename. cbn [rows]. now rewrite !map_map. }
  rewrite E1, setitem_assign. clear E1.
  unfold getitem. rewrite decide_True by (apply assign_keeps; unfold sel; cbn; right; left).
  cbn [rbind]. rewrite apply_ok.
  2:{ apply Forall_forall. intros c Hc. apply list_elem_of_In, in_map_iff in Hc as (r & <- & Hr).
      unfold assign, sel, rename in Hr. cbn [rows] in Hr. rewrite !map_map in Hr.
      apply in_map_iff in Hr as (r0 & <- & Hr0).
      rewrite at_label_insert_ne by discriminate.
      rewrite at_label_restrict by (right; left). rewrite Rname.
      rewrite Forall_forall in Hna. apply Hna. now apply list_elem_of_In. }
  cbn [rbind]. rewrite map_map, setitem_assign. f_equal. apply frame_eq.
  - reflexivity.
  - unfold assign, sel, rename. cbn [rows]. rewrite !map_map. apply map_ext. intros r.
    unfold roster_entry. rewrite !at_label_insert_ne by discriminate.
    rewrite at_label_restrict by (right; left).
    unfold restrict. cbn [foldr]. now rewrite Rid, Rname.
Qed.

Lemma Forall_filter_pass {A} (p : A -> bool) l : Forall (fun x => p x = true) (List.filter p l).
Proof.
  apply Forall_forall. intros x Hx. apply list_elem_of_In, List.filter_In in Hx. tauto.
Qed.

Lemma Forall_tail_of {A} (P : A -> Prop) l : Forall P l -> Forall P (tail l).
Proof. destruct 1; [constructor | assumption]. Qed.

(** *** C8: the two raw shapes of the roster *)

(** C8. When both placeholder columns are present (and no column is
    already called ID or EMPLOYEE), the loader drops the rows without a
    value under the full-name placeholder, then the first remaining row,
    and reads ID and EMPLOYEE from the two placeholders.  For any other
    table it only trims the column names; with an ID and an EMPLOYEE
    column among the trimmed names, each borne by one column, and a name
    in every row, it keeps every row.  In both cases the result has
    exactly the columns ID, EMPLOYEE, LAST_NAME and FIRST_NAME, the last
    two derived from the full name with the name normalizer. *)
Theorem roster_loader_shapes (df : DataFrame) :
  ("Unnamed: 1" ∈ columns df -> "Unnamed: 2" ∈ columns df ->
   "ID" ∉ columns df -> "EMPLOYEE" ∉ columns df ->
   load_employee_table df
   = Ok {| columns := roster_columns;
           rows := map (fun r => roster_entry (at_label r "Unnamed: 1")
                                              (at_label r "Unnamed: 2"))
                       (tail (List.filter (fun r => notna (at_label r "Unnamed: 2"))
                                          (rows df))) |}) /\
  (~ ("Unnamed: 1" ∈ columns df /\ "Unnamed: 2" ∈ columns df) ->
   forall cid cname,
     cid ∈ columns df -> cname ∈ columns df ->
     PyStr.strip cid = "ID" -> PyStr.strip cname = "EMPLOYEE" ->
     (forall c', c' ∈ columns df -> PyStr.strip c' = "ID" -> c' = cid) ->
     (forall c', c' ∈ columns df -> PyStr.strip c' = "EMPLOYEE" -> c' = cname) ->
     Forall (fun r => notna (at_label r cname) = true) (rows df) ->
     load_employee_table df
     = Ok {| columns := roster_columns;
             rows := map (fun r => roster_entry (at_label r cid) (at_label r cname))
                         (rows df) |}).
Proof.
  split.
  - intros H1 H2 Hid Hname. unfold load_employee_table.
    rewrite !bool_decide_eq_true_2 by assumption. cbn [andb]. cbv zeta.
    rewrite (extract_and_derive_renamed placeholder_names _ "Unnamed: 1" "Unnamed: 2");
      try reflexivity; try assumption.
    + intros c' Hc'. unfold placeholder_names. repeat case_decide; try congruence.
      intros ->. contradiction.
    + intros c' Hc'. unfold placeholder_names. repeat case_decide; try congruence.
      intros ->. contradiction.
    + cbn [rows iloc_from_1 where_rows]. apply Forall_tail_of.
      apply (Forall_filter_pass (fun r => notna (at_label r "Unnamed: 2"))).
  - intros Hnot cid cname Hid Hname Eid Ename Uid Uname Hna. unfold load_employee_table.
    assert (E : bool_decide ("Unnamed: 2" ∈ columns df)
                && bool_decide ("Unnamed: 1" ∈ columns df) = false).
    { apply andb_false_iff.
      destruct (decide ("Unnamed: 2" ∈ columns df)) as [H2|H2].
      - right. apply bool_decide_eq_false_2. tauto.
      - left. now apply bool_decide_eq_false_2. }
    rewrite E. now apply (extract_and_derive_renamed PyStr.strip df cid cname).
Qed.

Lemma roster_loader_witness :
  load_employee_table sample_raw
  = Ok {| columns := roster_columns;
          rows := [roster_entry (Some "7") (Some "Doe, Jane Q")] |} /\
  load_employee_table sample_plain
  = Ok {| columns := roster_columns;
          rows := [roster_entry (Some "7") (Some "Doe, Jane Q")] |}.
Proof.
  split.
  - rewrite (proj1 (roster_loader_shapes sample_raw)).
    + reflexivity.
    + vm_compute. repeat constructor.
    + vm_compute. repeat constructor.
    + apply (bool_decide_unpack _). vm_compute. exact I.
    + apply (bool_decide_unpack _). vm_compute. exact I.
  - rewrite (proj2 (roster_loader_shapes sample_plain)) with (cid := " ID") (cname := "EMPLOYEE ").
    + reflexivity.
    + intros [H _]. revert H. apply (bool_decide_unpack _). vm_compute. exact I.
    + vm_compute. repeat constructor.
    + vm_compute. repeat constructor.
    + reflexivity.
    + reflexivity.
    + intros c' Hc' E. vm_compute in Hc'.
      repeat (apply elem_of_cons in Hc' as [->|Hc']; [reflexivity || discriminate E|]).
      now apply elem_of_nil in Hc'.
    + intros c' Hc' E. vm_compute in Hc'.
      repeat (apply elem_of_cons in Hc' as [->|Hc']; [reflexivity || discriminate E|]).
      now apply elem_of_nil in Hc'.
    + repeat constructor.
Defined.

(** ** Report renderer *)

Lemma lines_from_app font a b :
  lines_from font (a ++ b) = lines_from font a ++ lines_from (font_after font a) b.
Proof.
  revert font. induction a as [|o a IH]; intros font; [reflexivity|].
  destruct o; cbn [app lines_from font_after]; now rewrite IH.
Qed.

Lemma font_after_app font a b : font_after font (a ++ b) = font_after (font_after font a) b.
Proof.
  revert font. induction a as [|o a IH]; intros font; [reflexivity|].
  destruct o; cbn [app font_after]; apply IH.
Qed.

Lemma lines_in_app font p q : lines_in font (p ++ q) = lines_in font p ++ lines_in font q.
Proof. unfold lines_in. now rewrite flat_map_app, List.filter_app, map_app. Qed.

(** Writing one more line in the font [font] adds that line to the lines
    of that font, and to no others. *)
Lemma lines_in_write_line font font' t s :
  font_after None (ops t) = font ->
  lines_in font' [write (TextLine s) t]
  = lines_in font' [t] ++ (if bool_decide (font = font') then [s] else []).
Proof.
  intros Hf. unfold lines_in, lines_of, write. cbn [flat_map ops].
  rewrite !app_nil_r, lines_from_app, List.filter_app, map_app, Hf. f_equal.
  cbn [lines_from List.filter fst]. now case_bool_decide.
Qed.

Lemma font_after_write_line t s :
  font_after None (ops (write (TextLine s) t)) = font_after None (ops t).
Proof. unfold write. cbn [ops]. now rewrite font_after_app. Qed.

Lemma save_drawText t c : save (drawText t c) = pages c ++ [code c ++ [t]].
Proof.
  unfold save, drawText, showPage. cbn [code pages].
  now destruct (code c ++ [t]) eqn:E; [apply app_eq_nil in E as [_ E]|].
Qed.

Lemma row_item_some r label : is_Some (r !! label) -> row_item r label = Ok (at_label r label).
Proof. intros [v E]. unfold row_item, at_label. unfold cell in *. now rewrite E. Qed.

(** The loop, from any state in which fewer than 45 rows stand on the
    current page and the text object is in the data font. *)
Lemma loop_pages rs : forall st,
  (count st < lines_per_page)%nat ->
  length (data_lines (current_page st)) = count st ->
  font_after None (ops (t2 st)) = Some ("Helvetica", 11) ->
  Forall (fun r => is_Some (r !! "ID") /\ is_Some (r !! "EMPLOYEE")) rs ->
  exists st' full,
    loop st rs = Ok st' /\
    (count st' < lines_per_page)%nat /\
    length (data_lines (current_page st')) = count st' /\
    pages (canvas st') = pages (canvas st) ++ full /\
    Forall (fun p => length (data_lines p) = lines_per_page) full /\
    concat (map data_lines (full ++ [current_page st']))
      = data_lines (current_page st) ++ map line_of_row rs /\
    map header_lines (full ++ [current_page st'])
      = header_lines (current_page st) :: replicate (length full) [].
Proof.
  induction rs as [|r rs IH]; intros st Hlt Hlen Hfont Hrows.
  - exists st, []. cbn [loop app map concat length replicate].
    rewrite !app_nil_r. repeat split; auto.
  - apply Forall_cons in Hrows as [[Hid Hname] Hrows].
    cbn [loop]. unfold loop_body.
    rewrite (row_item_some _ _ Hid), (row_item_some _ _ Hname). cbn [rbind].
    fold (line_of_row r).
    destruct (lines_per_page <=? S (count st))%nat eqn:Hfull; cbn [rbind].
    + apply Nat.leb_le in Hfull.
      set (p := code (canvas st) ++ [write (TextLine (line_of_row r)) (t2 st)]).
      set (st1 := {| canvas := showPage (drawText (write (TextLine (line_of_row r)) (t2 st))
                                           (canvas st));
                     t2 := write (SetFont "Helvetica" 11) (beginText 40 40);
                     count := 0 |}).
      assert (Hp : data_lines p = data_lines (current_page st) ++ [line_of_row r]).
      { unfold p, current_page, data_lines. rewrite !lines_in_app.
        rewrite (lines_in_write_line _ _ _ _ Hfont), bool_decide_eq_true_2 by reflexivity.
        now rewrite app_assoc. }
      assert (Hh : header_lines p = header_lines (current_page st)).
      { unfold p, current_page, header_lines. rewrite !lines_in_app.
        rewrite (lines_in_write_line _ _ _ _ Hfont), bool_decide_eq_false_2 by discriminate.
        now rewrite app_nil_r. }
      destruct (IH st1) as (st' & full & Hrun & Hlt' & Hlen' & Hpages & Hall & Hcat & Hhd).
      { unfold lines_per_page. cbn. lia. }
      { reflexivity. }
      { reflexivity. }
      { exact Hrows. }
      exists st', (p :: full). rewrite Hrun. repeat split; auto.
      * rewrite Hpages. unfold st1, showPage, drawText. cbn [canvas pages code].
        now rewrite <- app_assoc.
      * constructor; [|exact Hall]. rewrite Hp, length_app, Hlen. cbn [length].
        unfold lines_per_page in *. lia.
      * cbn [app map concat]. rewrite Hcat, Hp. cbn [map].
        now rewrite <- app_assoc.
      * cbn [app map length replicate]. now rewrite Hhd, Hh.
    + apply Nat.leb_gt in Hfull.
      set (st1 := {| canvas := canvas st;
                     t2 := write (TextLine (line_of_row r)) (t2 st);
                     count := S (count st) |}).
      assert (Hp : data_lines (current_page st1)
                   = data_lines (current_page st) ++ [line_of_row r]).
      { unfold st1, current_page, data_lines. cbn [canvas t2]. rewrite !lines_in_app.
        rewrite (lines_in_write_line _ _ _ _ Hfont), bool_decide_eq_true_2 by reflexivity.
        now rewrite app_assoc. }
      assert (Hh : header_lines (current_page st1) = header_lines (current_page st)).
      { unfold st1, current_page, header_lines. cbn [canvas t2]. rewrite !lines_in_app.
        rewrite (lines_in_write_line _ _ _ _ Hfont), bool_decide_eq_false_2 by discriminate.
        now rewrite app_nil_r. }
      destruct (IH st1) as (st' & full & Hrun & Hlt' & Hlen' & Hpages & Hall & Hcat & Hhd).
      { exact Hfull. }
      { rewrite Hp, length_app, Hlen. cbn. lia. }
      { unfold st1. cbn [t2]. now rewrite font_after_write_line. }
      { exact Hrows. }
      exists st', full. rewrite Hrun. repeat split; auto.
      * rewrite Hcat, Hp. cbn [map]. now rewrite <- app_assoc.
      * now rewrite Hhd, Hh.
Qed.

(** The title block is written in bold 14 point only. *)
Lemma fold_write_ops ls : forall t0,
  ops (fold_left (fun t line => write (TextLine line) t) ls t0) = ops t0 ++ map TextLine ls.
Proof.
  induction ls as [|s ls IH]; intros t0; cbn [fold_left map].
  - now rewrite app_nil_r.
  - rewrite IH. unfold write. cbn [ops]. now rewrite <- app_assoc.
Qed.

Lemma lines_from_textlines font ls tl :
  lines_from font (map TextLine ls ++ tl) = map (fun s => (font, s)) ls ++ lines_from font tl.
Proof. induction ls as [|s ls IH]; [reflexivity|]. cbn [map app lines_from]. now rewrite IH. Qed.

Lemma title_lines font ls :
  font <> Some ("Helvetica-Bold", 14) ->
  lines_in font
    [write (MoveCursor 0 20)
       (fold_left (fun t line => write (TextLine line) t) ls
          (write (SetFont "Helvetica-Bold" 14) (beginText 40 60)))] = [].
Proof.
  intros Hne. unfold lines_in, lines_of. cbn [flat_map]. rewrite app_nil_r.
  unfold write at 1. cbn [ops]. rewrite fold_write_ops. cbn [ops write beginText app].
  cbn [lines_from]. rewrite lines_from_textlines. cbn [lines_from]. rewrite app_nil_r.
  induction ls as [|s ls IH]; [reflexivity|]. cbn [map List.filter fst].
  rewrite bool_decide_eq_false_2 by congruence. exact IH.
Qed.

Lemma map_uniform {A} (g : A -> nat) n l :
  Forall (fun x => g x = n) l -> map g l = replicate (length l) n.
Proof. induction 1 as [|x l Hx _ IH]; [reflexivity|]. cbn. now rewrite Hx, IH. Qed.

Lemma length_concat_map {A B} (g : A -> list B) l :
  length (concat (map g l)) = list_sum (map (fun x => length (g x)) l).
Proof.
  induction l as [|x l IH]; [reflexivity|].
  change (length (g x ++ concat (map g l))
          = length (g x) + list_sum (map (fun x => length (g x)) l)).
  now rewrite length_app, IH.
Qed.

Lemma list_sum_replicate k n : list_sum (replicate k n) = k * n.
Proof.
  induction k as [|k IH]; [reflexivity|].
  change (list_sum (replicate (S k) n)) with (n + list_sum (replicate k n)).
  rewrite IH. reflexivity.
Qed.

(** *** C9: pagination *)

(** C9. For a result with at least one row (each row with its ID and
    EMPLOYEE cells), the report is produced; the column header stands once
    on the first page and on no other page; every page but the last
    carries exactly 45 data rows and the last fewer than 45, so a new page
    starts after every 45 rows; the data rows of all pages, in order, are
    the rows of the result.  With 100 rows the pages carry 45, 45 and 10
    rows. *)
Theorem report_pagination (today : string) (merged_df : DataFrame) :
  Frame.empty merged_df = false ->
  Forall (fun r => is_Some (r !! "ID") /\ is_Some (r !! "EMPLOYEE")) (rows merged_df) ->
  exists doc,
    make_pdf_report today merged_df = Ok doc /\
    map header_lines doc = [header_line] :: replicate (length doc - 1) [] /\
    (exists k last,
       map (fun p => length (data_lines p)) doc = replicate k 45 ++ [last] /\
       (last < 45)%nat /\ (45 * k + last = length (rows merged_df))%nat) /\
    concat (map data_lines doc) = map line_of_row (rows merged_df) /\
    (length (rows merged_df) = 100 ->
     map (fun p => length (data_lines p)) doc = [45; 45; 10]).
Proof.
  intros Hne Hrows. unfold make_pdf_report. rewrite Hne.
  set (text := write (MoveCursor 0 20) _).
  set (t := write (SetFont "Helvetica" 11) _).
  set (st0 := {| canvas := drawText text new_canvas; t2 := t; count := 0 |}).
  assert (Hd0 : data_lines (current_page st0) = []).
  { unfold current_page, st0, data_lines. cbn [canvas code drawText new_canvas t2 app].
    change [text; t] with ([text] ++ [t]). rewrite lines_in_app.
    unfold text. rewrite title_lines by discriminate. reflexivity. }
  assert (Hh0 : header_lines (current_page st0) = [header_line]).
  { unfold current_page, st0, header_lines. cbn [canvas code drawText new_canvas t2 app].
    change [text; t] with ([text] ++ [t]). rewrite lines_in_app.
    unfold text. rewrite title_lines by discriminate. reflexivity. }
  destruct (loop_pages (rows merged_df) st0)
    as (st' & full & Hrun & Hlt & Hlen & Hpages & Hall & Hcat & Hhd).
  { unfold lines_per_page. cbn. lia. }
  { now rewrite Hd0. }
  { reflexivity. }
  { exact Hrows. }
  rewrite Hrun. cbn [rbind]. eexists. split; [reflexivity|].
  rewrite save_drawText, Hpages. cbn [st0 canvas drawText new_canvas pages app].
  fold (current_page st').
  assert (Hsizes : map (fun p => length (data_lines p)) (full ++ [current_page st'])
                   = replicate (length full) 45 ++ [count st']).
  { rewrite map_app. cbn [map]. now rewrite (map_uniform _ 45 _ Hall), Hlen. }
  assert (Htotal : (45 * length full + count st' = length (rows merged_df))%nat).
  { apply (f_equal (@length string)) in Hcat.
    rewrite length_concat_map, Hsizes, Hd0 in Hcat. cbn [app] in Hcat.
    rewrite length_map, list_sum_app, list_sum_replicate in Hcat.
    cbn [list_sum fold_right] in Hcat. lia. }
  split; [|split; [|split]].
  - rewrite Hhd, Hh0, length_app. cbn [length]. now replace (length full + 1 - 1) with (length full) by lia.
  - exists (length full), (count st'). unfold lines_per_page in Hlt. auto.
  - now rewrite Hcat, Hd0.
  - intros H100. rewrite Hsizes. unfold lines_per_page in Hlt.
    assert (length full = 2) as -> by lia. assert (count st' = 10) as -> by lia.
    reflexivity.
Qed.

Lemma report_pagination_witness :
  exists doc,
    make_pdf_report "April 05, 2025" (sample_merged 100) = Ok doc /\
    map (fun p => length (data_lines p)) doc = [45; 45; 10] /\
    map header_lines doc = [[header_line]; []; []].
Proof.
  destruct (report_pagination "April 05, 2025" (sample_merged 100))
    as (doc & Hdoc & Hhead & _ & _ & H100).
  - reflexivity.
  - apply (bool_decide_unpack _). vm_compute. exact I.
  - exists doc. split; [exact Hdoc|]. split; [now apply H100|].
    rewrite Hhead. apply (f_equal (@length nat)) in H100; [|reflexivity].
    rewrite length_map in H100. cbn in H100. now rewrite H100.
Defined.

(** ** The process *)

(** *** C5: a missing roster file *)

(** C5, the claim as stated fails: without the roster file, the run has
    already created the reports directory and fetched the exclusion
    source when it reports the missing file. *)
Lemma missing_roster_after_fetch :
  isfile sample_world_missing (roster_path sample_world_missing) = false /\
  ~ exits_before_any_other_work sample_world_missing /\
  main sample_world_missing
  = ([EvMakedirs "reports";
      EvFetch "https://oig.hhs.gov/exclusions/downloadables/UPDATED.csv";
      EvStderr "ERROR: Cannot find file at 'roster.xlsx'. Exiting."],
     Raise (SystemExit 1)).
Proof.
  split; [reflexivity|]. split; [|reflexivity].
  intros (_ & _ & H). vm_compute in H. discriminate H.
Qed.

(** C5, amended. When the roster path does not resolve to an existing
    file, the run asks for the path if it was not given, creates the
    reports directory and fetches the exclusion source.  If the fetch
    succeeds, it then reports the missing file on stderr and exits with
    code 1: the roster is not read, nothing is matched and no report is
    written.  If the fetch fails, the run ends there with the exception
    of the fetch. *)
Theorem missing_roster_exits_after_fetch (w : World) :
  isfile w (roster_path w) = false ->
  match fetch_csv w OIG_CSV_URL with
  | Ok _ =>
      main w = (prompt_events w ++
                [EvMakedirs REPORTS_DIR; EvFetch OIG_CSV_URL;
                 EvStderr (missing_file_message (roster_path w))],
                Raise (SystemExit 1)) /\
      exit_code (snd (main w)) = 1
  | Raise ex =>
      main w = (prompt_events w ++ [EvMakedirs REPORTS_DIR; EvFetch OIG_CSV_URL], Raise ex)
  end.
Proof.
  intros Hmissing.
  unfold main, get_employee_excel_path, download_oig_csv, load_employee_list,
    io_bind, ask, emit, io_ret, io_lift, sys_exit.
  unfold roster_path in Hmissing. unfold roster_path, prompt_events.
  destruct (truthy_opt (arg_employee_file w)); cbn [app negb];
    destruct (fetch_csv w OIG_CSV_URL); cbn [app negb];
    rewrite ?Hmissing; cbn [app negb]; try split; reflexivity.
Qed.

Lemma missing_roster_witness :
  main sample_world_missing
  = ([EvMakedirs REPORTS_DIR; EvFetch OIG_CSV_URL;
      EvStderr (missing_file_message "roster.xlsx")],
     Raise (SystemExit 1)).
Proof.
  apply (missing_roster_exits_after_fetch sample_world_missing). reflexivity.
Defined.

(* ===================================================================== *)
(** * Further properties of the script *)
(* ===================================================================== *)

(** ** The name normalizer: normal forms and letter case *)

Section NormalizerFacts.
Import PyStr.

Lemma upper_char_comma c : Ascii.eqb (upper_char c) "," = Ascii.eqb c ",".
Proof. destruct c as [[] [] [] [] [] [] [] []]; reflexivity. Qed.

Lemma upper_app a b : upper (a ++ b) = (upper a ++ upper b)%string.
Proof. induction a as [|c a IH]; simpl; [reflexivity | now rewrite IH]. Qed.

Lemma all_chars_upper p s :
  (forall c, p (upper_char c) = p c) -> all_chars p (upper s) = all_chars p s.
Proof. intros Hp. induction s as [|c s IH]; simpl; [reflexivity|]. now rewrite Hp, IH. Qed.

Lemma all_chars_lstrip p s : all_chars p s = true -> all_chars p (lstrip s) = true.
Proof.
  induction s as [|c s IH]; simpl; [reflexivity|]. intros H.
  destruct (isspace c); [apply IH; now apply andb_true_iff in H as [_ H] | exact H].
Qed.

Lemma all_chars_rstrip p s : all_chars p s = true -> all_chars p (rstrip s) = true.
Proof.
  induction s as [|c s IH]; simpl; [reflexivity|]. intros H.
  apply andb_true_iff in H as [Hc H]. specialize (IH H).
  destruct (rstrip s); simpl in *.
  - destruct (isspace c); simpl; [reflexivity | now rewrite Hc].
  - now rewrite Hc, IH.
Qed.

Lemma all_chars_strip p s : all_chars p s = true -> all_chars p (strip s) = true.
Proof. intros H. unfold strip. now apply all_chars_rstrip, all_chars_lstrip. Qed.

Lemma all_chars_app p a b :
  all_chars p (a ++ b) = all_chars p a && all_chars p b.
Proof. induction a as [|c a IH]; simpl; [reflexivity|]. now rewrite IH, andb_assoc. Qed.

(** The first piece of a cut has no separator in it. *)
Lemma split1_head sep s :
  exists p ps, split1 sep s = p :: ps /\
               all_chars (fun c => negb (Ascii.eqb c sep)) p = true.
Proof.
  induction s as [|c s (p & ps & E & Hp)]; simpl.
  - now exists EmptyString, [].
  - destruct (Ascii.eqb c sep) eqn:Hc.
    + now exists EmptyString, [s].
    + rewrite E. exists (String c p), ps. split; [reflexivity|]. simpl. now rewrite Hc, Hp.
Qed.

(** The pieces of [split] have no white space in them. *)
Lemma split_go_tokens s : forall tok,
  all_chars (fun c => negb (isspace c)) tok = true ->
  Forall (fun t => all_chars (fun c => negb (isspace c)) t = true) (split_go tok s).
Proof.
  induction s as [|c s IH]; intros tok Htok; simpl.
  - destruct tok; repeat constructor. exact Htok.
  - destruct (isspace c) eqn:Hc.
    + destruct tok; [now apply IH | constructor; [exact Htok | now apply IH]].
    + apply IH. rewrite all_chars_app, Htok. simpl. now rewrite Hc.
Qed.

Lemma strip_no_space s :
  all_chars (fun c => negb (isspace c)) s = true -> strip s = s.
Proof.
  intros H. unfold strip. rewrite lstrip_of_tight; [now apply rstrip_token|].
  destruct s as [|c s]; simpl in *; [exact I|].
  apply andb_true_iff in H as [Hc _]. now apply negb_true_iff in Hc.
Qed.

(** Upper-casing commutes with the two splits. *)
Lemma split1_upper s : split1 "," (upper s) = map upper (split1 "," s).
Proof.
  induction s as [|c s IH]; simpl; [reflexivity|].
  rewrite upper_char_comma. destruct (Ascii.eqb c ","); [reflexivity|].
  rewrite IH. now destruct (split1 "," s).
Qed.

Lemma split_go_upper s : forall tok,
  split_go (upper tok) (upper s) = map upper (split_go tok s).
Proof.
  induction s as [|c s IH]; intros tok; simpl.
  - now destruct tok.
  - rewrite isspace_upper_char. destruct (isspace c).
    + destruct tok; simpl; [apply (IH EmptyString) | f_equal; apply (IH EmptyString)].
    + rewrite <- IH. f_equal. now rewrite upper_app.
Qed.

Lemma split_upper s : split (upper s) = map upper (split s).
Proof. apply (split_go_upper s EmptyString). Qed.

End NormalizerFacts.

Lemma parsed_names_normal (raw : string) :
  PyStr.upper (parse_last raw) = parse_last raw /\
  PyStr.strip (parse_last raw) = parse_last raw /\
  no_comma (parse_last raw) /\
  PyStr.upper (parse_first raw) = parse_first raw /\
  PyStr.strip (parse_first raw) = parse_first raw /\
  all_chars (fun c => negb (PyStr.isspace c)) (parse_first raw) = true.
Proof.
  assert (Hfirst : all_chars (fun c => negb (PyStr.isspace c)) (parse_first raw) = true).
  { unfold parse_first. destruct (length (PyStr.split1 "," raw) <? 2)%nat; [reflexivity|].
    unfold PyStr.split.
    pose proof (split_go_tokens (PyStr.strip (nth 1 (PyStr.split1 "," raw) "")) EmptyString
                  eq_refl) as Htok.
    destruct (PyStr.split_go _ _) as [|t ts]; [reflexivity|].
    apply Forall_cons in Htok as [Ht _].
    rewrite (strip_no_space _ Ht), all_chars_upper; [exact Ht|].
    intros c. now rewrite isspace_upper_char. }
  repeat split.
  - unfold parse_last. destruct (PyStr.split1 "," raw); [reflexivity | apply upper_idem].
  - unfold parse_last. destruct (PyStr.split1 "," raw); [reflexivity|].
    now rewrite strip_upper, strip_idem.
  - unfold parse_last, no_comma.
    destruct (split1_head "," raw) as (p & ps & -> & Hp).
    rewrite all_chars_upper; [now apply all_chars_strip|].
    intros c. now rewrite upper_char_comma.
  - unfold parse_first. destruct (length (PyStr.split1 "," raw) <? 2)%nat; [reflexivity|].
    destruct (PyStr.split _); [reflexivity | apply upper_idem].
  - now apply strip_no_space.
  - exact Hfirst.
Qed.

(** The text operations keep ASCII text ASCII. *)
Lemma ascii_upper_char c : ascii_char (PyStr.upper_char c) = ascii_char c.
Proof. destruct c as [[] [] [] [] [] [] [] []]; reflexivity. Qed.

Lemma ascii_upper s : ascii_text s -> ascii_text (PyStr.upper s).
Proof.
  unfold ascii_text. intros H. rewrite all_chars_upper; [exact H|]. apply ascii_upper_char.
Qed.

Lemma all_chars_split1 p sep s :
  all_chars p s = true -> Forall (fun t => all_chars p t = true) (PyStr.split1 sep s).
Proof.
  induction s as [|c s IH]; simpl; intros H.
  - repeat constructor.
  - apply andb_true_iff in H as [Hc H]. specialize (IH H).
    destruct (Ascii.eqb c sep); [repeat constructor; exact H|].
    destruct (PyStr.split1 sep s) as [|t ts]; [constructor|].
    apply Forall_cons in IH as [Ht Hts]. constructor; [|exact Hts]. simpl. now rewrite Hc, Ht.
Qed.

Lemma all_chars_split_go p s : forall tok,
  all_chars p s = true -> all_chars p tok = true ->
  Forall (fun t => all_chars p t = true) (PyStr.split_go tok s).
Proof.
  induction s as [|c s IH]; intros tok H Htok; simpl.
  - destruct tok; repeat constructor. exact Htok.
  - simpl in H. apply andb_true_iff in H as [Hc H]. destruct (PyStr.isspace c).
    + destruct tok; [now apply IH | constructor; [exact Htok | now apply IH]].
    + apply IH; [exact H|]. rewrite all_chars_app, Htok. simpl. now rewrite Hc.
Qed.

Lemma Forall_nth_text p (l : list string) n :
  Forall (fun t => all_chars p t = true) l -> all_chars p (nth n l "") = true.
Proof.
  intros H. revert n. induction H as [|t ts Ht _ IH]; intros [|n]; simpl; auto.
Qed.

Lemma parsed_names_ascii (raw : string) :
  ascii_text raw -> ascii_text (parse_last raw) /\ ascii_text (parse_first raw).
Proof.
  intros H. pose proof (all_chars_split1 ascii_char "," raw H) as Hparts. split.
  - unfold parse_last. destruct (PyStr.split1 "," raw) as [|p ps]; [reflexivity|].
    apply Forall_cons in Hparts as [Hp _]. now apply ascii_upper, all_chars_strip.
  - unfold parse_first. destruct (length (PyStr.split1 "," raw) <? 2)%nat; [reflexivity|].
    pose proof (Forall_nth_text _ _ 1 Hparts) as Hsecond.
    pose proof (all_chars_split_go ascii_char _ EmptyString
                  (all_chars_strip _ _ Hsecond) eq_refl) as Htoks.
    unfold PyStr.split. destruct (PyStr.split_go _ _) as [|t ts]; [reflexivity|].
    apply Forall_cons in Htoks as [Ht _]. now apply ascii_upper, all_chars_strip.
Qed.

(** X1. For every raw name of ASCII characters the two derived names are
    ASCII and in normal form: upper-casing or stripping them again changes
    nothing, the last name holds no comma and the first name no white
    space. *)
Theorem normalizer_output_normal_form (raw : string) :
  ascii_text raw ->
  (ascii_text (parse_last raw) /\ ascii_text (parse_first raw)) /\
  PyStr.upper (parse_last raw) = parse_last raw /\
  PyStr.strip (parse_last raw) = parse_last raw /\
  no_comma (parse_last raw) /\
  PyStr.upper (parse_first raw) = parse_first raw /\
  PyStr.strip (parse_first raw) = parse_first raw /\
  all_chars (fun c => negb (PyStr.isspace c)) (parse_first raw) = true.
Proof.
  intros H. split; [now apply parsed_names_ascii | apply parsed_names_normal].
Qed.

Lemma normalizer_output_normal_form_witness :
  PyStr.strip (parse_last " o'neil jr , mary ann") = "O'NEIL JR" /\
  no_comma (parse_last " o'neil jr , mary ann") /\
  PyStr.upper (parse_first " o'neil jr , mary ann") = "MARY".
Proof.
  destruct (normalizer_output_normal_form " o'neil jr , mary ann")
    as (_ & _ & H2 & H3 & H4 & _); [reflexivity|].
  split; [exact H2|]. split; [exact H3 | exact H4].
Defined.

(** X2. On ASCII names the normalizer does not see letter case: a raw
    name and its upper-cased form, ASCII as well, give the same last and
    first name. *)
Theorem normalizer_ignores_case (raw : string) :
  ascii_text raw ->
  ascii_text (PyStr.upper raw) /\
  parse_last (PyStr.upper raw) = parse_last raw /\
  parse_first (PyStr.upper raw) = parse_first raw.
Proof.
  intros Hascii. split; [now apply ascii_upper|]. split.
  - unfold parse_last. rewrite split1_upper.
    destruct (PyStr.split1 "," raw) as [|p ps]; [reflexivity|]. cbn [map].
    now rewrite strip_upper, upper_idem.
  - unfold parse_first. rewrite split1_upper, length_map.
    destruct (length (PyStr.split1 "," raw) <? 2)%nat eqn:E; [reflexivity|].
    replace (nth 1 (map PyStr.upper (PyStr.split1 "," raw)) "")
      with (PyStr.upper (nth 1 (PyStr.split1 "," raw) ""))
      by (symmetry; apply (map_nth PyStr.upper (PyStr.split1 "," raw) EmptyString 1)).
    rewrite strip_upper, split_upper.
    destruct (PyStr.split _) as [|t ts]; [reflexivity|]. cbn [map].
    now rewrite strip_upper, upper_idem.
Qed.

Lemma normalizer_ignores_case_witness :
  parse_last "DOE, JANE Q" = parse_last "Doe, Jane q" /\
  parse_first "DOE, JANE Q" = parse_first "Doe, Jane q".
Proof.
  destruct (normalizer_ignores_case "Doe, Jane q") as (_ & H1 & H2); [reflexivity|].
  split; [exact H1 | exact H2].
Defined.

(** ** The roster loader: when it returns and when it raises *)

Lemma apply_inv (g : string -> string) (s : Series) l :
  apply g s = Ok l ->
  l = map (option_map g) s /\ Forall (fun c => notna c = true) s.
Proof.
  unfold apply. revert l. induction s as [|c s IH]; intros l; cbn [rmap].
  - intros [= <-]. split; [reflexivity | constructor].
  - destruct c as [x|]; cbn [rbind]; [|discriminate].
    match goal with |- context [rmap ?F s] => destruct (rmap F s) as [bs|ex] end;
      cbn [rbind]; [|discriminate].
    intros [= <-]. destruct (IH bs eq_refl) as [-> Hs].
    split; [reflexivity | now constructor].
Qed.

Lemma apply_raise (g : string -> string) (s : Series) :
  In None s -> apply g s = Raise AttributeError.
Proof.
  unfold apply. induction s as [|c s IH]; [intros []|].
  intros Hin. cbn [rmap]. destruct c as [x|]; cbn [rbind]; [|reflexivity].
  destruct Hin as [Hc|Hin]; [discriminate|]. now rewrite (IH Hin).
Qed.

Lemma forallb_false_ex {A} (p : A -> bool) l :
  forallb p l = false -> exists x, In x l /\ p x = false.
Proof.
  induction l as [|x l IH]; cbn [forallb]; [discriminate|].
  destruct (p x) eqn:E; cbn [andb].
  - intros H. destruct (IH H) as (y & Hy & Hp). exists y. split; [now right | exact Hp].
  - intros _. exists x. split; [now left | exact E].
Qed.

(** The loader's last step, in closed form: which exception, or which
    table. *)
Lemma extract_and_derive_closed (d : DataFrame) :
  extract_and_derive d =
  if decide ("ID" ∈ columns d) then
    if decide ("EMPLOYEE" ∈ columns d) then
      if forallb (fun r => notna (at_label r "EMPLOYEE")) (rows d)
      then Ok {| columns := roster_columns;
                 rows := map (fun r => roster_entry (at_label r "ID") (at_label r "EMPLOYEE"))
                             (rows d) |}
      else Raise AttributeError
    else Raise (KeyError "EMPLOYEE")
  else Raise (KeyError "ID").
Proof.
  unfold extract_and_derive, select. cbn [List.find].
  destruct (decide ("ID" ∈ columns d)) as [Hid|Hid].
  2:{ now rewrite bool_decide_eq_true_2. }
  rewrite bool_decide_eq_false_2 by tauto.
  destruct (decide ("EMPLOYEE" ∈ columns d)) as [Hname|Hname].
  2:{ now rewrite bool_decide_eq_true_2. }
  rewrite bool_decide_eq_false_2 by tauto. cbn [rbind].
  unfold getitem at 1. cbn [columns rows]. rewrite decide_True by (right; left).
  cbn [rbind]. rewrite map_map.
  assert (Eser : map (fun r => at_label (restrict ["ID"; "EMPLOYEE"] r) "EMPLOYEE") (rows d)
                 = map (fun r => at_label r "EMPLOYEE") (rows d)).
  { apply map_ext. intros r. apply at_label_restrict. right. left. }
  rewrite Eser.
  destruct (forallb (fun r => notna (at_label r "EMPLOYEE")) (rows d)) eqn:Hall.
  - assert (Hna : Forall (fun c => notna c = true)
                    (map (fun r => at_label r "EMPLOYEE") (rows d))).
    { apply Forall_forall. intros c Hc.
      apply list_elem_of_In, in_map_iff in Hc as (r & <- & Hr).
      rewrite forallb_forall in Hall. now apply Hall. }
    rewrite (apply_ok _ _ Hna). cbn [rbind]. rewrite map_map.
    set (sel := {| columns := ["ID"; "EMPLOYEE"];
                   rows := map (restrict ["ID"; "EMPLOYEE"]) (rows d) |}).
    assert (E1 : map (fun r => option_map parse_last (at_label r "EMPLOYEE")) (rows d)
                 = map (fun r => option_map parse_last (at_label r "EMPLOYEE")) (rows sel)).
    { unfold sel. cbn [rows]. rewrite map_map. apply map_ext. intros r.
      now rewrite at_label_restrict by (right; left). }
    rewrite E1, setitem_assign. clear E1.
    unfold getitem. rewrite decide_True by (apply assign_keeps; unfold sel; cbn; right; left).
    cbn [rbind]. rewrite apply_ok.
    2:{ apply Forall_forall. intros c Hc.
        apply list_elem_of_In, in_map_iff in Hc as (r & <- & Hr).
        unfold assign, sel in Hr. cbn [rows] in Hr. rewrite !map_map in Hr.
        apply in_map_iff in Hr as (r0 & <- & Hr0).
        rewrite at_label_insert_ne by discriminate.
        rewrite at_label_restrict by (right; left).
        rewrite forallb_forall in Hall. now apply Hall. }
    cbn [rbind]. rewrite map_map, setitem_assign. f_equal. apply frame_eq; [reflexivity|].
    unfold assign, sel. cbn [rows]. rewrite !map_map. apply map_ext. intros r.
    unfold roster_entry. rewrite !at_label_insert_ne by discriminate.
    rewrite at_label_restrict by (right; left).
    unfold restrict. cbn [foldr]. reflexivity.
  - rewrite apply_raise; [reflexivity|].
    destruct (forallb_false_ex _ _ Hall) as (r & Hr & Hna).
    apply in_map_iff. exists r. split; [|exact Hr].
    now destruct (at_label r "EMPLOYEE").
Qed.

Lemma roster_entry_loaded idv raw : loaded_row (roster_entry idv (Some raw)).
Proof.
  exists raw. unfold roster_entry. cbn [option_map].
  split; [reflexivity|]. split; [reflexivity|]. split; [reflexivity|].
  - intros c Hc. unfold roster_columns in Hc.
    rewrite !elem_of_cons, elem_of_nil in Hc.
    rewrite !lookup_insert_ne by (intros <-; tauto). apply lookup_empty.
Qed.

Lemma length_filter_le {A} (p : A -> bool) l : (length (List.filter p l) <= length l)%nat.
Proof. induction l as [|x l IH]; simpl; [lia|]. destruct (p x); simpl; lia. Qed.

Lemma length_tail_le {A} (l : list A) : (length (tail l) <= length l)%nat.
Proof. destruct l; simpl; lia. Qed.

Lemma load_employee_table_inv (df emp : DataFrame) :
  load_employee_table df = Ok emp ->
  columns emp = roster_columns /\
  (length (rows emp) <= length (rows df))%nat /\
  Forall loaded_row (rows emp).
Proof.
  unfold load_employee_table. cbv zeta.
  match goal with |- extract_and_derive ?x = _ -> _ => set (d := x) end.
  rewrite extract_and_derive_closed.
  assert (Hlen : (length (rows d) <= length (rows df))%nat).
  { unfold d.
    destruct (bool_decide ("Unnamed: 2" ∈ columns df)
              && bool_decide ("Unnamed: 1" ∈ columns df));
      unfold rename, iloc_from_1, where_rows; cbn [rows];
      rewrite length_map; [|lia].
    etransitivity; [apply length_tail_le | apply length_filter_le]. }
  destruct (decide ("ID" ∈ columns d)); [|discriminate].
  destruct (decide ("EMPLOYEE" ∈ columns d)); [|discriminate].
  destruct (forallb _ (rows d)) eqn:Hall; [|discriminate].
  intros [= <-]. cbn [columns rows]. split; [reflexivity|]. split.
  - now rewrite length_map.
  - apply Forall_forall. intros r Hr.
    apply list_elem_of_In, in_map_iff in Hr as (r0 & <- & Hr0).
    rewrite forallb_forall in Hall. specialize (Hall _ Hr0).
    destruct (at_label r0 "EMPLOYEE") as [raw|]; [|discriminate].
    apply roster_entry_loaded.
Qed.

(** X3. For a raw table of ASCII text whose labels stay distinct once the
    shape is reconciled: whenever the loader returns a roster, the roster
    has exactly the columns ID, EMPLOYEE, LAST_NAME and FIRST_NAME, no
    more rows than the raw table, and in every row a raw name together
    with its two normalizations and nothing under any other label. *)
Theorem loader_result_invariant (df emp : DataFrame) :
  ascii_frame df -> NoDup (reconciled_labels df) ->
  load_employee_table df = Ok emp ->
  columns emp = roster_columns /\
  (length (rows emp) <= length (rows df))%nat /\
  Forall loaded_row (rows emp).
Proof. intros _ _. apply load_employee_table_inv. Qed.

Lemma loader_result_invariant_witness :
  exists emp,
    load_employee_table sample_raw = Ok emp /\ columns emp = roster_columns /\
    Forall loaded_row (rows emp).
Proof.
  eexists. split; [reflexivity|].
  destruct (loader_result_invariant sample_raw
              {| columns := roster_columns;
                 rows := [roster_entry (Some "7") (Some "Doe, Jane Q")] |})
    as (H1 & _ & H3).
  - reflexivity.
  - apply (bool_decide_unpack _). vm_compute. exact I.
  - reflexivity.
  - split; [exact H1 | exact H3].
Defined.

(** The label tests of the plain shape. *)
Lemma renamed_label_in (g : string -> string) df c :
  c ∈ columns df -> g c ∈ columns (rename g df).
Proof. intros H. unfold rename. cbn [columns]. apply list_elem_of_In, in_map. now apply list_elem_of_In. Qed.

Lemma renamed_label_out (g : string -> string) df label :
  (forall c, c ∈ columns df -> g c <> label) -> label ∉ columns (rename g df).
Proof.
  intros H Hin. unfold rename in Hin. cbn [columns] in Hin.
  apply list_elem_of_In, in_map_iff in Hin as (c & E & Hc).
  apply (H c); [now apply list_elem_of_In | exact E].
Qed.

Lemma plain_shape df :
  ~ ("Unnamed: 1" ∈ columns df /\ "Unnamed: 2" ∈ columns df) ->
  load_employee_table df = extract_and_derive (rename PyStr.strip df).
Proof.
  intros Hnot. unfold load_employee_table.
  assert (E : bool_decide ("Unnamed: 2" ∈ columns df)
              && bool_decide ("Unnamed: 1" ∈ columns df) = false).
  { apply andb_false_iff.
    destruct (decide ("Unnamed: 2" ∈ columns df)) as [H2|H2].
    - right. apply bool_decide_eq_false_2. tauto.
    - left. now apply bool_decide_eq_false_2. }
  now rewrite E.
Qed.

(** X4. In the plain shape nothing drops a row without a name: with an ID
    column and one EMPLOYEE column among the trimmed labels, a single
    missing name makes the loader raise AttributeError. *)
Theorem loader_plain_blank_name_raises (df : DataFrame) cid cname r :
  ~ ("Unnamed: 1" ∈ columns df /\ "Unnamed: 2" ∈ columns df) ->
  cid ∈ columns df -> PyStr.strip cid = "ID" ->
  cname ∈ columns df -> PyStr.strip cname = "EMPLOYEE" ->
  (forall c', c' ∈ columns df -> PyStr.strip c' = "EMPLOYEE" -> c' = cname) ->
  r ∈ rows df -> at_label r cname = None ->
  load_employee_table df = Raise AttributeError.
Proof.
  intros Hnot Hid Eid Hname Ename Uname Hr Hnan.
  rewrite (plain_shape _ Hnot), extract_and_derive_closed.
  rewrite decide_True by (rewrite <- Eid; now apply renamed_label_in).
  rewrite decide_True by (rewrite <- Ename; now apply renamed_label_in).
  destruct (forallb _ _) eqn:Hall; [|reflexivity].
  rewrite forallb_forall in Hall.
  specialize (Hall (rename_row PyStr.strip (columns df) r)).
  rewrite <- Ename, at_label_rename, Hnan in Hall.
  - discriminate Hall. unfold rename. cbn [rows]. apply in_map. now apply list_elem_of_In.
  - exact Hname.
  - intros c' Hc'. rewrite Ename. now apply Uname.
Qed.

Lemma loader_plain_blank_name_witness :
  load_employee_table sample_plain_blank = Raise AttributeError.
Proof.
  apply (loader_plain_blank_name_raises sample_plain_blank "ID" "EMPLOYEE"
           (list_to_map [("ID", Some "8"); ("EMPLOYEE", None)])).
  - intros [H _]. revert H. apply (bool_decide_unpack _). vm_compute. exact I.
  - vm_compute. repeat constructor.
  - reflexivity.
  - vm_compute. repeat constructor.
  - reflexivity.
  - intros c' Hc' E. vm_compute in Hc'.
    repeat (apply elem_of_cons in Hc' as [->|Hc']; [reflexivity || discriminate E|]).
    now apply elem_of_nil in Hc'.
  - right. left.
  - reflexivity.
Defined.

(** X5. In the plain shape the loader raises KeyError for the first of ID
    and EMPLOYEE that no trimmed label equals: ID when it is missing,
    EMPLOYEE when only that one is. *)
Theorem loader_plain_missing_column_raises (df : DataFrame) :
  ~ ("Unnamed: 1" ∈ columns df /\ "Unnamed: 2" ∈ columns df) ->
  ((forall c, c ∈ columns df -> PyStr.strip c <> "ID") ->
   load_employee_table df = Raise (KeyError "ID")) /\
  (forall cid, cid ∈ columns df -> PyStr.strip cid = "ID" ->
   (forall c, c ∈ columns df -> PyStr.strip c <> "EMPLOYEE") ->
   load_employee_table df = Raise (KeyError "EMPLOYEE")).
Proof.
  intros Hnot. rewrite (plain_shape _ Hnot), extract_and_derive_closed. split.
  - intros Hno. now rewrite decide_False by now apply renamed_label_out.
  - intros cid Hid Eid Hno.
    rewrite decide_True by (rewrite <- Eid; now apply renamed_label_in).
    now rewrite decide_False by now apply renamed_label_out.
Qed.

Lemma loader_plain_missing_column_witness :
  load_employee_table sample_plain_no_id = Raise (KeyError "ID").
Proof.
  apply (loader_plain_missing_column_raises sample_plain_no_id).
  - intros [H _]. revert H. apply (bool_decide_unpack _). vm_compute. exact I.
  - intros c Hc E. vm_compute in Hc.
    repeat (apply elem_of_cons in Hc as [->|Hc]; [discriminate E|]).
    now apply elem_of_nil in Hc.
Defined.

(** ** The column resolver: when it succeeds and what it can return *)

Lemma filter_nonempty_iff {A} (p : A -> bool) l :
  (exists c, c ∈ l /\ p c = true) <-> List.filter p l <> [].
Proof.
  split.
  - intros (c & Hc & Hp) E.
    assert (Hin : In c (List.filter p l)) by (apply List.filter_In; split; [now apply list_elem_of_In | exact Hp]).
    rewrite E in Hin. destruct Hin.
  - destruct (List.filter p l) as [|c t] eqn:E; [congruence|]. intros _.
    exists c. apply (head_filter_in p). now rewrite E.
Qed.

Lemma resolver_ok_iff df :
  (exists found, find_name_columns df = Ok found) <->
  (exists c, c ∈ columns df /\ is_first c = true) /\
  (exists c, c ∈ columns df /\ is_last c = true).
Proof.
  rewrite find_name_columns_closed, !filter_nonempty_iff.
  destruct (List.filter is_first (columns df)), (List.filter is_last (columns df));
    split; try (intros [found H]; discriminate); try (intros [H1 H2]; congruence);
    try (intros _; split; discriminate); eauto.
Qed.

(** X6. The resolver succeeds exactly when some column name contains
    FIRST and some column name contains LAST.  What it returns are labels
    of the table: the two date columns, when resolved, are DATE columns;
    a start column is resolved exactly when the table has a DATE column;
    and an end column is never resolved without a start column. *)
Theorem resolver_success_and_range (df : DataFrame) :
  ((exists found, find_name_columns df = Ok found) <->
   (exists c, c ∈ columns df /\ is_first c = true) /\
   (exists c, c ∈ columns df /\ is_last c = true)) /\
  (forall f l s e, find_name_columns df = Ok (f, l, s, e) ->
     f ∈ columns df /\ l ∈ columns df /\
     (forall c, s = Some c -> c ∈ columns df /\ is_date c = true) /\
     (forall c, e = Some c -> c ∈ columns df /\ is_date c = true) /\
     (s = None <-> none_with is_date (columns df)) /\
     (s = None -> e = None)).
Proof.
  split; [apply resolver_ok_iff|].
  intros f l s e H.
  destruct (resolver_labels _ _ _ _ _ H) as ([Hf _] & [Hl _] & Hs & He).
  split; [exact Hf|]. split; [exact Hl|]. split; [|split; [|split]].
  - intros c ->. symmetry in Hs. now apply start_choice_in.
  - intros c ->. symmetry in He. now apply end_choice_in.
  - pose proof (start_choice_truthy (columns df)) as Ht. rewrite <- Hs in Ht. split.
    + intros ->. apply filter_nil_none.
      now destruct (List.filter is_date (columns df)).
    + intros Hn. rewrite (filter_none _ _ Hn) in Ht.
      destruct s as [c|]; [|reflexivity].
      symmetry in Hs. apply start_choice_in in Hs as [_ Hd].
      apply is_date_truthy in Hd. cbn in Ht. congruence.
  - intros ->. pose proof (start_choice_truthy (columns df)) as Ht. rewrite <- Hs in Ht.
    rewrite He. apply end_choice_no_date.
    now destruct (List.filter is_date (columns df)).
Qed.

Lemma resolver_success_and_range_witness :
  "FIRSTNAME" ∈ columns sample_oig /\ "LASTNAME" ∈ columns sample_oig.
Proof.
  destruct (proj2 (resolver_success_and_range sample_oig)
              "FIRSTNAME" "LASTNAME" (Some "EXCLDATE") None eq_refl) as (H1 & H2 & _).
  split; assumption.
Defined.

(** X7. The two date roles are resolved independently and can fall on the
    same column: a column that is the first START/EFFECT date column and
    also the second date column is taken for both when no column is an
    END/REINSTATEMENT date column; so is a lone date column that is an
    END/REINSTATEMENT column. *)
Theorem resolver_roles_can_coincide (df : DataFrame) f l s e d :
  find_name_columns df = Ok (f, l, s, e) ->
  (first_with is_start_date (columns df) d /\ second_with is_date (columns df) d /\
   none_with is_end_date (columns df))
  \/ (first_with is_end_date (columns df) d /\ first_with is_date (columns df) d /\
      none_with is_start_date (columns df)) ->
  s = Some d /\ e = Some d.
Proof.
  intros H Hcase. destruct (resolver_labels _ _ _ _ _ H) as (_ & _ & -> & ->).
  unfold start_choice, end_choice.
  destruct Hcase as [(Hs & H2 & Hn) | (He & H1 & Hn)].
  - apply find_first in Hs. apply find_none in Hn. apply second_with_nth in H2.
    now rewrite Hs, Hn, H2.
  - apply find_first in He. apply find_none in Hn. apply first_with_head in H1.
    now rewrite He, Hn, H1.
Qed.

Lemma resolver_roles_can_coincide_witness :
  exists f l,
    find_name_columns (mkDF ["LASTNAME"; "FIRSTNAME"; "EXCLDATE"; "EFFECTIVE DATE"] [])
    = Ok (f, l, Some "EFFECTIVE DATE", Some "EFFECTIVE DATE").
Proof.
  destruct (find_name_columns (mkDF ["LASTNAME"; "FIRSTNAME"; "EXCLDATE"; "EFFECTIVE DATE"] []))
    as [[[[f l] s] e]|ex] eqn:E; [|discriminate E].
  destruct (resolver_roles_can_coincide _ f l s e "EFFECTIVE DATE" E) as [-> ->].
  - left. split; [|split].
    + exists ["LASTNAME"; "FIRSTNAME"; "EXCLDATE"], []. repeat split; reflexivity.
    + exists ["LASTNAME"; "FIRSTNAME"], "EXCLDATE", [], []. repeat split; reflexivity.
    + reflexivity.
  - now exists f, l.
Defined.

(** ** The matching engine: exceptions, order and size of the result *)

(** X8. When no column name contains FIRST, or none contains LAST, the
    engine raises the resolver's exception and leaves both tables exactly
    as they were. *)
Theorem screen_schema_error_changes_nothing (σ : Store) :
  none_with is_first (columns (oig_df σ)) \/ none_with is_last (columns (oig_df σ)) ->
  screen_against_oig σ
  = (σ, Raise (PyException "Could not identify FIRST_NAME or LAST_NAME columns in OIG CSV.")).
Proof.
  intros H. rewrite screen_closed. unfold screen_outcome.
  rewrite find_name_columns_closed.
  destruct H as [H|H]; rewrite (filter_none _ _ H); [reflexivity|].
  now destruct (List.filter is_first (columns (oig_df σ))).
Qed.

Lemma screen_schema_error_witness :
  screen_against_oig {| emp_df := sample_emp; oig_df := sample_oig_no_first |}
  = ({| emp_df := sample_emp; oig_df := sample_oig_no_first |},
     Raise (PyException "Could not identify FIRST_NAME or LAST_NAME columns in OIG CSV.")).
Proof.
  apply (screen_schema_error_changes_nothing
           {| emp_df := sample_emp; oig_df := sample_oig_no_first |}).
  left. reflexivity.
Defined.

(** X9. A roster without its derived name columns makes the engine raise
    KeyError, but only after the exclusion table has been written to:
    without LAST_NAME the roster is untouched and the exclusion table
    already carries its helper columns; without FIRST_NAME alone the
    roster has EMP_LAST_UP as well. *)
Theorem screen_key_error_after_writes (σ : Store) f l s e :
  find_name_columns (oig_df σ) = Ok (f, l, s, e) ->
  ("LAST_NAME" ∉ columns (emp_df σ) ->
   screen_against_oig σ
   = ({| emp_df := emp_df σ; oig_df := oig_prepared f l s e (oig_df σ) |},
      Raise (KeyError "LAST_NAME"))) /\
  ("LAST_NAME" ∈ columns (emp_df σ) -> "FIRST_NAME" ∉ columns (emp_df σ) ->
   screen_against_oig σ
   = ({| emp_df := assign "EMP_LAST_UP" (fun r => norm_cell (at_label r "LAST_NAME"))
                     (emp_df σ);
         oig_df := oig_prepared f l s e (oig_df σ) |},
      Raise (KeyError "FIRST_NAME"))) /\
  "OIG_FIRST_UP" ∈ columns (oig_prepared f l s e (oig_df σ)) /\
  "OIG_LAST_UP" ∈ columns (oig_prepared f l s e (oig_df σ)).
Proof.
  intros H. rewrite screen_closed. unfold screen_outcome. rewrite H. cbv zeta.
  split; [|split; [|split]].
  - intros Hl. now rewrite decide_False.
  - intros Hl Hf. now rewrite decide_True, decide_False.
  - unfold oig_prepared. do 2 apply assign_from_keeps. apply assign_keeps, assign_has.
  - unfold oig_prepared. do 2 apply assign_from_keeps. apply assign_has.
Qed.

Lemma screen_key_error_witness :
  snd (screen_against_oig {| emp_df := sample_emp_raw_names; oig_df := sample_oig |})
  = Raise (KeyError "LAST_NAME") /\
  columns (oig_df (fst (screen_against_oig
                          {| emp_df := sample_emp_raw_names; oig_df := sample_oig |})))
  = ["LASTNAME"; "FIRSTNAME"; "EXCLDATE"; "OIG_FIRST_UP"; "OIG_LAST_UP"; "OIG_START_DATE"].
Proof.
  destruct (screen_key_error_after_writes
              {| emp_df := sample_emp_raw_names; oig_df := sample_oig |}
              "FIRSTNAME" "LASTNAME" (Some "EXCLDATE") None eq_refl) as (H & _).
  rewrite H.
  - split; reflexivity.
  - apply (bool_decide_unpack _). vm_compute. exact I.
Defined.

(** The roster's own cells survive the join. *)
Lemma who_joined f l s e r x : who (roster_row r ∪ entry_of f l s e x) = who r.
Proof.
  unfold who.
  rewrite !joined_roster_label; try discriminate; try reflexivity;
    rewrite subset_labels_elem; intros [|[|[[_ ?]|[_ ?]]]]; discriminate.
Qed.

Lemma omap_sublist {A B C} (F : A -> option B) (h : B -> C) (g : A -> C) l :
  (forall x y, F x = Some y -> h y = g x) ->
  sublist (map h (omap F l)) (map g l).
Proof.
  intros HF. induction l as [|x l IH]; [constructor|]. cbn [omap list_omap map].
  destruct (F x) as [y|] eqn:E.
  - cbn [map]. rewrite (HF _ _ E). now apply sublist_skip.
  - now apply sublist_cons.
Qed.

(** X10. The engine never repeats or reorders employees: whenever it
    returns, the (ID, EMPLOYEE) pairs of its result, in order, are picked
    out of the roster's in roster order, each roster row at most once
    however many exclusion rows share its key; so the result has no more
    rows than the roster. *)
Theorem screen_result_within_roster (σ : Store) f l s e :
  find_name_columns (oig_df σ) = Ok (f, l, s, e) ->
  "LAST_NAME" ∈ columns (emp_df σ) -> "FIRST_NAME" ∈ columns (emp_df σ) ->
  exists σ' merged,
    screen_against_oig σ = (σ', Ok merged) /\
    sublist (map who (rows merged)) (map who (rows (emp_df σ))) /\
    (length (rows merged) <= length (rows (emp_df σ)))%nat.
Proof.
  intros H Hln Hfn.
  destruct (resolver_labels _ _ _ _ _ H) as (_ & [_ Hl] & _).
  eexists _, _. split; [apply (screen_run _ _ _ _ _ H Hln Hfn)|].
  rewrite (merged_rows _ _ _ _ _ _ Hl).
  assert (Hsub : sublist
            (map who (omap (fun r => option_map (fun x => roster_row r ∪ entry_of f l s e x)
                                       (first_excluded f l (roster_key r) (rows (oig_df σ))))
                           (rows (emp_df σ))))
            (map who (rows (emp_df σ)))).
  { apply omap_sublist. intros r y Hy.
    destruct (first_excluded f l (roster_key r) (rows (oig_df σ))); [|discriminate].
    injection Hy as <-. apply who_joined. }
  split; [exact Hsub|].
  apply sublist_length in Hsub. now rewrite !length_map in Hsub.
Qed.

Lemma screen_result_within_roster_witness :
  exists σ' merged,
    screen_against_oig sample_store = (σ', Ok merged) /\
    (length (rows merged) <= 3)%nat.
Proof.
  destruct (screen_result_within_roster sample_store "FIRSTNAME" "LASTNAME"
              (Some "EXCLDATE") None) as (σ' & merged & H1 & _ & H3).
  - reflexivity.
  - vm_compute. repeat constructor.
  - vm_compute. repeat constructor.
  - exists σ', merged. split; [exact H1 | exact H3].
Defined.

(** ** The loader and the engine together *)

Lemma norm_cell_parsed_last raw : norm_cell (Some (parse_last raw)) = Some (parse_last raw).
Proof.
  destruct (parsed_names_normal raw) as (Hu & Hs & _). cbn [norm_cell option_map].
  now rewrite Hu, Hs.
Qed.

Lemma norm_cell_parsed_first raw : norm_cell (Some (parse_first raw)) = Some (parse_first raw).
Proof.
  destruct (parsed_names_normal raw) as (_ & _ & _ & Hu & Hs & _). cbn [norm_cell option_map].
  now rewrite Hu, Hs.
Qed.

Lemma loaded_row_key r :
  loaded_row r ->
  exists raw, at_label r "EMPLOYEE" = Some raw /\
              roster_key r = [Some (parse_last raw); Some (parse_first raw)].
Proof.
  intros (raw & Hraw & Hl & Hf & _). exists raw. split; [exact Hraw|].
  unfold roster_key. now rewrite Hl, Hf, norm_cell_parsed_last, norm_cell_parsed_first.
Qed.

(** X11. For tables of ASCII text with distinct labels (those of the raw
    roster once its shape is reconciled, those of the exclusion table as
    they are): on a roster that came out of the loader the engine raises
    nothing but the resolver's exception, so whenever the columns resolve
    it returns.  Its second normalization of the names changes nothing:
    the join key of every roster row is the pair of names the loader
    derived, and the helper cells EMP_LAST_UP and EMP_FIRST_UP repeat
    LAST_NAME and FIRST_NAME. *)
Theorem loaded_roster_always_screens (raw emp oig : DataFrame) f l s e :
  ascii_frame raw -> NoDup (reconciled_labels raw) ->
  ascii_frame oig -> NoDup (columns oig) ->
  load_employee_table raw = Ok emp ->
  find_name_columns oig = Ok (f, l, s, e) ->
  exists σ' merged,
    screen_against_oig {| emp_df := emp; oig_df := oig |} = (σ', Ok merged) /\
    Forall (fun r => exists name, at_label r "EMPLOYEE" = Some name /\
                       roster_key r = [Some (parse_last name); Some (parse_first name)])
           (rows emp) /\
    Forall (fun r => at_label r "EMP_LAST_UP" = at_label r "LAST_NAME" /\
                     at_label r "EMP_FIRST_UP" = at_label r "FIRST_NAME")
           (rows (emp_df σ')).
Proof.
  intros _ _ _ _ Hload H.
  destruct (load_employee_table_inv _ _ Hload) as (Hcols & _ & Hrows).
  eexists _, _. split.
  - apply (screen_run {| emp_df := emp; oig_df := oig |} _ _ _ _ H); cbn [emp_df];
      rewrite Hcols; unfold roster_columns; set_solver.
  - cbn [emp_df]. split.
    + eapply Forall_impl; [exact Hrows|]. intros r Hr. now apply loaded_row_key.
    + rewrite rows_emp_prepared. apply Forall_forall. intros r' Hr'.
      apply list_elem_of_In, in_map_iff in Hr' as (r & <- & Hr).
      rewrite Forall_forall in Hrows. apply list_elem_of_In in Hr.
      destruct (Hrows _ Hr) as (name & _ & Hl & Hf & _).
      unfold roster_row. cbv zeta.
      rewrite (at_label_insert_ne _ "EMP_FIRST_UP" "EMP_LAST_UP") by discriminate.
      rewrite !at_label_insert_eq.
      rewrite (at_label_insert_ne _ "EMP_FIRST_UP" "LAST_NAME") by discriminate.
      rewrite !(at_label_insert_ne _ "EMP_LAST_UP") by discriminate.
      rewrite (at_label_insert_ne _ "EMP_FIRST_UP" "FIRST_NAME") by discriminate.
      rewrite !(at_label_insert_ne _ "EMP_LAST_UP") by discriminate.
      now rewrite Hl, Hf, norm_cell_parsed_last, norm_cell_parsed_first.
Qed.

Lemma loaded_roster_always_screens_witness :
  exists emp σ' merged,
    load_employee_table sample_raw = Ok emp /\
    screen_against_oig {| emp_df := emp; oig_df := sample_oig |} = (σ', Ok merged).
Proof.
  destruct (loaded_roster_always_screens sample_raw
              {| columns := roster_columns;
                 rows := [roster_entry (Some "7") (Some "Doe, Jane Q")] |}
              sample_oig "FIRSTNAME" "LASTNAME" (Some "EXCLDATE") None)
    as (σ' & merged & H1 & _).
  - reflexivity.
  - apply (bool_decide_unpack _). vm_compute. exact I.
  - reflexivity.
  - apply (bool_decide_unpack _). vm_compute. exact I.
  - reflexivity.
  - reflexivity.
  - eexists _, σ', merged. split; [reflexivity | exact H1].
Defined.

(** ** The report renderer: title, notice, exceptions and page count *)

Lemma split_all_one_line sep s :
  all_chars (fun c => negb (Ascii.eqb c sep)) s = true -> split_all sep s = [s].
Proof.
  induction s as [|c s IH]; simpl; [reflexivity|].
  intros H. apply andb_true_iff in H as [Hc H]. apply negb_true_iff in Hc.
  now rewrite Hc, (IH H).
Qed.

Lemma split_all_cut sep a b :
  all_chars (fun c => negb (Ascii.eqb c sep)) a = true ->
  split_all sep (a ++ String sep b) = a :: split_all sep b.
Proof.
  induction a as [|c a IH]; simpl.
  - intros _. now rewrite Ascii.eqb_refl.
  - intros H. apply andb_true_iff in H as [Hc H]. apply negb_true_iff in Hc.
    now rewrite Hc, (IH H).
Qed.

(** The title block of a date without a line feed: three lines. *)
Lemma title_object today :
  one_line today ->
  write (MoveCursor 0 20)
    (fold_left (fun t line => write (TextLine line) t)
       (split_all "010"
          ("H&S Pharmacies LLC" ++ String "010" ("OIG Exclusion Screening Report"
             ++ String "010" ("Date: " ++ today)))%string)
       (write (SetFont "Helvetica-Bold" 14) (beginText 40 60)))
  = title_text today.
Proof.
  intros Hday.
  rewrite (split_all_cut "010" "H&S Pharmacies LLC") by reflexivity.
  rewrite (split_all_cut "010" "OIG Exclusion Screening Report") by reflexivity.
  rewrite split_all_one_line; [reflexivity|].
  rewrite all_chars_app. now rewrite Hday.
Qed.

Lemma report_of_empty today df :
  one_line today -> Frame.empty df = true ->
  make_pdf_report today df = Ok [[title_text today; notice_text]].
Proof.
  intros Hday Hempty. unfold make_pdf_report. rewrite Hempty.
  rewrite (title_object _ Hday). reflexivity.
Qed.

(** X12. A result without rows (or without columns) is rendered as a
    single page holding the title block and the notice, with no column
    header and no data row; nothing is read from the rows, so no column
    can be missed. *)
Theorem empty_result_gives_notice_page (today : string) (df : DataFrame) :
  one_line today -> Frame.empty df = true ->
  exists page,
    make_pdf_report today df = Ok [page] /\
    page = [title_text today; notice_text] /\
    header_lines page = [] /\ data_lines page = [] /\
    lines_in (Some ("Helvetica", 12)) page
    = ["No exclusions found for any active employee this month."].
Proof.
  intros Hday Hempty. eexists. split; [now apply report_of_empty|].
  repeat split; reflexivity.
Qed.

Lemma empty_result_gives_notice_page_witness :
  make_pdf_report "April 05, 2025" (sample_merged 0)
  = Ok [[title_text "April 05, 2025"; notice_text]].
Proof.
  destruct (empty_result_gives_notice_page "April 05, 2025" (sample_merged 0))
    as (page & H & -> & _); [reflexivity | reflexivity | exact H].
Defined.

(** X13. When no roster row has the key of any exclusion row, the engine
    returns a result without rows and the report made from it is the
    single page with the notice. *)
Theorem no_overlap_gives_notice_page (σ : Store) f l s e (today : string) :
  find_name_columns (oig_df σ) = Ok (f, l, s, e) ->
  "LAST_NAME" ∈ columns (emp_df σ) -> "FIRST_NAME" ∈ columns (emp_df σ) ->
  no_overlap f l (rows (emp_df σ)) (rows (oig_df σ)) ->
  one_line today ->
  exists σ' merged,
    screen_against_oig σ = (σ', Ok merged) /\
    rows merged = [] /\
    make_pdf_report today merged = Ok [[title_text today; notice_text]].
Proof.
  intros H Hln Hfn Hno Hday.
  destruct (resolver_labels _ _ _ _ _ H) as (_ & [_ Hl] & _).
  eexists _, _. split; [apply (screen_run _ _ _ _ _ H Hln Hfn)|].
  assert (Hrows : rows (merge_inner (emp_prepared (emp_df σ))
                          (drop_duplicates key_labels_oig
                             (exclusion_entries f l s e (oig_df σ)))
                          key_labels_emp key_labels_oig) = []).
  { rewrite (merged_rows _ _ _ _ _ _ Hl).
    assert (Hall : forall r, In r (rows (emp_df σ)) ->
                     first_excluded f l (roster_key r) (rows (oig_df σ)) = None).
    { intros r Hr. unfold first_excluded.
      destruct (List.find _ (rows (oig_df σ))) as [x|] eqn:E; [|reflexivity].
      apply List.find_some in E as [Hx E]. apply bool_decide_eq_true in E.
      now destruct (Hno r x Hr Hx). }
    clear Hno. revert Hall. generalize (rows (emp_df σ)) as rws.
    induction rws as [|r rs IH]; intros Hall; [reflexivity|].
    cbn [omap list_omap]. rewrite (Hall r) by now left. cbn [option_map].
    apply IH. intros r' Hr'. apply Hall. now right. }
  split; [exact Hrows|].
  apply report_of_empty; [exact Hday|]. unfold Frame.empty. now rewrite Hrows.
Qed.

Lemma no_overlap_gives_notice_page_witness :
  exists σ' merged,
    screen_against_oig
      {| emp_df := where_rows (fun r => bool_decide (at_label r "ID" = Some "7")) sample_emp;
         oig_df := sample_oig |} = (σ', Ok merged) /\
    make_pdf_report "April 05, 2025" merged
    = Ok [[title_text "April 05, 2025"; notice_text]].
Proof.
  destruct (no_overlap_gives_notice_page
              {| emp_df := where_rows (fun r => bool_decide (at_label r "ID" = Some "7"))
                             sample_emp;
                 oig_df := sample_oig |}
              "FIRSTNAME" "LASTNAME" (Some "EXCLDATE") None "April 05, 2025")
    as (σ' & merged & H1 & _ & H3).
  - reflexivity.
  - vm_compute. repeat constructor.
  - vm_compute. repeat constructor.
  - intros r x Hr Hx. vm_compute in Hr. destruct Hr as [<-|[]].
    vm_compute in Hx. destruct Hx as [<-|[<-|[<-|[]]]]; vm_compute; discriminate.
  - reflexivity.
  - exists σ', merged. split; assumption.
Defined.

Lemma row_item_none r label : r !! label = None -> row_item r label = Raise (KeyError label).
Proof. intros E. unfold row_item. unfold cell in *. now rewrite E. Qed.

(** The loop either goes through all rows, all of them printable, or
    stops with KeyError at the first row that is not. *)
Lemma loop_total rs : forall st,
  (exists st', loop st rs = Ok st' /\ Forall printable rs) \/
  (exists label, loop st rs = Raise (KeyError label) /\
                 (label = "ID" \/ label = "EMPLOYEE") /\ ~ Forall printable rs).
Proof.
  induction rs as [|r rs IH]; intros st.
  - left. exists st. split; [reflexivity | constructor].
  - cbn [loop]. unfold loop_body.
    destruct (r !! "ID") as [idv|] eqn:Eid.
    2:{ right. exists "ID". rewrite (row_item_none _ _ Eid). cbn [rbind].
        split; [reflexivity|]. split; [now left|].
        intros Hall. apply Forall_cons in Hall as [[[v Hv] _] _]. congruence. }
    destruct (r !! "EMPLOYEE") as [namev|] eqn:Ename.
    2:{ right. exists "EMPLOYEE".
        rewrite (row_item_some r "ID") by (rewrite Eid; eauto).
        rewrite (row_item_none _ _ Ename). cbn [rbind].
        split; [reflexivity|]. split; [now right|].
        intros Hall. apply Forall_cons in Hall as [[_ [v Hv]] _]. congruence. }
    rewrite (row_item_some r "ID") by (rewrite Eid; eauto).
    rewrite (row_item_some r "EMPLOYEE") by (rewrite Ename; eauto).
    cbn [rbind].
    assert (Hr : printable r) by (split; [rewrite Eid | rewrite Ename]; eauto).
    match goal with
    | |- context [rbind (if ?b then Ok ?a else Ok ?c) _] =>
        destruct b; cbn [rbind];
        [destruct (IH a) as [(st' & E & Hall)|(label & E & Hlab & Hnot)]
        |destruct (IH c) as [(st' & E & Hall)|(label & E & Hlab & Hnot)]]
    end;
      try (left; exists st'; split; [exact E | now constructor]);
      right; exists label; (split; [exact E|]); (split; [exact Hlab|]);
      intros Hall; apply Forall_cons in Hall as [_ Hall]; contradiction.
Qed.

(** X14. A result with rows is rendered exactly when every row has an ID
    and an EMPLOYEE cell; otherwise the renderer raises KeyError for ID or
    EMPLOYEE and produces no document. *)
Theorem report_needs_id_and_employee (today : string) (df : DataFrame) :
  Frame.empty df = false ->
  ((exists doc, make_pdf_report today df = Ok doc) <-> Forall printable (rows df)) /\
  (~ Forall printable (rows df) ->
   exists label, make_pdf_report today df = Raise (KeyError label) /\
                 (label = "ID" \/ label = "EMPLOYEE")).
Proof.
  intros Hne. unfold make_pdf_report. rewrite Hne.
  match goal with |- context [loop ?st0 (rows df)] =>
    destruct (loop_total (rows df) st0) as [(st' & E & Hall)|(label & E & Hlab & Hnot)];
    rewrite E
  end; cbn [rbind]; split.
  - split; [intros _; exact Hall | intros _; eauto].
  - intros Hnot. contradiction.
  - split; [intros [doc Hdoc]; discriminate | intros Hall; contradiction].
  - intros _. eauto.
Qed.

Lemma report_needs_id_and_employee_witness :
  exists label,
    make_pdf_report "April 05, 2025"
      {| columns := ["EMPLOYEE"]; rows := [list_to_map [("EMPLOYEE", Some "Doe, Jane Q")]] |}
    = Raise (KeyError label) /\ (label = "ID" \/ label = "EMPLOYEE").
Proof.
  apply (report_needs_id_and_employee "April 05, 2025"
           {| columns := ["EMPLOYEE"];
              rows := [list_to_map [("EMPLOYEE", Some "Doe, Jane Q")]] |}).
  - reflexivity.
  - intros Hall. apply Forall_cons in Hall as [[[v Hv] _] _]. vm_compute in Hv. discriminate.
Defined.

(** The document of a result with rows: full pages of 45 data rows, then
    the page being composed when the rows ran out. *)
Lemma report_pages today df :
  Frame.empty df = false -> Forall printable (rows df) ->
  exists full lastp,
    make_pdf_report today df = Ok (full ++ [lastp]) /\
    Forall (fun p => length (data_lines p) = 45) full /\
    (length (data_lines lastp) < 45)%nat /\
    (45 * length full + length (data_lines lastp) = length (rows df))%nat.
Proof.
  intros Hne Hrows. unfold make_pdf_report. rewrite Hne.
  match goal with |- context [loop ?st (rows df)] => set (st0 := st) end.
  assert (Hd0 : data_lines (current_page st0) = []).
  { unfold current_page, st0, data_lines. cbn [canvas code drawText new_canvas t2 app].
    match goal with |- lines_in _ [?a; ?b] = _ => change [a; b] with ([a] ++ [b]) end.
    rewrite lines_in_app, title_lines by discriminate. reflexivity. }
  destruct (loop_pages (rows df) st0)
    as (st' & full & Hrun & Hlt & Hlen & Hpages & Hall & Hcat & _).
  { unfold lines_per_page. cbn. lia. }
  { now rewrite Hd0. }
  { reflexivity. }
  { exact Hrows. }
  rewrite Hrun. cbn [rbind]. exists full, (current_page st').
  rewrite save_drawText, Hpages. cbn [st0 canvas drawText new_canvas pages app].
  split; [reflexivity|]. split; [exact Hall|]. unfold lines_per_page in Hlt.
  split; [now rewrite Hlen|].
  apply (f_equal (@length string)) in Hcat.
  rewrite length_concat_map, map_app, (map_uniform _ 45 _ Hall), Hd0 in Hcat.
  cbn [map app] in Hcat.
  rewrite length_map, list_sum_app, list_sum_replicate in Hcat.
  cbn [list_sum fold_right] in Hcat. lia.
Qed.

(** X15. A result of n rows, n at least 1, is rendered on n / 45 + 1
    pages, and the last page carries n mod 45 data rows: when n is a
    multiple of 45 the document ends with a page without any data row. *)
Theorem report_page_count (today : string) (df : DataFrame) :
  Frame.empty df = false -> Forall printable (rows df) ->
  exists doc,
    make_pdf_report today df = Ok doc /\
    length doc = S (length (rows df) / 45) /\
    length (data_lines (List.last doc [])) = length (rows df) mod 45 /\
    (length (rows df) mod 45 = 0 -> data_lines (List.last doc []) = []).
Proof.
  intros Hne Hrows.
  destruct (report_pages today df Hne Hrows) as (full & lastp & Hdoc & _ & Hlt & Htotal).
  exists (full ++ [lastp]). split; [exact Hdoc|].
  assert (Hq : length full = length (rows df) / 45).
  { apply (Nat.div_unique _ 45 _ (length (data_lines lastp))); lia. }
  assert (Hm : length (data_lines lastp) = length (rows df) mod 45).
  { apply (Nat.mod_unique _ 45 (length full)); lia. }
  rewrite last_last, length_app. cbn [length]. split; [lia|]. split; [exact Hm|].
  intros H0. rewrite H0 in Hm. now destruct (data_lines lastp).
Qed.

Lemma report_page_count_witness :
  exists doc,
    make_pdf_report "April 05, 2025" (sample_merged 90) = Ok doc /\
    length doc = 3 /\ data_lines (List.last doc []) = [].
Proof.
  destruct (report_page_count "April 05, 2025" (sample_merged 90))
    as (doc & Hdoc & Hlen & _ & Hlast).
  - reflexivity.
  - apply (bool_decide_unpack _). vm_compute. exact I.
  - exists doc. split; [exact Hdoc|]. split; [exact Hlen | now apply Hlast].
Defined.

(** The loop and the lines of any font other than the data font. *)
Lemma loop_fonts rs : forall st,
  font_after None (ops (t2 st)) = Some ("Helvetica", 11) ->
  Forall printable rs ->
  exists st' full,
    loop st rs = Ok st' /\
    pages (canvas st') = pages (canvas st) ++ full /\
    forall font, font <> Some ("Helvetica", 11) ->
      map (lines_in font) (full ++ [current_page st'])
      = lines_in font (current_page st) :: replicate (length full) [].
Proof.
  induction rs as [|r rs IH]; intros st Hfont Hrows.
  - exists st, []. cbn [loop app map length replicate]. rewrite app_nil_r. auto.
  - apply Forall_cons in Hrows as [[Hid Hname] Hrows].
    cbn [loop]. unfold loop_body.
    rewrite (row_item_some _ _ Hid), (row_item_some _ _ Hname). cbn [rbind].
    fold (line_of_row r).
    assert (Hsame : forall font, font <> Some ("Helvetica", 11) ->
              lines_in font (code (canvas st) ++ [write (TextLine (line_of_row r)) (t2 st)])
              = lines_in font (current_page st)).
    { intros font Hne. unfold current_page. rewrite !lines_in_app.
      rewrite (lines_in_write_line _ _ _ _ Hfont), bool_decide_eq_false_2 by congruence.
      now rewrite app_nil_r. }
    destruct (lines_per_page <=? S (count st))%nat; cbn [rbind].
    + match goal with |- context [loop ?s rs] => destruct (IH s) as (st' & full & Hrun & Hpages & Hl) end;
        [reflexivity | exact Hrows |].
      exists st', ((code (canvas st) ++ [write (TextLine (line_of_row r)) (t2 st)]) :: full).
      split; [exact Hrun|]. split.
      * rewrite Hpages. unfold showPage, drawText. cbn [canvas pages code].
        now rewrite <- app_assoc.
      * intros font Hne. cbn [app map length replicate].
        rewrite (Hl font Hne), (Hsame font Hne). reflexivity.
    + match goal with |- context [loop ?s rs] => destruct (IH s) as (st' & full & Hrun & Hpages & Hl) end;
        [cbn [t2]; now rewrite font_after_write_line | exact Hrows |].
      exists st', full. split; [exact Hrun|]. split; [exact Hpages|].
      intros font Hne. rewrite (Hl font Hne). f_equal.
      unfold current_page at 1. cbn [canvas t2]. now apply Hsame.
Qed.

(** X16. In every document the renderer produces, for a date without a
    line feed, the three title lines stand on the first page and no other
    page has a line in the title font. *)
Theorem title_on_first_page_only (today : string) (df : DataFrame) doc :
  one_line today ->
  make_pdf_report today df = Ok doc ->
  map (lines_in (Some ("Helvetica-Bold", 14))) doc
  = title_block_lines today :: replicate (length doc - 1) [].
Proof.
  intros Hday Hdoc. destruct (Frame.empty df) eqn:Hne.
  - rewrite (report_of_empty _ _ Hday Hne) in Hdoc. injection Hdoc as <-. reflexivity.
  - unfold make_pdf_report in Hdoc. rewrite Hne, (title_object _ Hday) in Hdoc.
    match type of Hdoc with context [loop ?st (rows df)] => set (st0 := st) in Hdoc end.
    destruct (loop_total (rows df) st0) as [(st' & E & Hall)|(label & E & _)];
      rewrite E in Hdoc; cbn [rbind] in Hdoc; [|discriminate].
    destruct (loop_fonts (rows df) st0 eq_refl Hall) as (st'' & full & E' & Hpages & Hl).
    rewrite E in E'. injection E' as <-.
    injection Hdoc as <-. rewrite save_drawText, Hpages.
    cbn [st0 canvas drawText new_canvas pages app]. fold (current_page st').
    rewrite (Hl (Some ("Helvetica-Bold", 14))) by discriminate.
    rewrite length_app. cbn [length].
    replace (length full + 1 - 1) with (length full) by lia. reflexivity.
Qed.

Lemma title_on_first_page_only_witness :
  exists doc,
    make_pdf_report "April 05, 2025" (sample_merged 50) = Ok doc /\
    map (lines_in (Some ("Helvetica-Bold", 14))) doc
    = [title_block_lines "April 05, 2025"; []].
Proof.
  destruct (make_pdf_report "April 05, 2025" (sample_merged 50)) as [doc|ex] eqn:E;
    [|vm_compute in E; discriminate E].
  exists doc. split; [reflexivity|].
  rewrite (title_on_first_page_only "April 05, 2025" (sample_merged 50) doc eq_refl E).
  vm_compute in E. injection E as <-. reflexivity.
Defined.

(** ** The layout of a data row *)

Lemma length_spaces n : String.length (spaces n) = n.
Proof. induction n as [|n IH]; simpl; [reflexivity | now rewrite IH]. Qed.

Lemma length_append (a b : string) :
  String.length (a ++ b) = String.length a + String.length b.
Proof. induction a as [|c a IH]; simpl; [reflexivity | now rewrite IH]. Qed.

Lemma length_ljust w s : String.length (ljust w s) = Nat.max w (String.length s).
Proof. unfold ljust. rewrite length_append, length_spaces. lia. Qed.

Lemma prefix_append (a b : string) : String.prefix a (a ++ b) = true.
Proof. apply prefix_spec. now exists b. Qed.

(** X17. For cells of ASCII text: every field of a data row is padded
    with spaces up to its width (8, 30, 12 and 12) and never cut: the row
    starts with the whole ID text, and its length is the sum of the four
    field lengths, each at least its width, plus three separating spaces.
    So a row is as long as the column header, 65 characters, exactly when
    no field exceeds its width.  A date cell that is there but holds no
    value prints as the three letters nan, a date column that is not
    there as blanks. *)
Theorem row_line_layout (emp_id emp_name start end_ : cell) (r : gmap string cell) :
  ascii_cell emp_id = true -> ascii_cell emp_name = true ->
  ascii_cell start = true -> ascii_cell end_ = true ->
  String.length (row_line emp_id emp_name start end_)
  = Nat.max 8 (String.length (show_cell emp_id))
    + Nat.max 30 (String.length (show_cell emp_name))
    + Nat.max 12 (String.length (show_cell start))
    + Nat.max 12 (String.length (show_cell end_)) + 3 /\
  String.prefix (show_cell emp_id) (row_line emp_id emp_name start end_) = true /\
  String.length header_line = 65 /\
  (String.length (row_line emp_id emp_name start end_) = 65 <->
   (String.length (show_cell emp_id) <= 8 /\ String.length (show_cell emp_name) <= 30 /\
    String.length (show_cell start) <= 12 /\ String.length (show_cell end_) <= 12)%nat) /\
  ljust 12 (show_cell (get_or_empty (<["OIG_START_DATE" := None]> r) "OIG_START_DATE"))
  = "nan         " /\
  ljust 12 (show_cell (get_or_empty (delete "OIG_START_DATE" r) "OIG_START_DATE"))
  = "            ".
Proof.
  intros _ _ _ _.
  assert (Hlen : String.length (row_line emp_id emp_name start end_)
                 = Nat.max 8 (String.length (show_cell emp_id))
                   + Nat.max 30 (String.length (show_cell emp_name))
                   + Nat.max 12 (String.length (show_cell start))
                   + Nat.max 12 (String.length (show_cell end_)) + 3).
  { unfold row_line. rewrite !length_append, !length_ljust. cbn [String.length]. lia. }
  split; [exact Hlen|]. split; [|split; [reflexivity|split; [|split]]].
  - unfold row_line, ljust. rewrite !app_assoc_string. apply prefix_append.
  - rewrite Hlen. lia.
  - unfold get_or_empty. now rewrite lookup_insert_eq.
  - unfold get_or_empty. now rewrite lookup_delete_eq.
Qed.

Lemma row_line_layout_witness :
  String.length (row_line (Some "7") (Some "Doe, Jane Q") (Some "20240101") (Some "")) = 65.
Proof.
  destruct (row_line_layout (Some "7") (Some "Doe, Jane Q") (Some "20240101") (Some "") ∅)
    as (_ & _ & _ & [_ Hfit] & _).
  - reflexivity.
  - reflexivity.
  - reflexivity.
  - reflexivity.
  - apply Hfit. vm_compute. repeat split; repeat constructor.
Defined.

(** ** From the two tables to the document *)

(** The rows of a loaded roster are roster entries with a name. *)
Lemma loaded_entries (df emp : DataFrame) :
  load_employee_table df = Ok emp ->
  Forall (fun r => exists idv raw, r = roster_entry idv (Some raw)) (rows emp).
Proof.
  unfold load_employee_table. cbv zeta.
  match goal with |- extract_and_derive ?x = _ -> _ => set (d := x) end.
  rewrite extract_and_derive_closed.
  destruct (decide ("ID" ∈ columns d)); [|discriminate].
  destruct (decide ("EMPLOYEE" ∈ columns d)); [|discriminate].
  destruct (forallb _ (rows d)) eqn:Hall; [|discriminate].
  intros [= <-]. cbn [rows]. apply Forall_forall. intros r Hr.
  apply list_elem_of_In, in_map_iff in Hr as (r0 & <- & Hr0).
  rewrite forallb_forall in Hall. specialize (Hall _ Hr0).
  destruct (at_label r0 "EMPLOYEE") as [raw|]; [|discriminate]. eauto.
Qed.

(** The loader raises nothing but KeyError for ID or EMPLOYEE, and
    AttributeError for a row without a name. *)
Lemma loader_exceptions (df : DataFrame) ex :
  load_employee_table df = Raise ex ->
  ex = KeyError "ID" \/ ex = KeyError "EMPLOYEE" \/ ex = AttributeError.
Proof.
  unfold load_employee_table. cbv zeta.
  match goal with |- extract_and_derive ?x = _ -> _ => set (d := x) end.
  rewrite extract_and_derive_closed.
  destruct (decide ("ID" ∈ columns d)); [|intros [= <-]; tauto].
  destruct (decide ("EMPLOYEE" ∈ columns d)); [|intros [= <-]; tauto].
  destruct (forallb _ (rows d)); [discriminate | intros [= <-]; tauto].
Qed.

(** Every row of the join of a loaded roster can be printed. *)
Lemma merged_printable f l s e emp oig :
  is_last l = true ->
  Forall (fun r => exists idv raw, r = roster_entry idv (Some raw)) (rows emp) ->
  Forall printable
    (rows (merge_inner (emp_prepared emp)
             (drop_duplicates key_labels_oig (exclusion_entries f l s e oig))
             key_labels_emp key_labels_oig)).
Proof.
  intros Hl Hrows. rewrite (merged_rows _ _ _ _ _ _ Hl).
  induction Hrows as [|r rs (idv & raw & ->) _ IH]; [constructor|].
  cbn [omap list_omap].
  destruct (first_excluded f l _ (rows oig)) as [x|]; cbn [option_map]; [|exact IH].
  constructor; [|exact IH].
  split; eapply lookup_union_is_Some; left; unfold roster_row, roster_entry; cbv zeta;
    rewrite !lookup_insert_ne by discriminate; rewrite ?lookup_insert_eq; eauto.
Qed.

(** The renderer returns a document whenever every row can be printed. *)
Lemma report_total today df :
  Forall printable (rows df) -> exists doc, make_pdf_report today df = Ok doc.
Proof.
  intros Hall. unfold make_pdf_report.
  destruct (Frame.empty df); [eauto|].
  match goal with |- context [loop ?st0 (rows df)] =>
    destruct (loop_total (rows df) st0) as [(st' & E & _)|(label & _ & _ & Hnot)]
  end; [|contradiction].
  rewrite E. cbn [rbind]. eauto.
Qed.

(** Distinct images come from distinct elements. *)
Lemma NoDup_map_inj_on {A B} (g : A -> B) (l : list A) :
  NoDup (map g l) -> forall a b, a ∈ l -> b ∈ l -> g a = g b -> a = b.
Proof.
  induction l as [|x l IH]; intros Hnd a b Ha Hb E.
  - now apply elem_of_nil in Ha.
  - cbn [map] in Hnd. apply NoDup_cons in Hnd as [Hx Hnd].
    assert (Himg : forall y, y ∈ l -> g y ∈ map g l).
    { intros y Hy. apply list_elem_of_In, in_map. now apply list_elem_of_In. }
    apply elem_of_cons in Ha as [->|Ha]; apply elem_of_cons in Hb as [->|Hb].
    + reflexivity.
    + destruct Hx. rewrite E. now apply Himg.
    + destruct Hx. rewrite <- E. now apply Himg.
    + now apply IH.
Qed.

(** In the placeholder shape, with distinct labels, the loader returns. *)
Lemma placeholder_shape_loads (df : DataFrame) :
  "Unnamed: 1" ∈ columns df -> "Unnamed: 2" ∈ columns df ->
  NoDup (map placeholder_names (columns df)) ->
  exists emp, load_employee_table df = Ok emp.
Proof.
  intros H1 H2 Hnd. unfold load_employee_table.
  rewrite !bool_decide_eq_true_2 by assumption. cbn [andb]. cbv zeta.
  rewrite (extract_and_derive_renamed placeholder_names _ "Unnamed: 1" "Unnamed: 2");
    try reflexivity; try assumption; [eauto | | |].
  - intros c' Hc' E. now apply (NoDup_map_inj_on placeholder_names (columns df) Hnd).
  - intros c' Hc' E. now apply (NoDup_map_inj_on placeholder_names (columns df) Hnd).
  - cbn [rows iloc_from_1 where_rows]. apply Forall_tail_of.
    apply (Forall_filter_pass (fun r => notna (at_label r "Unnamed: 2"))).
Qed.

(** Once the roster is loaded, the resolver decides: either the engine
    returns rows that can all be printed and the renderer a document, or
    the resolver's exception comes out of the engine. *)
Lemma stage_after_load (today : string) (fetched raw_emp emp : DataFrame) :
  load_employee_table raw_emp = Ok emp ->
  match find_name_columns (rename header_form fetched) with
  | Ok _ =>
      exists σ' merged doc,
        screen_against_oig {| emp_df := emp; oig_df := rename header_form fetched |}
          = (σ', Ok merged) /\
        Forall printable (rows merged) /\
        make_pdf_report today merged = Ok doc
  | Raise ex =>
      snd (screen_against_oig {| emp_df := emp; oig_df := rename header_form fetched |})
        = Raise ex /\
      ex = PyException "Could not identify FIRST_NAME or LAST_NAME columns in OIG CSV." /\
      (none_with is_first (map header_form (columns fetched)) \/
       none_with is_last (map header_form (columns fetched)))
  end.
Proof.
  intros Hload.
  destruct (load_employee_table_inv _ _ Hload) as (Hcols & _ & _).
  pose proof (loaded_entries _ _ Hload) as Hrows.
  destruct (find_name_columns (rename header_form fetched)) as [[[[f l] s] e]|ex] eqn:H.
  - destruct (resolver_labels _ _ _ _ _ H) as (_ & [_ Hl] & _ & _).
    pose proof (merged_printable f l s e emp (rename header_form fetched) Hl Hrows) as Hprint.
    destruct (report_total today _ Hprint) as [doc Hdoc].
    eexists _, _, doc. split; [|split; [exact Hprint | exact Hdoc]].
    apply (screen_run {| emp_df := emp; oig_df := rename header_form fetched |} _ _ _ _ H);
      cbn [emp_df]; rewrite Hcols; unfold roster_columns; set_solver.
  - split.
    + unfold screen_against_oig, oig_subset_of. unfold bind at 1. unfold bind at 1.
      unfold the_frame, lift. cbn [oig_df frame]. rewrite H. reflexivity.
    + rewrite find_name_columns_closed in H. cbn [columns rename] in H.
      destruct (List.filter is_first _) eqn:Ef.
      { split; [congruence|]. left. now apply filter_nil_none. }
      destruct (List.filter is_last _) eqn:El; [|discriminate].
      split; [congruence|]. right. now apply filter_nil_none.
Qed.

(** X18. For tables of ASCII text whose labels stay distinct (those of
    the raw roster once its shape is reconciled, those of the fetched
    header once trimmed and upper-cased): when the loader returns a roster
    and the fetched header has a label containing FIRST and a label
    containing LAST, the rest of the pipeline raises nothing.  The engine
    returns, every row of its result has an ID and an EMPLOYEE cell, and
    the renderer builds the document from it. *)
Theorem loaded_roster_is_reported (today : string) (fetched raw_emp emp : DataFrame) :
  ascii_frame fetched -> NoDup (map header_form (columns fetched)) ->
  ascii_frame raw_emp -> NoDup (reconciled_labels raw_emp) ->
  load_employee_table raw_emp = Ok emp ->
  (exists c, c ∈ columns fetched /\ is_first (header_form c) = true) ->
  (exists c, c ∈ columns fetched /\ is_last (header_form c) = true) ->
  exists σ' merged doc,
    screen_against_oig {| emp_df := emp; oig_df := rename header_form fetched |}
      = (σ', Ok merged) /\
    Forall printable (rows merged) /\
    make_pdf_report today merged = Ok doc /\
    pipeline today fetched raw_emp = Ok doc.
Proof.
  intros _ _ _ _ Hload (cf & Hcf & Hf) (cl & Hcl & Hl).
  pose proof (stage_after_load today fetched raw_emp emp Hload) as Hstage.
  assert (Hres : exists found, find_name_columns (rename header_form fetched) = Ok found).
  { apply resolver_ok_iff. split.
    - exists (header_form cf). split; [now apply renamed_label_in | exact Hf].
    - exists (header_form cl). split; [now apply renamed_label_in | exact Hl]. }
  destruct Hres as [found Hres]. rewrite Hres in Hstage.
  destruct Hstage as (σ' & merged & doc & Hscreen & Hprint & Hdoc).
  exists σ', merged, doc. split; [exact Hscreen|]. split; [exact Hprint|].
  split; [exact Hdoc|].
  unfold pipeline. rewrite Hload. cbn [rbind]. rewrite Hscreen. exact Hdoc.
Qed.

Lemma loaded_roster_is_reported_witness :
  exists doc, pipeline "April 05, 2025" sample_oig_fetched sample_raw = Ok doc.
Proof.
  destruct (loaded_roster_is_reported "April 05, 2025" sample_oig_fetched sample_raw
              {| columns := roster_columns;
                 rows := [roster_entry (Some "7") (Some "Doe, Jane Q")] |})
    as (σ' & merged & doc & _ & _ & _ & Hrun).
  - reflexivity.
  - apply (bool_decide_unpack _). vm_compute. exact I.
  - reflexivity.
  - apply (bool_decide_unpack _). vm_compute. exact I.
  - reflexivity.
  - exists "FirstName ". split; [set_solver | reflexivity].
  - exists " lastname". split; [set_solver | reflexivity].
  - exists doc. exact Hrun.
Defined.

(** X19. For the same tables, the pipeline raises in two places only.
    The loader raises KeyError for ID or EMPLOYEE, or AttributeError, and
    never in the placeholder shape.  Once the roster is loaded, only the
    resolver raises, when no label of the normalized header contains
    FIRST or none contains LAST; the engine and the renderer raise
    nothing of their own. *)
Theorem pipeline_failure_points (today : string) (fetched raw_emp : DataFrame) (ex : exn) :
  ascii_frame fetched -> NoDup (map header_form (columns fetched)) ->
  ascii_frame raw_emp -> NoDup (reconciled_labels raw_emp) ->
  pipeline today fetched raw_emp = Raise ex ->
  (load_employee_table raw_emp = Raise ex /\
   (ex = KeyError "ID" \/ ex = KeyError "EMPLOYEE" \/ ex = AttributeError) /\
   ~ ("Unnamed: 1" ∈ columns raw_emp /\ "Unnamed: 2" ∈ columns raw_emp)) \/
  ((exists emp, load_employee_table raw_emp = Ok emp) /\
   ex = PyException "Could not identify FIRST_NAME or LAST_NAME columns in OIG CSV." /\
   (none_with is_first (map header_form (columns fetched)) \/
    none_with is_last (map header_form (columns fetched)))).
Proof.
  intros _ _ _ Hnd Hrun. unfold pipeline in Hrun.
  destruct (load_employee_table raw_emp) as [emp|ex0] eqn:Hload; cbn [rbind] in Hrun.
  - right. split; [eauto|].
    pose proof (stage_after_load today fetched raw_emp emp Hload) as Hstage.
    destruct (find_name_columns (rename header_form fetched)) as [found|ex1].
    + destruct Hstage as (σ' & merged & doc & Hscreen & _ & Hdoc).
      rewrite Hscreen in Hrun. cbn [snd rbind] in Hrun. congruence.
    + destruct Hstage as (Hscreen & -> & Hnone). rewrite Hscreen in Hrun.
      cbn [rbind] in Hrun. injection Hrun as <-. now split.
  - left. injection Hrun as ->. split; [reflexivity|].
    split; [now apply loader_exceptions in Hload|].
    intros [H1 H2]. unfold reconciled_labels in Hnd.
    rewrite !bool_decide_eq_true_2 in Hnd by assumption. cbn [andb] in Hnd.
    destruct (placeholder_shape_loads raw_emp H1 H2 Hnd) as [emp Hemp]. congruence.
Qed.

Lemma pipeline_failure_points_witness :
  load_employee_table sample_plain_no_id = Raise (KeyError "ID").
Proof.
  destruct (pipeline_failure_points "April 05, 2025" sample_oig_fetched sample_plain_no_id
              (KeyError "ID")) as [(H & _)|((emp & H) & _)].
  - reflexivity.
  - apply (bool_decide_unpack _). vm_compute. exact I.
  - reflexivity.
  - apply (bool_decide_unpack _). vm_compute. exact I.
  - reflexivity.
  - exact H.
  - discriminate H.
Defined.

(** ** The download *)

Lemma header_form_normal c : header_normal (header_form c).
Proof.
  unfold header_normal, header_form. split.
  - apply upper_idem.
  - now rewrite strip_upper, strip_idem.
Qed.

(** X20. The download requests the URL once.  If the request fails, its
    exception is the outcome.  Otherwise, for a header of ASCII labels,
    the table comes back with every label trimmed and upper-cased, in the
    same order, so that every label is ASCII, in upper case and without
    white space at its ends, and a second normalization would change
    nothing; the rows are as many as before, and under a label whose
    normal form no other label shares the cells are those of the fetched
    column. *)
Theorem download_normalizes_header (url : string) (w : World) :
  (forall ex, fetch_csv w url = Raise ex ->
     download_oig_csv url w = ([EvFetch url], Raise ex)) /\
  (forall df, fetch_csv w url = Ok df -> Forall ascii_text (columns df) ->
     exists df',
       download_oig_csv url w = ([EvFetch url], Ok df') /\
       columns df' = map header_form (columns df) /\
       Forall ascii_text (columns df') /\
       Forall header_normal (columns df') /\
       map header_form (columns df') = columns df' /\
       length (rows df') = length (rows df) /\
       forall c, c ∈ columns df ->
         (forall c', c' ∈ columns df -> header_form c' = header_form c -> c' = c) ->
         map (fun r => at_label r (header_form c)) (rows df')
         = map (fun r => at_label r c) (rows df)).
Proof.
  unfold download_oig_csv, io_bind, emit, ask, io_lift, io_ret. split.
  - intros ex ->. reflexivity.
  - intros df -> Hascii.
    exists (rename header_form df). cbn [app]. split; [reflexivity|].
    unfold rename. cbn [columns rows]. split; [reflexivity|].
    split; [|split; [|split; [|split]]].
    + apply Forall_forall. intros c Hc.
      apply list_elem_of_In, in_map_iff in Hc as (c0 & <- & Hc0).
      rewrite Forall_forall in Hascii. apply list_elem_of_In in Hc0.
      unfold header_form. apply ascii_upper. apply all_chars_strip. now apply Hascii.
    + apply Forall_forall. intros c Hc.
      apply list_elem_of_In, in_map_iff in Hc as (c0 & <- & _). apply header_form_normal.
    + rewrite map_map. apply map_ext. intros c.
      destruct (header_form_normal c) as [Hu Hs].
      unfold header_form at 1. now rewrite Hs, Hu.
    + apply length_map.
    + intros c Hc Huniq. rewrite map_map. apply map_ext. intros r.
      now apply at_label_rename.
Qed.

Lemma download_normalizes_header_witness :
  exists df',
    download_oig_csv OIG_CSV_URL sample_world_ok = ([EvFetch OIG_CSV_URL], Ok df') /\
    columns df' = ["LASTNAME"; "FIRSTNAME"; "EXCLDATE"] /\
    map (fun r => at_label r "FIRSTNAME") (rows df') = [Some " jane"; None].
Proof.
  destruct (proj2 (download_normalizes_header OIG_CSV_URL sample_world_ok)
              sample_oig_fetched)
    as (df' & Hrun & Hcols & _ & _ & _ & _ & Hcells).
  - reflexivity.
  - repeat constructor.
  - exists df'. split; [exact Hrun|]. split; [exact Hcols|].
    apply (Hcells "FirstName ").
    + set_solver.
    + intros c' Hc' E. cbn [columns sample_oig_fetched] in Hc'.
      rewrite !elem_of_cons, elem_of_nil in Hc'.
      destruct Hc' as [->|[->|[->|[]]]]; [discriminate E | reflexivity | discriminate E].
Defined.

(** ** The roster path and the run *)

Lemma main_closed (w : World) : main w = main_outcome w.
Proof.
  unfold main, main_outcome, pipeline, get_employee_excel_path, download_oig_csv,
    load_employee_list, io_bind, ask, emit, io_ret, io_lift, sys_exit, roster_path,
    prompt_events, output_path, header_form.
  destruct (truthy_opt (arg_employee_file w)); cbn [app negb];
    destruct (fetch_csv w OIG_CSV_URL) as [raw_oig|ex]; cbn [app negb]; try reflexivity.
  all: match goal with |- context [isfile ?v ?p] => destruct (isfile v p) end;
    cbn [app negb]; try reflexivity.
  all: match goal with |- context [read_excel ?v ?p] => destruct (read_excel v p) as [raw_emp|ex] end;
    cbn [app rbind]; try reflexivity.
  all: destruct (load_employee_table raw_emp) as [emp|ex]; cbn [app rbind]; try reflexivity.
  all: match goal with |- context [screen_against_oig ?σ] =>
         destruct (screen_against_oig σ) as [σ' [merged|ex]] end;
    cbn [app rbind snd]; try reflexivity.
  all: destruct (make_pdf_report (today_long w) merged) as [doc|ex]; reflexivity.
Qed.

(** X21. For ASCII lines typed at the prompt: a run depends on the typed
    line only through its stripped form, and not at all when the option
    has a non-empty value: two worlds that differ only in the typed line
    give the same events and the same outcome as soon as the option is
    given or the two lines are equal once stripped.  Without the option,
    a roster is read only under the stripped line, a path without white
    space at its ends that names an existing file. *)
Theorem typed_path_up_to_strip (w : World) (line : string) :
  ascii_text (stdin_line w) -> ascii_text line ->
  (truthy_opt (arg_employee_file w) = true \/
   PyStr.strip line = PyStr.strip (stdin_line w) ->
   main (with_stdin line w) = main w) /\
  (truthy_opt (arg_employee_file w) = false ->
   forall p, In (EvReadExcel p) (fst (main w)) ->
     p = PyStr.strip (stdin_line w) /\ PyStr.strip p = p /\ isfile w p = true).
Proof.
  intros _ _. rewrite !main_closed. unfold main_outcome, roster_path, prompt_events,
    output_path. cbn [with_stdin arg_employee_file stdin_line isfile fetch_csv read_excel
                      today_long today_mmddyyyy]. split.
  - intros [Ht|Heq]; [now rewrite Ht | now rewrite Heq].
  - intros Ht p. rewrite Ht. cbv zeta.
    destruct (fetch_csv w OIG_CSV_URL) as [raw_oig|ex0]; cbn [fst app In].
    2:{ intros [H|[H|[H|[]]]]; discriminate H. }
    destruct (isfile w (PyStr.strip (stdin_line w))) eqn:Hfile; cbn [negb fst app In].
    2:{ intros [H|[H|[H|[H|[]]]]]; discriminate H. }
    destruct (rbind _ _) as [doc|ex0]; cbn [fst app In].
    + intros [H|[H|[H|[H|[H|[H|[]]]]]]]; try discriminate H. injection H as <-.
      split; [reflexivity|]. split; [apply strip_idem | exact Hfile].
    + intros [H|[H|[H|[H|[]]]]]; try discriminate H. injection H as <-.
      split; [reflexivity|]. split; [apply strip_idem | exact Hfile].
Qed.

Lemma typed_path_up_to_strip_witness :
  main (with_stdin "roster.xlsx" sample_world_ok) = main sample_world_ok.
Proof.
  apply (typed_path_up_to_strip sample_world_ok "roster.xlsx").
  - reflexivity.
  - reflexivity.
  - right. reflexivity.
Defined.
